(** * Nexus-caiwu-skill: the industry-aware financial health scoring engine

    A shallow embedding of the scoring core of the repository
    ([scripts/industry_benchmarks.py], [scripts/industry_classifier.py],
    [scripts/industry_scorer.py] and the metric and health-score functions
    of [scripts/fetch_data.py]) together with the properties stated about
    it.

    Conventions of the embedding.
    - A Python [str] is the list of its Unicode code points ([pystr]);
      string literals are written [u "..."], which decodes the UTF-8 text
      of the literal.
    - Numbers are modelled twice.  In the exact model a Python number
      (int or float) is a rational of [Q], arithmetic is exact, [round(x, 2)]
      is rounding to the nearest hundredth, ties to even, and no conversion
      fails; it carries the properties that do not depend on how a result
      is rounded: bounds, monotonicity, comparisons with literals, the
      structure of the results.  In the binary64 model (modules [Binary64],
      [IndustryScorer64] and [FetchData64]) a float is an IEEE 754 binary64
      number with the operations of the machine, an int is unbounded,
      [float(n)] raises [OverflowError] beyond the float range and
      [round(x, 2)] is the correctly rounded result of the interpreter; it
      carries the properties that pin a computed value or that say which
      inputs raise.
    - A value stored in a metrics or statement dictionary is [None] or a
      number ([pyval], [Binary64.pyvalue]); dictionaries that are only
      looked up are [gmap]s, dictionaries whose iteration order matters are
      association lists.
    - Operations that can raise in Python (true division, [max] of an
      empty sequence, [float] of an int) return in the error monad [res]. *)

From Stdlib Require Import ZArith QArith Qround Qabs Lia Lqa List String Ascii Sorted.
From Stdlib.Strings Require Import Byte.
From Stdlib Require Import Floats.
From stdpp Require Import gmap strings list.

Local Open Scope Z_scope.

(** ** Python strings *)

Abbreviation pystr := (list N).

(** Decoding of UTF-8: the code points of a byte sequence. *)
Fixpoint utf8_decode (bs : list N) : list N :=
  match bs with
  | [] => []
  | b :: r =>
      if (b <? 128)%N then b :: utf8_decode r
      else if (b <? 224)%N then
        match r with
        | c1 :: r1 => ((b - 192) * 64 + (c1 - 128))%N :: utf8_decode r1
        | _ => []
        end
      else if (b <? 240)%N then
        match r with
        | c1 :: c2 :: r2 =>
            ((b - 224) * 4096 + (c1 - 128) * 64 + (c2 - 128))%N :: utf8_decode r2
        | _ => []
        end
      else
        match r with
        | c1 :: c2 :: c3 :: r3 =>
            ((b - 240) * 262144 + (c1 - 128) * 4096 + (c2 - 128) * 64 + (c3 - 128))%N
              :: utf8_decode r3
        | _ => []
        end
  end.

Definition u (s : string) : pystr :=
  utf8_decode (map Byte.to_N (list_byte_of_string s)).

(** [s.startswith(p)] *)
Fixpoint startswith (s p : pystr) : bool :=
  match p, s with
  | [], _ => true
  | _ :: _, [] => false
  | c :: p', d :: s' => (c =? d)%N && startswith s' p'
  end.

(** [sub in s] for strings: [sub] occurs in [s] as a contiguous run. *)
Fixpoint contains (s sub : pystr) : bool :=
  startswith s sub ||
  match s with
  | [] => false
  | _ :: s' => contains s' sub
  end.

(** [x in l] for a list of strings. *)
Definition str_in (x : pystr) (l : list pystr) : bool := bool_decide (x ∈ l).

(** [str.isspace] on one code point: the characters [str.strip()] removes. *)
Definition py_isspace (c : N) : bool :=
  ((9 <=? c) && (c <=? 13) || (28 <=? c) && (c <=? 32) || (c =? 133) || (c =? 160)
   || (c =? 5760) || (8192 <=? c) && (c <=? 8202) || (c =? 8232) || (c =? 8233)
   || (c =? 8239) || (c =? 8287) || (c =? 12288))%N.

Fixpoint lstrip (s : pystr) : pystr :=
  match s with
  | c :: s' => if py_isspace c then lstrip s' else s
  | [] => []
  end.

Definition strip (s : pystr) : pystr := rev (lstrip (rev (lstrip s))).

(** A string that does not begin with white space, and a string that
    neither begins nor ends with it. *)
Definition no_leading_space (s : pystr) : Prop :=
  match s with
  | c :: _ => py_isspace c = false
  | [] => True
  end.

Definition trimmed (s : pystr) : Prop :=
  no_leading_space s /\ no_leading_space (rev s).

(** [s.zfill(width)]: zeros are inserted after a leading sign. *)
Definition zfill (width : nat) (s : pystr) : pystr :=
  let fill := repeat 48%N (width - length s) in
  match s with
  | c :: s' => if ((c =? 43) || (c =? 45))%N then c :: fill ++ s' else fill ++ s
  | [] => fill
  end.

(** [sep.join(l)] *)
Fixpoint join (sep : pystr) (l : list pystr) : pystr :=
  match l with
  | [] => []
  | [x] => x
  | x :: l' => x ++ sep ++ join sep l'
  end.

(** [str.lower] on the ASCII letters; every other code point is kept.  It
    agrees with Python's [str.lower] on text whose cased characters are
    ASCII, which covers the benchmark table.  The classifier below takes
    [str.lower] as a parameter and is instantiated with this function when
    it is evaluated on concrete text. *)
Definition ascii_lower (s : pystr) : pystr :=
  map (fun c => if ((65 <=? c) && (c <=? 90))%N then (c + 32)%N else c) s.

(** ** Python numbers *)

Definition Qltb (a b : Q) : bool := negb (Qle_bool b a).
Definition Qleb (a b : Q) : bool := Qle_bool a b.
Definition Qgtb (a b : Q) : bool := Qltb b a.
Definition Qgeb (a b : Q) : bool := Qleb b a.

(** [max(0, x)] *)
Definition max0 (x : Q) : Q := if Qltb 0 x then x else 0%Q.

(** Rounding to the nearest integer, ties to even. *)
Definition round_half_even (q : Q) : Z :=
  let f := Qfloor q in
  match (q - inject_Z f ?= 1 # 2)%Q with
  | Lt => f
  | Gt => f + 1
  | Eq => if Z.even f then f else f + 1
  end.

(** [round(q, 2)] *)
Definition round2 (q : Q) : Q := Qmake (round_half_even (q * 100)) 100.

(** A dictionary value: [None] or a number. *)
Inductive pyval :=
  | PyNone
  | PyNum (q : Q).

(** [d.get(k)]: [None] when the key is absent. *)
Definition dict_get (d : gmap pystr pyval) (k : pystr) : pyval :=
  default PyNone (d !! k).

(** [v or dflt] for a numeric default: [None] and zero are falsy. *)
Definition or_num (v : pyval) (dflt : Q) : Q :=
  match v with
  | PyNum q => if Qeq_bool q 0 then dflt else q
  | PyNone => dflt
  end.

(** ** Errors *)

Inductive pyerr :=
  | ZeroDivisionError
  | ValueError
  | OverflowError.

Inductive res (A : Type) :=
  | Ok (a : A)
  | Raise (e : pyerr).
Arguments Ok {A} a.
Arguments Raise {A} e.

#[global] Instance res_bind : MBind res := fun A B k m =>
  match m with
  | Ok a => k a
  | Raise e => Raise e
  end.

#[global] Instance res_ret : MRet res := fun A a => Ok a.

(** True division [a / b]. *)
Definition pydiv (a b : Q) : res Q :=
  if Qeq_bool b 0 then Raise ZeroDivisionError else Ok (a / b)%Q.

(** ** The generic health scorer and derived metrics of [fetch_data.py] *)

Module FetchData.

Record dimension := {
  score : Z;
  max : Z;
  detail : pystr
}.

Record dimensions_t := {
  profitability : dimension;
  solvency : dimension;
  efficiency : dimension;
  growth : dimension;
  cashflow : dimension
}.

Record health_result := {
  total_score : Z;
  risk_level : pystr;
  dimensions : dimensions_t
}.

Definition calculate_health_score_v2 (metrics : gmap pystr pyval) : health_result :=
  (* 1. profitability, from ROE *)
  let roe := or_num (dict_get metrics (u "roe")) 0 in
  let profitability :=
    if Qgtb roe 15 then {| score := 25; max := 25; detail := u "优秀 (ROE>15%)" |}
    else if Qgtb roe 10 then {| score := 20; max := 25; detail := u "良好 (ROE 10-15%)" |}
    else if Qgtb roe 5 then {| score := 15; max := 25; detail := u "一般 (ROE 5-10%)" |}
    else if Qgtb roe 0 then {| score := 10; max := 25; detail := u "较弱 (ROE 0-5%)" |}
    else {| score := 0; max := 25; detail := u "亏损" |} in
  (* 2. solvency, from the debt ratio *)
  let debt_ratio := or_num (dict_get metrics (u "debt_ratio")) 100 in
  let solvency :=
    if Qltb debt_ratio 40 then {| score := 25; max := 25; detail := u "低风险 (负债率<40%)" |}
    else if Qltb debt_ratio 50 then {| score := 20; max := 25; detail := u "适中 (负债率40-50%)" |}
    else if Qltb debt_ratio 60 then {| score := 15; max := 25; detail := u "需关注 (负债率50-60%)" |}
    else if Qltb debt_ratio 70 then {| score := 10; max := 25; detail := u "较高 (负债率60-70%)" |}
    else {| score := 5; max := 25; detail := u "高风险 (负债率>70%)" |} in
  (* 3. efficiency, from the asset turnover *)
  let turnover := or_num (dict_get metrics (u "asset_turnover")) 0 in
  let efficiency :=
    if Qgtb turnover 1.0 then {| score := 20; max := 20; detail := u "高效 (周转率>1.0)" |}
    else if Qgtb turnover 0.7 then {| score := 15; max := 20; detail := u "良好 (周转率0.7-1.0)" |}
    else if Qgtb turnover 0.5 then {| score := 10; max := 20; detail := u "一般 (周转率0.5-0.7)" |}
    else if Qgtb turnover 0.3 then {| score := 5; max := 20; detail := u "较低 (周转率0.3-0.5)" |}
    else {| score := 0; max := 20; detail := u "低效 (周转率<0.3)" |} in
  (* 4. growth, from the net profit margin *)
  let npm := or_num (dict_get metrics (u "net_profit_margin")) 0 in
  let growth :=
    if Qgtb npm 10 then {| score := 12; max := 15; detail := u "良好 (需历史数据确认)" |}
    else if Qgtb npm 5 then {| score := 8; max := 15; detail := u "一般 (需历史数据确认)" |}
    else {| score := 5; max := 15; detail := u "待评估" |} in
  (* 5. cash-flow quality *)
  let ocf_ratio := or_num (dict_get metrics (u "ocf_to_np")) 0 in
  let cashflow :=
    if Qgtb ocf_ratio 1.2 then {| score := 15; max := 15; detail := u "优秀 (现金流/净利润>1.2)" |}
    else if Qgtb ocf_ratio 1.0 then {| score := 12; max := 15; detail := u "良好 (现金流/净利润>1.0)" |}
    else if Qgtb ocf_ratio 0.8 then {| score := 8; max := 15; detail := u "一般 (现金流/净利润 0.8-1.0)" |}
    else if Qgtb ocf_ratio 0.5 then {| score := 4; max := 15; detail := u "需关注 (现金流/净利润 0.5-0.8)" |}
    else if Qgtb ocf_ratio 0 then {| score := 2; max := 15; detail := u "较差 (现金流/净利润<0.5)" |}
    else {| score := 0; max := 15; detail := u "很差 (经营现金流为负)" |} in
  let total_score :=
    score profitability + score solvency + score efficiency + score growth
    + score cashflow in
  let risk_level :=
    if (total_score >=? 80) then u "低风险"
    else if (total_score >=? 60) then u "中低风险"
    else if (total_score >=? 40) then u "中等风险"
    else if (total_score >=? 20) then u "中高风险"
    else u "高风险" in
  {| total_score := total_score;
     risk_level := risk_level;
     dimensions := {| profitability := profitability; solvency := solvency;
                      efficiency := efficiency; growth := growth;
                      cashflow := cashflow |} |}.

(** [safe_float(value)] with the default [0.0], on [None] or a number. *)
Definition safe_float (value : pyval) : Q :=
  match value with
  | PyNone => 0%Q
  | PyNum q => q
  end.

(** [d.get(k1) or d.get(k2) or ... or 0]: the first truthy field, else 0. *)
Fixpoint first_truthy (d : gmap pystr pyval) (keys : list pystr) : pyval :=
  match keys with
  | [] => PyNum 0
  | k :: keys' =>
      match dict_get d k with
      | PyNum q => if Qeq_bool q 0 then first_truthy d keys' else PyNum q
      | PyNone => first_truthy d keys'
      end
  end.

(** [e if c else None] for a number [c]. *)
Definition if_truthy (c : Q) (e : res pyval) : res pyval :=
  if Qeq_bool c 0 then Ok PyNone else e.

(** [round(q, 2)] of a quotient, as a dictionary value. *)
Definition rounded (q : res Q) : res pyval :=
  x ← q; Ok (PyNum (round2 x)).

(** The statement fields read by [calculate_advanced_metrics]. *)
Definition revenue_of (income : gmap pystr pyval) : Q :=
  safe_float (first_truthy income [u "TOTAL_OPERATE_INCOME"; u "营业收入"; u "营业总收入"]).
Definition cost_of (income : gmap pystr pyval) : Q :=
  safe_float (first_truthy income [u "TOTAL_OPERATE_COST"; u "营业成本"]).
Definition net_profit_of (income : gmap pystr pyval) : Q :=
  safe_float (first_truthy income
                [u "NETPROFIT"; u "净利润"; u "归属于母公司所有者的净利润"]).
Definition operating_profit_of (income : gmap pystr pyval) : Q :=
  safe_float (first_truthy income [u "OPERATE_PROFIT"; u "营业利润"]).
Definition total_assets_of (balance : gmap pystr pyval) : Q :=
  safe_float (first_truthy balance [u "TOTAL_ASSETS"; u "资产总计"]).
Definition total_liabilities_of (balance : gmap pystr pyval) : Q :=
  safe_float (first_truthy balance [u "TOTAL_LIABILITIES"; u "负债合计"]).
Definition current_assets_of (balance : gmap pystr pyval) : Q :=
  safe_float (first_truthy balance [u "TOTAL_CURRENT_ASSETS"; u "流动资产合计"]).
Definition current_liabilities_of (balance : gmap pystr pyval) : Q :=
  safe_float (first_truthy balance [u "TOTAL_CURRENT_LIABILITIES"; u "流动负债合计"]).
Definition inventory_of (balance : gmap pystr pyval) : Q :=
  safe_float (first_truthy balance [u "INVENTORY"; u "存货"]).

(** Net assets: [equity = total_assets - total_liabilities]. *)
Definition equity_of (balance : gmap pystr pyval) : Q :=
  (total_assets_of balance - total_liabilities_of balance)%Q.

(** The cash-flow block of [calculate_advanced_metrics]. *)
Definition cashflow_metrics (net_profit : Q) (cashflow : gmap pystr pyval)
    (metrics : gmap pystr pyval) : res (gmap pystr pyval) :=
  let operating_cf := safe_float (first_truthy cashflow [u "NETCASH_OPERATE"]) in
  let investing_cf := safe_float (first_truthy cashflow [u "NETCASH_INVEST"]) in
  let financing_cf := safe_float (first_truthy cashflow [u "NETCASH_FINANCE"]) in
  let capex := safe_float (first_truthy cashflow [u "CONSTRUCT_LONG_ASSET"]) in
  let net_cash_increase := safe_float (first_truthy cashflow [u "CCE_ADD"]) in
  let ending_cash := safe_float (first_truthy cashflow [u "END_CCE"]) in
  let dividends_paid := safe_float (first_truthy cashflow [u "ASSIGN_DIVIDEND_PORFIT"]) in
  metrics ←
    (if negb (Qeq_bool net_profit 0) then
       v ← if_truthy operating_cf
             (rounded (r ← pydiv operating_cf net_profit; Ok (r * 100)%Q));
       Ok (<[u "ocf_to_np" := v]> metrics)
     else Ok metrics);
  v ← if_truthy operating_cf (rounded (pydiv operating_cf 100000000));
  let metrics := <[u "operating_cash_flow_billion" := v]> metrics in
  v ← rounded (pydiv investing_cf 100000000);
  let metrics := <[u "investing_cash_flow_billion" := v]> metrics in
  v ← rounded (pydiv financing_cf 100000000);
  let metrics := <[u "financing_cash_flow_billion" := v]> metrics in
  v ← if_truthy operating_cf (rounded (pydiv (operating_cf - capex) 100000000));
  let metrics := <[u "free_cash_flow_billion" := v]> metrics in
  v ← if_truthy capex (rounded (pydiv capex 100000000));
  let metrics := <[u "capex_billion" := v]> metrics in
  v ← rounded (pydiv net_cash_increase 100000000);
  let metrics := <[u "net_cash_increase_billion" := v]> metrics in
  v ← if_truthy ending_cash (rounded (pydiv ending_cash 100000000));
  let metrics := <[u "ending_cash_billion" := v]> metrics in
  v ← if_truthy dividends_paid (rounded (pydiv dividends_paid 100000000));
  let metrics := <[u "dividends_paid_billion" := v]> metrics in
  metrics ←
    (if Qgtb operating_cf 0 && Qgtb net_profit 0 then
       v ← rounded (pydiv operating_cf net_profit);
       Ok (<[u "cash_quality" := v]> metrics)
     else if Qltb operating_cf 0 then
       Ok (<[u "cash_quality" := PyNum (-1)]> metrics)
     else Ok metrics);
  if negb (Qeq_bool operating_cf 0) then
    v ← if_truthy capex
          (x ← (r ← pydiv capex operating_cf; Ok (Qabs (r * 100)));
           Ok (PyNum (round2 x)));
    Ok (<[u "capex_ratio" := v]> metrics)
  else Ok metrics.

Definition calculate_advanced_metrics (income balance : gmap pystr pyval)
    (cashflow : option (gmap pystr pyval)) : res (gmap pystr pyval) :=
  let metrics : gmap pystr pyval := ∅ in
  let revenue := revenue_of income in
  let cost := cost_of income in
  let net_profit := net_profit_of income in
  let operating_profit := operating_profit_of income in
  let total_assets := total_assets_of balance in
  let total_liabilities := total_liabilities_of balance in
  let current_assets := current_assets_of balance in
  let current_liabilities := current_liabilities_of balance in
  let inventory := inventory_of balance in
  let equity := equity_of balance in
  (* profitability *)
  metrics ←
    (if Qgtb revenue 0 then
       gm ← if_truthy cost
              (rounded (r ← pydiv (revenue - cost) revenue; Ok (r * 100)%Q));
       om ← if_truthy operating_profit
              (rounded (r ← pydiv operating_profit revenue; Ok (r * 100)%Q));
       Ok (<[u "operating_margin" := om]> (<[u "gross_margin" := gm]> metrics))
     else Ok metrics);
  metrics ←
    (if Qgtb equity 0 then
       v ← if_truthy net_profit
             (rounded (r ← pydiv net_profit equity; Ok (r * 100)%Q));
       Ok (<[u "roe" := v]> metrics)
     else Ok metrics);
  metrics ←
    (if Qgtb total_assets 0 then
       v ← if_truthy net_profit
             (rounded (r ← pydiv net_profit total_assets; Ok (r * 100)%Q));
       Ok (<[u "roa" := v]> metrics)
     else Ok metrics);
  (* solvency *)
  metrics ←
    (if Qgtb current_liabilities 0 then
       cr ← if_truthy current_assets (rounded (pydiv current_assets current_liabilities));
       qr ← if_truthy current_assets
              (rounded (pydiv (current_assets - inventory) current_liabilities));
       Ok (<[u "quick_ratio" := qr]> (<[u "current_ratio" := cr]> metrics))
     else Ok metrics);
  (* leverage *)
  metrics ←
    (if Qgtb equity 0 then
       v ← rounded (pydiv total_assets equity);
       Ok (<[u "equity_multiplier" := v]> metrics)
     else Ok metrics);
  (* asset turnover *)
  metrics ←
    (if Qgtb total_assets 0 then
       v ← if_truthy revenue (rounded (pydiv revenue total_assets));
       Ok (<[u "asset_turnover" := v]> metrics)
     else Ok metrics);
  (* cash flow *)
  match cashflow with
  | Some cf =>
      if bool_decide (cf = ∅) then Ok metrics
      else cashflow_metrics net_profit cf metrics
  | None => Ok metrics
  end.

(** The dimension scores of a result, in the order profitability, solvency,
    efficiency, growth, cashflow. *)
Definition dimension_scores (r : health_result) : list Z :=
  let d := dimensions r in
  [score (profitability d); score (solvency d); score (efficiency d);
   score (growth d); score (cashflow d)].

(** The metrics of the end-to-end example. *)
Definition example_metrics : gmap pystr pyval :=
  list_to_map
    [(u "roe", PyNum 25.18); (u "debt_ratio", PyNum 12.81);
     (u "asset_turnover", PyNum 0.43); (u "net_profit_margin", PyNum 51.11);
     (u "ocf_to_np", PyNum 57.1)].


(** Statement rows used as examples: a profitable company, a balance
    sheet whose liabilities exceed the assets, and an income statement
    with neither cost nor profit. *)
Definition example_income : gmap pystr pyval :=
  list_to_map
    [(u "TOTAL_OPERATE_INCOME", PyNum 1000); (u "TOTAL_OPERATE_COST", PyNum 600);
     (u "NETPROFIT", PyNum 100)].

Definition example_balance : gmap pystr pyval :=
  list_to_map [(u "TOTAL_ASSETS", PyNum 500); (u "TOTAL_LIABILITIES", PyNum 300)].

Definition insolvent_balance : gmap pystr pyval :=
  list_to_map [(u "TOTAL_ASSETS", PyNum 100); (u "TOTAL_LIABILITIES", PyNum 150)].

Definition bare_income : gmap pystr pyval :=
  list_to_map [(u "TOTAL_OPERATE_INCOME", PyNum 1000)].

(** The points of the five dimensions as functions of the driving value,
    the threshold chains of [calculate_health_score_v2]. *)
Definition profitability_points (roe : Q) : Z :=
  if Qgtb roe 15 then 25 else if Qgtb roe 10 then 20
  else if Qgtb roe 5 then 15 else if Qgtb roe 0 then 10 else 0.

Definition solvency_points (debt_ratio : Q) : Z :=
  if Qltb debt_ratio 40 then 25 else if Qltb debt_ratio 50 then 20
  else if Qltb debt_ratio 60 then 15 else if Qltb debt_ratio 70 then 10 else 5.

Definition efficiency_points (turnover : Q) : Z :=
  if Qgtb turnover 1.0 then 20 else if Qgtb turnover 0.7 then 15
  else if Qgtb turnover 0.5 then 10 else if Qgtb turnover 0.3 then 5 else 0.

Definition growth_points (npm : Q) : Z :=
  if Qgtb npm 10 then 12 else if Qgtb npm 5 then 8 else 5.

Definition cashflow_points (ocf_ratio : Q) : Z :=
  if Qgtb ocf_ratio 1.2 then 15 else if Qgtb ocf_ratio 1.0 then 12
  else if Qgtb ocf_ratio 0.8 then 8 else if Qgtb ocf_ratio 0.5 then 4
  else if Qgtb ocf_ratio 0 then 2 else 0.

(** [convert_stock_code]: the exchange prefix of the data source.  The
    third test is written after the first and is kept as in the source. *)
Definition convert_stock_code (stock_code : pystr) : pystr :=
  let stock_code := strip stock_code in
  if startswith stock_code (u "6") then u "SH" ++ stock_code
  else if startswith stock_code (u "0") || startswith stock_code (u "3")
  then u "SZ" ++ stock_code
  else if startswith stock_code (u "68") then u "SH" ++ stock_code
  else if startswith stock_code (u "8") || startswith stock_code (u "4")
  then u "BJ" ++ stock_code
  else stock_code.

(** [col in row and row[col] is not None] *)
Definition has_value (row : gmap pystr pyval) (col : pystr) : bool :=
  match row !! col with
  | Some (PyNum _) => true
  | _ => false
  end.

(** The loops of [extract_key_metrics]: the value of the first column of
    the list that the row holds and that is not [None]. *)
Definition first_column (row : gmap pystr pyval) (cols : list pystr) : option Q :=
  match find (has_value row) cols with
  | Some col => Some (safe_float (dict_get row col))
  | None => None
  end.

(** The columns [extract_key_metrics] tries, in this order. *)
Definition revenue_columns : list pystr :=
  [u "TOTAL_OPERATE_INCOME"; u "营业收入"; u "operating_revenue"; u "营业总收入"].
Definition net_profit_columns : list pystr :=
  [u "NETPROFIT"; u "净利润"; u "net_profit"; u "归属于母公司所有者的净利润"].
Definition total_assets_columns : list pystr :=
  [u "TOTAL_ASSETS"; u "资产总计"; u "total_assets"].
Definition total_liabilities_columns : list pystr :=
  [u "TOTAL_LIABILITIES"; u "负债合计"; u "total_liabilities"].

Definition extract_key_metrics (income balance : gmap pystr pyval)
  : res (gmap pystr pyval) :=
  let metrics : gmap pystr pyval := ∅ in
  (* revenue and net profit, in units of 1e8 *)
  metrics ←
    match first_column income revenue_columns with
    | Some x => v ← pydiv x 100000000; Ok (<[u "revenue_billion" := PyNum v]> metrics)
    | None => Ok metrics
    end;
  metrics ←
    match first_column income net_profit_columns with
    | Some x => v ← pydiv x 100000000; Ok (<[u "net_profit_billion" := PyNum v]> metrics)
    | None => Ok metrics
    end;
  (* net profit margin *)
  metrics ←
    match metrics !! u "revenue_billion", metrics !! u "net_profit_billion" with
    | Some revenue_billion, Some net_profit_billion =>
        let revenue_billion := safe_float revenue_billion in
        let net_profit_billion := safe_float net_profit_billion in
        if Qgtb revenue_billion 0 then
          r ← pydiv net_profit_billion revenue_billion;
          Ok (<[u "net_profit_margin" := PyNum (round2 (r * 100))]> metrics)
        else Ok metrics
    | _, _ => Ok metrics
    end;
  (* total assets and liabilities, in units of 1e8 *)
  metrics ←
    match first_column balance total_assets_columns with
    | Some x => v ← pydiv x 100000000; Ok (<[u "total_assets_billion" := PyNum v]> metrics)
    | None => Ok metrics
    end;
  metrics ←
    match first_column balance total_liabilities_columns with
    | Some x =>
        v ← pydiv x 100000000; Ok (<[u "total_liabilities_billion" := PyNum v]> metrics)
    | None => Ok metrics
    end;
  (* debt ratio *)
  match metrics !! u "total_assets_billion", metrics !! u "total_liabilities_billion" with
  | Some total_assets_billion, Some total_liabilities_billion =>
      let total_assets_billion := safe_float total_assets_billion in
      let total_liabilities_billion := safe_float total_liabilities_billion in
      if Qgtb total_assets_billion 0 then
        r ← pydiv total_liabilities_billion total_assets_billion;
        Ok (<[u "debt_ratio" := PyNum (round2 (r * 100))]> metrics)
      else Ok metrics
  | _, _ => Ok metrics
  end.

(** [dupont_analysis]: the three factors of the return on equity and their
    product. *)
Definition dupont_analysis (income balance : gmap pystr pyval)
  : res (gmap pystr pyval) :=
  let revenue := safe_float (first_truthy income [u "TOTAL_OPERATE_INCOME"; u "营业收入"]) in
  let net_profit := safe_float (first_truthy income [u "NETPROFIT"; u "净利润"]) in
  let total_assets := safe_float (first_truthy balance [u "TOTAL_ASSETS"; u "资产总计"]) in
  let total_liabilities :=
    safe_float (first_truthy balance [u "TOTAL_LIABILITIES"; u "负债合计"]) in
  let equity := (total_assets - total_liabilities)%Q in
  let dupont : gmap pystr pyval := ∅ in
  dupont ←
    (if Qgtb revenue 0 then
       r ← pydiv net_profit revenue;
       Ok (<[u "net_margin" := PyNum (round2 (r * 100))]> dupont)
     else Ok dupont);
  dupont ←
    (if Qgtb total_assets 0 then
       r ← pydiv revenue total_assets;
       Ok (<[u "asset_turnover" := PyNum (round2 r)]> dupont)
     else Ok dupont);
  dupont ←
    (if Qgtb equity 0 then
       r ← pydiv total_assets equity;
       Ok (<[u "equity_multiplier" := PyNum (round2 r)]> dupont)
     else Ok dupont);
  match dupont !! u "net_margin", dupont !! u "asset_turnover",
        dupont !! u "equity_multiplier" with
  | Some net_margin, Some asset_turnover, Some equity_multiplier =>
      r ← pydiv (safe_float net_margin * safe_float asset_turnover
                 * safe_float equity_multiplier) 100;
      Ok (<[u "roe_dupont" := PyNum (round2 r)]> dupont)
  | _, _, _ => Ok dupont
  end.

(** The metrics the callers score ([analyze_stock] and the network client):
    [{**basic_metrics, **advanced_metrics}], the advanced metrics taking
    precedence. *)
Definition key_metrics (income balance cashflow : gmap pystr pyval)
  : res (gmap pystr pyval) :=
  basic_metrics ← extract_key_metrics income balance;
  advanced_metrics ← calculate_advanced_metrics income balance (Some cashflow);
  Ok (advanced_metrics ∪ basic_metrics).

(** The health score [analyze_stock] computes from the latest statement
    rows. *)
Definition statement_health_score (income balance cashflow : gmap pystr pyval)
  : res health_result :=
  all_metrics ← key_metrics income balance cashflow;
  Ok (calculate_health_score_v2 all_metrics).

(** The keys [extract_key_metrics] can set, and the keys
    [calculate_advanced_metrics] can set, the last eleven of them in its
    cash-flow block. *)
Definition basic_metric_keys : list pystr :=
  [u "revenue_billion"; u "net_profit_billion"; u "net_profit_margin";
   u "total_assets_billion"; u "total_liabilities_billion"; u "debt_ratio"].

Definition cashflow_metric_keys : list pystr :=
  [u "ocf_to_np";
   u "operating_cash_flow_billion"; u "investing_cash_flow_billion";
   u "financing_cash_flow_billion"; u "free_cash_flow_billion"; u "capex_billion";
   u "net_cash_increase_billion"; u "ending_cash_billion"; u "dividends_paid_billion";
   u "cash_quality"; u "capex_ratio"].

Definition advanced_metric_keys : list pystr :=
  [u "gross_margin"; u "operating_margin"; u "roe"; u "roa"; u "current_ratio";
   u "quick_ratio"; u "equity_multiplier"; u "asset_turnover"]
  ++ cashflow_metric_keys.

(** Further example rows: a balance sheet without liabilities, and a
    cash-flow statement whose operating cash flow is small. *)
Definition debt_free_balance : gmap pystr pyval :=
  list_to_map [(u "TOTAL_ASSETS", PyNum 500); (u "TOTAL_LIABILITIES", PyNum 0)].


End FetchData.

(** ** The benchmark table of [industry_benchmarks.py] *)

Module IndustryBenchmarks.

(** The twelve industry identifiers, in the order of the table. *)
Inductive industry :=
  | technology | manufacturing | construction | retail | finance | real_estate
  | consumer | energy | utilities | telecom | transportation | materials.

#[global] Instance industry_eq_dec : EqDecision industry.
Proof. solve_decision. Defined.

(** The identifier as the Python string. *)
Definition industry_id (i : industry) : pystr :=
  match i with
  | technology => u "technology" | manufacturing => u "manufacturing"
  | construction => u "construction" | retail => u "retail"
  | finance => u "finance" | real_estate => u "real_estate"
  | consumer => u "consumer" | energy => u "energy"
  | utilities => u "utilities" | telecom => u "telecom"
  | transportation => u "transportation" | materials => u "materials"
  end.

Record benchmark := {
  min : Q;
  max : Q;
  ideal : Q;
  weight : Q
}.

(** The value of a special rule: [True] or a string. *)
Inductive rule_value :=
  | RBool (b : bool)
  | RStr (s : pystr).

Record industry_info := {
  name : pystr;
  name_en : pystr;
  description : pystr;
  keywords : list pystr;
  stock_patterns : option (list pystr);
  stock_examples : option (list pystr);
  metrics : list (pystr * benchmark);
  special_rules : list (pystr * rule_value)
}.

Definition technology_info : industry_info := {|
  name := u "高科技";
  name_en := u "Technology";
  description := u "软件、半导体、人工智能、云计算等";
  keywords :=
    [u "软件"; u "半导体"; u "芯片"; u "人工智能"; u "云计算"; u "互联网"; u "电子"; u "计算机";
     u "通信设备"];
  stock_patterns := Some [u "688"];
  stock_examples :=
    Some [u "688981"; u "688256"; u "688008"; u "300750"; u "002415"];
  metrics :=
    [(u "gross_margin", {| min := 40; max := 70; ideal := 55; weight := 0.15 |});
     (u "net_margin", {| min := 10; max := 35; ideal := 22; weight := 0.15 |});
     (u "roe", {| min := 10; max := 30; ideal := 18; weight := 0.25 |});
     (u "roa", {| min := 5; max := 18; ideal := 12; weight := 0.10 |});
     (u "debt_ratio", {| min := 15; max := 50; ideal := 30; weight := 0.10 |});
     (u "asset_turnover", {| min := 0.4; max := 1.2; ideal := 0.8; weight := 0.10 |});
     (u "rd_ratio", {| min := 3; max := 25; ideal := 12; weight := 0.15 |})];
  special_rules :=
    [(u "high_rd_bonus", RBool true);
     (u "growth_critical", RBool true)]
|}.

Definition manufacturing_info : industry_info := {|
  name := u "制造业";
  name_en := u "Manufacturing";
  description := u "机械、设备、汽车、家电、零部件等";
  keywords :=
    [u "制造"; u "机械"; u "设备"; u "汽车"; u "家电"; u "零部件"; u "装备"; u "工业"];
  stock_patterns := None;
  stock_examples :=
    Some [u "600031"; u "000651"; u "000333"; u "601012"; u "002594"];
  metrics :=
    [(u "gross_margin", {| min := 12; max := 35; ideal := 22; weight := 0.20 |});
     (u "net_margin", {| min := 4; max := 15; ideal := 8; weight := 0.20 |});
     (u "roe", {| min := 6; max := 20; ideal := 12; weight := 0.25 |});
     (u "roa", {| min := 3; max := 12; ideal := 7; weight := 0.10 |});
     (u "debt_ratio", {| min := 30; max := 65; ideal := 45; weight := 0.15 |});
     (u "asset_turnover", {| min := 0.5; max := 1.8; ideal := 1.0; weight := 0.10 |})];
  special_rules :=
    [(u "capacity_utilization", RBool true);
     (u "inventory_critical", RBool true)]
|}.

Definition construction_info : industry_info := {|
  name := u "建筑";
  name_en := u "Construction";
  description := u "建筑、工程、基建、房建、装修等";
  keywords :=
    [u "建筑"; u "工程"; u "基建"; u "房建"; u "装修"; u "园林"; u "装饰"; u "施工"];
  stock_patterns := None;
  stock_examples :=
    Some [u "601668"; u "601390"; u "601800"; u "601669"; u "601186"];
  metrics :=
    [(u "gross_margin", {| min := 6; max := 15; ideal := 10; weight := 0.15 |});
     (u "net_margin", {| min := 1.5; max := 5; ideal := 3; weight := 0.20 |});
     (u "roe", {| min := 6; max := 18; ideal := 12; weight := 0.25 |});
     (u "roa", {| min := 1; max := 5; ideal := 2.5; weight := 0.10 |});
     (u "debt_ratio", {| min := 65; max := 85; ideal := 75; weight := 0.10 |});
     (u "asset_turnover", {| min := 0.25; max := 0.7; ideal := 0.45; weight := 0.10 |});
     (u "ocf_to_np", {| min := 0.5; max := 1.5; ideal := 0.9; weight := 0.10 |})];
  special_rules :=
    [(u "debt_tolerance", RStr (u "high"));
     (u "cashflow_critical", RBool true);
     (u "order_book_important", RBool true)]
|}.

Definition retail_info : industry_info := {|
  name := u "零售";
  name_en := u "Retail";
  description := u "零售、商贸、百货、超市、电商、贸易等";
  keywords :=
    [u "零售"; u "商贸"; u "百货"; u "超市"; u "电商"; u "贸易"; u "销售"; u "连锁"];
  stock_patterns := None;
  stock_examples :=
    Some [u "601933"; u "002024"; u "002714"; u "600694"; u "601888"];
  metrics :=
    [(u "gross_margin", {| min := 12; max := 40; ideal := 25; weight := 0.15 |});
     (u "net_margin", {| min := 2; max := 10; ideal := 5; weight := 0.20 |});
     (u "roe", {| min := 8; max := 25; ideal := 15; weight := 0.25 |});
     (u "roa", {| min := 4; max := 15; ideal := 8; weight := 0.10 |});
     (u "debt_ratio", {| min := 35; max := 70; ideal := 50; weight := 0.10 |});
     (u "asset_turnover", {| min := 1.2; max := 4.0; ideal := 2.5; weight := 0.20 |})];
  special_rules :=
    [(u "high_turnover", RBool true);
     (u "same_store_growth", RBool true)]
|}.

Definition finance_info : industry_info := {|
  name := u "金融";
  name_en := u "Finance";
  description := u "银行、证券、保险、信托、租赁等";
  keywords :=
    [u "银行"; u "证券"; u "保险"; u "信托"; u "租赁"; u "金融"; u "投资"];
  stock_patterns := Some [u "601"; u "60"; u "002"];
  stock_examples :=
    Some [u "601398"; u "601318"; u "601166"; u "000001"; u "600030"];
  metrics :=
    [(u "roe", {| min := 8; max := 22; ideal := 14; weight := 0.35 |});
     (u "roa", {| min := 0.5; max := 1.5; ideal := 1.0; weight := 0.20 |});
     (u "debt_ratio", {| min := 85; max := 96; ideal := 91; weight := 0.05 |});
     (u "net_margin", {| min := 20; max := 50; ideal := 35; weight := 0.25 |});
     (u "cost_to_income", {| min := 25; max := 45; ideal := 32; weight := 0.15 |})];
  special_rules :=
    [(u "use_custom_metrics", RBool true);
     (u "capital_adequacy", RBool true);
     (u "npl_ratio", RBool true)]
|}.

Definition real_estate_info : industry_info := {|
  name := u "房地产";
  name_en := u "Real Estate";
  description := u "房地产开发、经营、物业、园区等";
  keywords :=
    [u "房地产"; u "地产"; u "物业"; u "园区"; u "置业"; u "开发"];
  stock_patterns := None;
  stock_examples :=
    Some [u "000002"; u "600048"; u "001979"; u "600383"; u "000656"];
  metrics :=
    [(u "gross_margin", {| min := 18; max := 45; ideal := 30; weight := 0.15 |});
     (u "net_margin", {| min := 6; max := 18; ideal := 11; weight := 0.20 |});
     (u "roe", {| min := 6; max := 22; ideal := 13; weight := 0.25 |});
     (u "roa", {| min := 2; max := 8; ideal := 4; weight := 0.10 |});
     (u "debt_ratio", {| min := 55; max := 88; ideal := 72; weight := 0.15 |});
     (u "asset_turnover", {| min := 0.15; max := 0.5; ideal := 0.3; weight := 0.10 |});
     (u "ocf_to_np", {| min := 0.3; max := 1.5; ideal := 0.8; weight := 0.05 |})];
  special_rules :=
    [(u "debt_tolerance", RStr (u "high"));
     (u "cashflow_critical", RBool true);
     (u "land_reserve", RBool true)]
|}.

Definition consumer_info : industry_info := {|
  name := u "消费品";
  name_en := u "Consumer Goods";
  description := u "食品、饮料、白酒、医药、纺织、日化等";
  keywords :=
    [u "食品"; u "饮料"; u "白酒"; u "医药"; u "纺织"; u "服装"; u "日化"; u "化妆品"; u "调味品"];
  stock_patterns := None;
  stock_examples :=
    Some [u "600519"; u "603288"; u "000858"; u "600887"; u "002304"];
  metrics :=
    [(u "gross_margin", {| min := 25; max := 70; ideal := 50; weight := 0.20 |});
     (u "net_margin", {| min := 8; max := 30; ideal := 18; weight := 0.20 |});
     (u "roe", {| min := 12; max := 35; ideal := 22; weight := 0.30 |});
     (u "roa", {| min := 6; max := 20; ideal := 12; weight := 0.10 |});
     (u "debt_ratio", {| min := 15; max := 50; ideal := 28; weight := 0.10 |});
     (u "asset_turnover", {| min := 0.4; max := 1.2; ideal := 0.75; weight := 0.10 |})];
  special_rules :=
    [(u "brand_value", RBool true);
     (u "channel_coverage", RBool true);
     (u "repetition_rate", RBool true)]
|}.

Definition energy_info : industry_info := {|
  name := u "能源";
  name_en := u "Energy";
  description := u "石油、天然气、煤炭、电力、新能源等";
  keywords :=
    [u "石油"; u "天然气"; u "煤炭"; u "电力"; u "新能源"; u "光伏"; u "风电"; u "核电"; u "采掘"];
  stock_patterns := None;
  stock_examples :=
    Some [u "601857"; u "600900"; u "601899"; u "600021"; u "000400"];
  metrics :=
    [(u "gross_margin", {| min := 12; max := 40; ideal := 25; weight := 0.15 |});
     (u "net_margin", {| min := 4; max := 18; ideal := 10; weight := 0.20 |});
     (u "roe", {| min := 5; max := 16; ideal := 10; weight := 0.25 |});
     (u "roa", {| min := 2; max := 10; ideal := 5; weight := 0.10 |});
     (u "debt_ratio", {| min := 35; max := 75; ideal := 55; weight := 0.15 |});
     (u "asset_turnover", {| min := 0.25; max := 0.9; ideal := 0.55; weight := 0.15 |})];
  special_rules :=
    [(u "price_sensitive", RBool true);
     (u "resource_reserves", RBool true);
     (u "policy_impact", RBool true)]
|}.

Definition utilities_info : industry_info := {|
  name := u "公用事业";
  name_en := u "Utilities";
  description := u "水务、燃气、供热、环保、污水处理等";
  keywords :=
    [u "水务"; u "燃气"; u "供热"; u "环保"; u "污水"; u "固废"; u "环境"];
  stock_patterns := None;
  stock_examples :=
    Some [u "600011"; u "600323"; u "000685"; u "600874"; u "601199"];
  metrics :=
    [(u "gross_margin", {| min := 20; max := 50; ideal := 35; weight := 0.15 |});
     (u "net_margin", {| min := 6; max := 20; ideal := 13; weight := 0.20 |});
     (u "roe", {| min := 5; max := 14; ideal := 9; weight := 0.30 |});
     (u "roa", {| min := 2; max := 8; ideal := 4; weight := 0.10 |});
     (u "debt_ratio", {| min := 45; max := 80; ideal := 62; weight := 0.15 |});
     (u "asset_turnover", {| min := 0.2; max := 0.7; ideal := 0.4; weight := 0.10 |})];
  special_rules :=
    [(u "stable_cashflow", RBool true);
     (u "franchise_important", RBool true);
     (u "regulated", RBool true)]
|}.

Definition telecom_info : industry_info := {|
  name := u "通信";
  name_en := u "Telecommunications";
  description := u "电信、移动、联通、通信设备等";
  keywords :=
    [u "电信"; u "移动"; u "联通"; u "通信"; u "5G"; u "基站"; u "光纤"];
  stock_patterns := None;
  stock_examples :=
    Some [u "600941"; u "600050"; u "000063"; u "601728"; u "002468"];
  metrics :=
    [(u "gross_margin", {| min := 25; max := 60; ideal := 42; weight := 0.15 |});
     (u "net_margin", {| min := 8; max := 22; ideal := 15; weight := 0.20 |});
     (u "roe", {| min := 6; max := 18; ideal := 12; weight := 0.30 |});
     (u "roa", {| min := 3; max := 10; ideal := 6; weight := 0.10 |});
     (u "debt_ratio", {| min := 30; max := 65; ideal := 45; weight := 0.15 |});
     (u "asset_turnover", {| min := 0.35; max := 1.0; ideal := 0.6; weight := 0.10 |})];
  special_rules :=
    [(u "high_capex", RBool true);
     (u "subscriber_base", RBool true);
     (u "arpu_important", RBool true)]
|}.

Definition transportation_info : industry_info := {|
  name := u "交通运输";
  name_en := u "Transportation";
  description := u "航空、机场、港口、航运、物流、快递等";
  keywords :=
    [u "航空"; u "机场"; u "港口"; u "航运"; u "物流"; u "快递"; u "铁路"; u "交通"];
  stock_patterns := None;
  stock_examples :=
    Some [u "601111"; u "002352"; u "600029"; u "601919"; u "601006"];
  metrics :=
    [(u "gross_margin", {| min := 12; max := 40; ideal := 25; weight := 0.15 |});
     (u "net_margin", {| min := 4; max := 16; ideal := 10; weight := 0.20 |});
     (u "roe", {| min := 5; max := 16; ideal := 10; weight := 0.25 |});
     (u "roa", {| min := 2; max := 10; ideal := 5; weight := 0.10 |});
     (u "debt_ratio", {| min := 35; max := 75; ideal := 55; weight := 0.15 |});
     (u "asset_turnover", {| min := 0.25; max := 0.9; ideal := 0.55; weight := 0.15 |})];
  special_rules :=
    [(u "heavy_assets", RBool true);
     (u "fuel_cost_sensitive", RBool true);
     (u "capacity_utilization", RBool true)]
|}.

Definition materials_info : industry_info := {|
  name := u "原材料";
  name_en := u "Materials";
  description := u "钢铁、有色金属、化工、建材、造纸等";
  keywords :=
    [u "钢铁"; u "有色金属"; u "化工"; u "建材"; u "造纸"; u "玻璃"; u "水泥"; u "金属"];
  stock_patterns := None;
  stock_examples :=
    Some [u "600019"; u "601600"; u "600585"; u "000895"; u "002601"];
  metrics :=
    [(u "gross_margin", {| min := 8; max := 30; ideal := 17; weight := 0.15 |});
     (u "net_margin", {| min := 2; max := 12; ideal := 6; weight := 0.20 |});
     (u "roe", {| min := 4; max := 18; ideal := 10; weight := 0.25 |});
     (u "roa", {| min := 2; max := 10; ideal := 5; weight := 0.10 |});
     (u "debt_ratio", {| min := 35; max := 75; ideal := 55; weight := 0.15 |});
     (u "asset_turnover", {| min := 0.4; max := 1.5; ideal := 0.85; weight := 0.15 |})];
  special_rules :=
    [(u "cyclical", RBool true);
     (u "price_volatility", RBool true);
     (u "inventory_important", RBool true)]
|}.

Definition INDUSTRY_BENCHMARKS : list (industry * industry_info) :=
  [(technology, technology_info);
   (manufacturing, manufacturing_info);
   (construction, construction_info);
   (retail, retail_info);
   (finance, finance_info);
   (real_estate, real_estate_info);
   (consumer, consumer_info);
   (energy, energy_info);
   (utilities, utilities_info);
   (telecom, telecom_info);
   (transportation, transportation_info);
   (materials, materials_info)].

Definition SW_INDUSTRY_MAPPING : list (pystr * industry) :=
  [(u "银行", finance);
   (u "非银金融", finance);
   (u "房地产", real_estate);
   (u "建筑装饰", construction);
   (u "建筑材料", materials);
   (u "钢铁", materials);
   (u "有色金属", materials);
   (u "化工", materials);
   (u "基础化工", materials);
   (u "石油石化", energy);
   (u "煤炭", materials);
   (u "电力设备", energy);
   (u "公用事业", utilities);
   (u "交通运输", transportation);
   (u "汽车", manufacturing);
   (u "机械设备", manufacturing);
   (u "国防军工", manufacturing);
   (u "电气设备", manufacturing);
   (u "电子", technology);
   (u "计算机", technology);
   (u "通信", telecom);
   (u "传媒", technology);
   (u "食品饮料", consumer);
   (u "家用电器", consumer);
   (u "纺织服饰", consumer);
   (u "轻工制造", consumer);
   (u "医药生物", consumer);
   (u "美容护理", consumer);
   (u "商贸零售", retail);
   (u "社会服务", consumer);
   (u "农林牧渔", consumer);
   (u "综合", manufacturing)].

(** [d.get(k)] on a dictionary kept in insertion order. *)
Fixpoint assoc_get {K V : Type} `{EqDecision K} (d : list (K * V)) (k : K) : option V :=
  match d with
  | [] => None
  | (k', v) :: d' => if decide (k' = k) then Some v else assoc_get d' k
  end.

(** [d[k] = v] on a dictionary kept in insertion order. *)
Fixpoint assoc_set {K V : Type} `{EqDecision K} (d : list (K * V)) (k : K) (v : V)
  : list (K * V) :=
  match d with
  | [] => [(k, v)]
  | (k', v') :: d' =>
      if decide (k' = k) then (k, v) :: d' else (k', v') :: assoc_set d' k v
  end.

Definition get_industry_info (industry_id : industry) : industry_info :=
  default manufacturing_info (assoc_get INDUSTRY_BENCHMARKS industry_id).

Definition get_industry_by_sw (sw_industry : pystr) : industry :=
  default manufacturing (assoc_get SW_INDUSTRY_MAPPING sw_industry).

End IndustryBenchmarks.

(** ** The classifier of [industry_classifier.py] *)

Module IndustryClassifier.
Import IndustryBenchmarks.

Section Classifier.

(** Python's [str.lower]. *)
Variable lower : pystr -> pystr.

(** The first industry of the table whose example list holds [code]. *)
Fixpoint scan_examples (code : pystr) (benchmarks : list (industry * industry_info))
  : option industry :=
  match benchmarks with
  | [] => None
  | (industry_id, industry_data) :: rest =>
      match stock_examples industry_data with
      | Some examples =>
          if str_in code examples then Some industry_id else scan_examples code rest
      | None => scan_examples code rest
      end
  end.

(** The first industry of the table one of whose patterns is a prefix of
    [code]. *)
Fixpoint scan_patterns (code : pystr) (benchmarks : list (industry * industry_info))
  : option industry :=
  match benchmarks with
  | [] => None
  | (industry_id, industry_data) :: rest =>
      match stock_patterns industry_data with
      | Some patterns =>
          if existsb (startswith code) patterns then Some industry_id
          else scan_patterns code rest
      | None => scan_patterns code rest
      end
  end.

Definition classify_by_stock_code (stock_code : pystr) : option industry :=
  let code := zfill 6 (strip stock_code) in
  if startswith code (u "688") then Some technology
  else if startswith code (u "300") then Some technology
  else if startswith code (u "8") || startswith code (u "4") then Some manufacturing
  else
    match scan_examples code INDUSTRY_BENCHMARKS with
    | Some industry_id => Some industry_id
    | None => scan_patterns code INDUSTRY_BENCHMARKS
    end.

(** The two keyword loops of [classify_by_name] for one industry: one point
    for each keyword occurring in the name, two more for each keyword that
    is the name or a prefix of it. *)
Definition keyword_score (name : pystr) (keywords : list pystr) : Z :=
  let score :=
    fold_left (fun score keyword =>
                 if contains name (lower keyword) then score + 1 else score)
              keywords 0 in
  fold_left (fun score keyword =>
               if bool_decide (lower keyword = name) || startswith name (lower keyword)
               then score + 2 else score)
            keywords score.

(** Some keyword of the industry occurs in the lowercased company name. *)
Definition mentions (company_name : pystr) (industry_id : industry) : bool :=
  existsb (fun keyword => contains (lower company_name) (lower keyword))
          (keywords (get_industry_info industry_id)).

Fixpoint classify_by_name_loop (name : pystr)
    (benchmarks : list (industry * industry_info)) (scores : list (industry * Q))
  : res (list (industry * Q)) :=
  match benchmarks with
  | [] => Ok scores
  | (industry_id, industry_data) :: rest =>
      let keywords := keywords industry_data in
      let score := keyword_score name keywords in
      if score >? 0 then
        q ← pydiv (inject_Z score) (inject_Z (Z.of_nat (length keywords)));
        classify_by_name_loop name rest (assoc_set scores industry_id q)
      else classify_by_name_loop name rest scores
  end.

Definition classify_by_name (company_name : pystr) : res (list (industry * Q)) :=
  classify_by_name_loop (lower company_name) INDUSTRY_BENCHMARKS [].

Definition classify_by_sw_industry (sw_industry : pystr) : industry :=
  get_industry_by_sw sw_industry.

(** [max(items, key=lambda x: x[1])]: the first item of greatest score. *)
Fixpoint max_by_score (best : industry * Q) (items : list (industry * Q))
  : industry * Q :=
  match items with
  | [] => best
  | x :: rest => max_by_score (if Qgtb (snd x) (snd best) then x else best) rest
  end.

Definition py_max (items : list (industry * Q)) : res (industry * Q) :=
  match items with
  | [] => Raise ValueError
  | x :: rest => Ok (max_by_score x rest)
  end.

(** Truth value of an optional string: [None] and the empty string are
    falsy. *)
Definition str_truthy (s : option pystr) : bool :=
  match s with
  | Some (_ :: _) => true
  | _ => false
  end.

Definition classify (stock_code : pystr) (company_name sw_industry : option pystr)
  : res industry :=
  (* 1. the sector tag *)
  let by_sw :=
    match sw_industry with
    | Some sw =>
        if str_truthy sw_industry then
          let industry := classify_by_sw_industry sw in
          if bool_decide (industry ≠ manufacturing) then Some industry else None
        else None
    | None => None
    end in
  match by_sw with
  | Some industry => Ok industry
  | None =>
      (* 2. the stock code *)
      match classify_by_stock_code stock_code with
      | Some industry => Ok industry
      | None =>
          (* 3. the company name *)
          match company_name with
          | Some cname =>
              if str_truthy company_name then
                name_scores ← classify_by_name cname;
                match name_scores with
                | [] => Ok manufacturing
                | _ :: _ => best ← py_max name_scores; Ok (fst best)
                end
              else Ok manufacturing
          | None => Ok manufacturing
          end
      end
  end.

(** [sorted(items, key=lambda x: -x[1])]: a stable sort by decreasing
    score, by insertion. *)
Fixpoint insert_by_score (x : industry * Q) (items : list (industry * Q))
  : list (industry * Q) :=
  match items with
  | [] => [x]
  | y :: rest =>
      if Qleb (snd y) (snd x) then x :: y :: rest else y :: insert_by_score x rest
  end.

Definition sorted_by_score (items : list (industry * Q)) : list (industry * Q) :=
  fold_right insert_by_score [] items.

Definition get_industry_matches (stock_code : pystr)
    (company_name sw_industry : option pystr)
  : res (list (industry * Q * pystr)) :=
  let matches : list (industry * Q * pystr) := [] in
  (* the sector tag *)
  let matches :=
    match sw_industry with
    | Some sw =>
        if str_truthy sw_industry
        then matches ++ [(classify_by_sw_industry sw, 1.0%Q, u "申万行业: " ++ sw)]
        else matches
    | None => matches
    end in
  (* the stock code *)
  let matches :=
    match classify_by_stock_code stock_code with
    | Some code_industry =>
        let confidence := if startswith stock_code (u "688") then 0.8%Q else 0.6%Q in
        matches ++ [(code_industry, confidence, u "股票代码模式")]
    | None => matches
    end in
  (* the company name *)
  match company_name with
  | Some cname =>
      if str_truthy company_name then
        name_scores ← classify_by_name cname;
        Ok (matches
            ++ map (fun '(industry_id, score) =>
                      (industry_id, (score * 0.5)%Q, u "公司名称关键词: " ++ cname))
                   (sorted_by_score name_scores))
      else Ok matches
  | None => Ok matches
  end.

End Classifier.

End IndustryClassifier.

(** ** The scorer of [industry_scorer.py] *)

Module IndustryScorer.
Import IndustryBenchmarks.

(** [safe_float(value, default)] on [None] or a number. *)
Definition safe_float (value : pyval) (default : Q) : Q :=
  match value with
  | PyNone => default
  | PyNum q => q
  end.

(** [safe_float(value, None)]. *)
Definition safe_float_none (value : pyval) : option Q :=
  match value with
  | PyNone => None
  | PyNum q => Some q
  end.

(** [d.get(k, dflt)]: the default only when the key is absent. *)
Definition dict_get_default (d : gmap pystr pyval) (k : pystr) (dflt : pyval) : pyval :=
  default dflt (d !! k).

Record metric_result := {
  score : Q;
  weighted_score : Q;
  rating : pystr;
  value : option Q;
  industry_range : Q * Q;
  industry_ideal : Q;
  name_cn : option pystr
}.

Definition rating_of (score : Q) : pystr :=
  if Qgeb score 80 then u "优秀"
  else if Qgeb score 60 then u "良好"
  else if Qgeb score 40 then u "一般"
  else if Qgeb score 20 then u "较差"
  else u "差".

(** The 0-100 score of [calculate_metric_score], before rounding. *)
Definition raw_metric_score (value min_val max_val ideal : Q) : res Q :=
  if Qleb min_val value && Qleb value max_val then
    let range_width := (max_val - min_val)%Q in
    if Qeq_bool range_width 0 then
      Ok (if Qeq_bool value ideal then 100 else 50)%Q
    else
      let deviation := Qabs (value - ideal) in
      max_deviation ← pydiv range_width 2;
      r ← pydiv deviation max_deviation;
      Ok (max0 (100 * (1 - r)))
  else if Qltb value min_val then
    if negb (Qeq_bool min_val 0) then
      r ← pydiv value min_val; Ok (max0 (100 * r))
    else Ok 0%Q
  else
    if negb (Qeq_bool value 0) then
      r ← pydiv max_val value; Ok (max0 (100 * r))
    else Ok 0%Q.

Definition calculate_metric_score (value : pyval) (min_val max_val ideal weight : Q)
  : res metric_result :=
  match value with
  | PyNone =>
      Ok {| score := 0; weighted_score := 0; rating := u "无数据"; value := None;
            industry_range := (min_val, max_val); industry_ideal := ideal;
            name_cn := None |}
  | PyNum value =>
      score ← raw_metric_score value min_val max_val ideal;
      let score := round2 score in
      let weighted_score := round2 (score * weight) in
      Ok {| score := score; weighted_score := weighted_score;
            rating := rating_of score; value := Some (round2 value);
            industry_range := (min_val, max_val); industry_ideal := ideal;
            name_cn := None |}
  end.

(** The alias table of the scoring loop. *)
Definition aliases : list (pystr * list pystr) :=
  [(u "gross_margin", [u "gross_margin"; u "毛利率"]);
   (u "net_margin", [u "net_profit_margin"; u "net_margin"; u "净利率"]);
   (u "roe", [u "roe"]);
   (u "roa", [u "roa"]);
   (u "debt_ratio", [u "debt_ratio"; u "资产负债率"]);
   (u "asset_turnover", [u "asset_turnover"; u "资产周转率"]);
   (u "ocf_to_np", [u "ocf_to_np"; u "现金流/净利润"]);
   (u "rd_ratio", [u "rd_ratio"; u "研发费用率"])].

Definition metric_names_cn : list (pystr * pystr) :=
  [(u "gross_margin", u "毛利率");
   (u "net_margin", u "净利率");
   (u "roe", u "净资产收益率(ROE)");
   (u "roa", u "总资产收益率(ROA)");
   (u "debt_ratio", u "资产负债率");
   (u "asset_turnover", u "总资产周转率");
   (u "ocf_to_np", u "现金流/净利润比");
   (u "rd_ratio", u "研发费用率");
   (u "cost_to_income", u "成本收入比")].

(** [alias in metrics and metrics[alias] is not None] *)
Definition present (metrics : gmap pystr pyval) (alias : pystr) : bool :=
  match metrics !! alias with
  | Some (PyNum _) => true
  | _ => false
  end.

(** The value of a benchmarked metric in the input: the metric's own key,
    else the first alias that is present and not [None]; [None] when there
    is none. *)
Definition resolve_value (metrics : gmap pystr pyval) (metric_name : pystr) : option Q :=
  let value :=
    match dict_get metrics metric_name with
    | PyNone =>
        match find (present metrics)
                   (default [metric_name] (assoc_get aliases metric_name)) with
        | Some alias => dict_get metrics alias
        | None => PyNone
        end
    | v => v
    end in
  safe_float_none value.

(** The state of the scoring loop. *)
Record totals := {
  dimension_scores : list (pystr * metric_result);
  total_weighted_score : Q;
  total_max_score : Q
}.

Fixpoint score_metrics (metrics : gmap pystr pyval)
    (industry_metrics : list (pystr * benchmark)) (acc : totals) : res totals :=
  match industry_metrics with
  | [] => Ok acc
  | (metric_name, config) :: rest =>
      match resolve_value metrics metric_name with
      | None => score_metrics metrics rest acc
      | Some value =>
          let weight := weight config in
          result ← calculate_metric_score (PyNum value) (min config) (max config)
                                          (ideal config) weight;
          let result :=
            {| score := score result; weighted_score := weighted_score result;
               rating := rating result; value := IndustryScorer.value result;
               industry_range := industry_range result;
               industry_ideal := industry_ideal result;
               name_cn :=
                 Some (default metric_name (assoc_get metric_names_cn metric_name)) |} in
          score_metrics metrics rest
            {| dimension_scores := assoc_set (dimension_scores acc) metric_name result;
               total_weighted_score :=
                 (total_weighted_score acc + weighted_score result)%Q;
               total_max_score := (total_max_score acc + 100 * weight)%Q |}
      end
  end.

(** Truth value of [special_rules.get(rule)]. *)
Definition rule_truthy (special_rules : list (pystr * rule_value)) (rule : pystr) : bool :=
  match assoc_get special_rules rule with
  | Some (RBool b) => b
  | Some (RStr s) => match s with [] => false | _ :: _ => true end
  | None => false
  end.

(** [special_rules.get(rule) == s] *)
Definition rule_is (special_rules : list (pystr * rule_value)) (rule s : pystr) : bool :=
  match assoc_get special_rules rule with
  | Some (RStr s') => bool_decide (s' = s)
  | _ => false
  end.

(** Step 4 of the aggregate: the adjustment factor and its notes. *)
Definition adjustments (metrics : gmap pystr pyval) (industry_info : industry_info)
  : Q * list pystr :=
  let special_rules := special_rules industry_info in
  let adjustment_factor := 1.0%Q in
  let adjustment_notes := [] in
  let adjustment_notes :=
    if rule_is special_rules (u "debt_tolerance") (u "high") then
      let debt_ratio := safe_float (dict_get_default metrics (u "debt_ratio") (PyNum 0)) 0 in
      if Qgtb debt_ratio 70
      then adjustment_notes ++ [name industry_info ++ u "行业高负债为常态"]
      else adjustment_notes
    else adjustment_notes in
  let '(adjustment_factor, adjustment_notes) :=
    if rule_truthy special_rules (u "cashflow_critical") then
      let ocf_ratio := safe_float (dict_get_default metrics (u "ocf_to_np") (PyNum 1)) 0 in
      if Qltb ocf_ratio 0.5
      then ((adjustment_factor * 0.8)%Q, adjustment_notes ++ [u "现金流严重恶化，扣减评分"])
      else (adjustment_factor, adjustment_notes)
    else (adjustment_factor, adjustment_notes) in
  if rule_truthy special_rules (u "high_rd_bonus") then
    let rd_ratio := safe_float (dict_get_default metrics (u "rd_ratio") (PyNum 0)) 0 in
    if Qgtb rd_ratio 15
    then ((adjustment_factor * 1.1)%Q, adjustment_notes ++ [u "研发投入突出，加分奖励"])
    else (adjustment_factor, adjustment_notes)
  else (adjustment_factor, adjustment_notes).

Record comparison_entry := {
  company_value : Q;
  comparison_ideal : Q;
  difference : Q;
  difference_pct : Q;
  status : pystr;
  status_cn : pystr
}.

Fixpoint _generate_comparison (company_metrics : gmap pystr pyval)
    (industry_metrics : list (pystr * benchmark))
    (comparison : list (pystr * comparison_entry))
  : res (list (pystr * comparison_entry)) :=
  match industry_metrics with
  | [] => Ok comparison
  | (metric_name, config) :: rest =>
      match dict_get company_metrics metric_name with
      | PyNone => _generate_comparison company_metrics rest comparison
      | PyNum _ as value =>
          let value := safe_float value 0 in
          let industry_ideal := ideal config in
          if Qeq_bool industry_ideal 0 then
            _generate_comparison company_metrics rest comparison
          else
            let diff := (value - industry_ideal)%Q in
            diff_pct ←
              (if negb (Qeq_bool industry_ideal 0)
               then r ← pydiv diff industry_ideal; Ok (r * 100)%Q
               else Ok 0%Q);
            let '(status, status_cn) :=
              if Qleb (Qabs diff_pct) 10 then (u "at", u "持平")
              else if Qgtb diff 0 then (u "above", u "优于")
              else (u "below", u "低于") in
            _generate_comparison company_metrics rest
              (assoc_set comparison metric_name
                 {| company_value := round2 value;
                    comparison_ideal := industry_ideal;
                    difference := round2 diff;
                    difference_pct := round2 diff_pct;
                    status := status;
                    status_cn := status_cn |})
      end
  end.

Definition _generate_recommendations (dimension_scores : list (pystr * metric_result))
    (industry_id : industry) (risk_level : pystr) : list pystr :=
  let recommendations :=
    if bool_decide (risk_level = u "低风险")
    then [u "财务状况优秀，行业竞争力强，可考虑配置"]
    else if bool_decide (risk_level = u "中低风险")
    then [u "财务状况良好，部分指标需关注"]
    else if bool_decide (risk_level = u "中等风险")
    then [u "财务状况一般，建议深入分析薄弱环节"]
    else if bool_decide (risk_level = u "中高风险")
    then [u "财务状况需警惕，存在明显风险点"]
    else [u "财务状况高风险，建议回避"] in
  let industry_info := get_industry_info industry_id in
  let special_rules := special_rules industry_info in
  let score_of (metric : pystr) : Q :=
    match assoc_get dimension_scores metric with
    | Some data => score data
    | None => 0%Q
    end in
  let recommendations :=
    if rule_truthy special_rules (u "cashflow_critical") then
      if Qltb (score_of (u "ocf_to_np")) 40
      then recommendations ++ [u "现金流状况需重点关注"]
      else recommendations
    else recommendations in
  let recommendations :=
    if rule_is special_rules (u "debt_tolerance") (u "high")
    then recommendations ++ [u "行业高负债为常态，需关注有息负债成本"]
    else recommendations in
  let recommendations :=
    if rule_truthy special_rules (u "high_rd_bonus") then
      if Qgeb (score_of (u "rd_ratio")) 60
      then recommendations ++ [u "研发投入较高，长期竞争力有保障"]
      else recommendations
    else recommendations in
  let weak_metrics :=
    filter (fun '(name, data) => Qltb (score data) 40 = true) dimension_scores in
  match weak_metrics with
  | [] => recommendations
  | _ :: _ =>
      let weak_names :=
        map (fun '(name, data) => default name (name_cn data)) weak_metrics in
      recommendations ++ [u "需关注: " ++ join (u ", ") (firstn 3 weak_names)]
  end.

Record industry_ref := {
  id : pystr;
  ref_name : pystr;
  ref_name_en : pystr;
  ref_description : pystr
}.

Record industry_score_result := {
  industry : industry_ref;
  result_dimension_scores : list (pystr * metric_result);
  raw_score : Q;
  normalized_score : Q;
  max_score : Q;
  adjustment_factor : Q;
  adjustment_notes : list pystr;
  risk_level : pystr;
  risk_class : pystr;
  industry_comparison : list (pystr * comparison_entry);
  recommendations : list pystr
}.

Section Scorer.

(** Python's [str.lower], used by the classifier. *)
Variable lower : pystr -> pystr.

Definition calculate_industry_adjusted_score (metrics : gmap pystr pyval)
    (stock_code : pystr) (company_name sw_industry : option pystr)
  : res industry_score_result :=
  (* 1. the industry *)
  industry_id ← IndustryClassifier.classify lower stock_code company_name sw_industry;
  let industry_info := get_industry_info industry_id in
  (* 2. its benchmarks and special rules *)
  let industry_metrics := IndustryBenchmarks.metrics industry_info in
  (* 3. the score of each metric *)
  t ← score_metrics metrics industry_metrics
        {| dimension_scores := []; total_weighted_score := 0; total_max_score := 0 |};
  (* 4. the special rules *)
  let '(adjustment_factor, adjustment_notes) := adjustments metrics industry_info in
  (* 5. the final score *)
  let final_score := round2 (total_weighted_score t * adjustment_factor) in
  normalized ←
    (if Qgtb (total_max_score t) 0
     then r ← pydiv final_score (total_max_score t); Ok (r * 100)%Q
     else Ok 0%Q);
  let normalized_score := round2 normalized in
  (* 6. the risk tier *)
  let '(risk_level, risk_class) :=
    if Qgeb normalized_score 80 then (u "低风险", u "low")
    else if Qgeb normalized_score 60 then (u "中低风险", u "medium-low")
    else if Qgeb normalized_score 40 then (u "中等风险", u "medium")
    else if Qgeb normalized_score 20 then (u "中高风险", u "medium-high")
    else (u "高风险", u "high") in
  (* 7. the comparison with the industry *)
  industry_comparison ← _generate_comparison metrics industry_metrics [];
  Ok {| industry :=
          {| id := IndustryBenchmarks.industry_id industry_id;
             ref_name := name industry_info;
             ref_name_en := name_en industry_info;
             ref_description := description industry_info |};
        result_dimension_scores := dimension_scores t;
        raw_score := final_score;
        normalized_score := normalized_score;
        max_score := total_max_score t;
        adjustment_factor := round2 adjustment_factor;
        adjustment_notes := adjustment_notes;
        risk_level := risk_level;
        risk_class := risk_class;
        industry_comparison := industry_comparison;
        recommendations :=
          _generate_recommendations (dimension_scores t) industry_id risk_level |}.

End Scorer.

(** The benchmarks of the table are ranges of positive lower bound and
    positive width, with weights that are non-negative multiples of 0.05;
    [wf_benchmark] decides it. *)
Definition wf_benchmark (b : benchmark) : bool :=
  Qltb 0 (min b) && Qltb (min b) (max b) && Qleb 0 (weight b)
  && Qeq_bool (inject_Z (5 * Qfloor (20 * weight b))) (100 * weight b).


(** The entry the comparison loop stores for a company value against a
    non-zero ideal. *)
Definition comparison_of (value industry_ideal : Q) : comparison_entry :=
  let diff := (value - industry_ideal)%Q in
  let diff_pct := (diff / industry_ideal * 100)%Q in
  {| company_value := round2 value;
     comparison_ideal := industry_ideal;
     difference := round2 diff;
     difference_pct := round2 diff_pct;
     status :=
       if Qleb (Qabs diff_pct) 10 then u "at"
       else if Qgtb diff 0 then u "above" else u "below";
     status_cn :=
       if Qleb (Qabs diff_pct) 10 then u "持平"
       else if Qgtb diff 0 then u "优于" else u "低于" |}.


(** The entry the scoring loop stores for a metric: the result of
    [calculate_metric_score] with the display name added. *)
Definition with_name_cn (metric_name : pystr) (result : metric_result) : metric_result :=
  {| score := score result; weighted_score := weighted_score result;
     rating := rating result; value := value result;
     industry_range := industry_range result;
     industry_ideal := industry_ideal result;
     name_cn := Some (default metric_name (assoc_get metric_names_cn metric_name)) |}.

(** The test metrics of the module's self-test (贵州茅台, code 600519). *)
Definition test_metrics : gmap pystr pyval :=
  list_to_map
    [(u "gross_margin", PyNum 51.26); (u "net_profit_margin", PyNum 51.26);
     (u "roe", PyNum 22.5); (u "roa", PyNum 18.2); (u "debt_ratio", PyNum 21.5);
     (u "asset_turnover", PyNum 0.85)].



End IndustryScorer.

(** * The binary64 model

    Python's [float] is IEEE 754 binary64 and its [int] is unbounded; the
    definitions of this part compute as the interpreter does.  They are
    used where a property pins a computed value or depends on which
    inputs raise. *)

Module Binary64.

(** A number of a Python dictionary, or [None]. *)
Inductive pyvalue :=
  | VNone
  | VInt (n : Z)
  | VFloat (x : float).

(** The exact value [n * 2 ^ e] of a mantissa and an exponent. *)
Definition scaled (n e : Z) : Q :=
  match e with
  | Zneg p => n # (2 ^ p)%positive
  | _ => inject_Z (n * 2 ^ e)
  end.

(** The binary64 number nearest to [n / d], ties to even, with sign [s]. *)
Definition nearest_quotient (s : bool) (n d : positive) : float :=
  SF2Prim (SFdiv prec emax (S754_finite s n 0) (S754_finite false d 0)).

(** [round(x, 2)] for a float: the exact value of [x] is rounded to the
    nearest hundredth, ties to even, and the hundredth is read back as
    the nearest float; infinities, NaN and zeros round to themselves. *)
Definition py_round2 (x : float) : float :=
  match Prim2SF x with
  | S754_finite s m e =>
      match round_half_even (scaled (Zpos m * 100) e) with
      | Zpos hundredths => nearest_quotient s hundredths 100
      | _ => SF2Prim (S754_zero s)
      end
  | _ => x
  end.

(** [float(n)] for an int: the nearest float, ties to even;
    [OverflowError] when that is beyond the largest float. *)
Definition float_of_int (n : Z) : res float :=
  match binary_normalize prec emax n 0 false with
  | S754_infinity _ => Raise OverflowError
  | x => Ok (SF2Prim x)
  end.

(** The float a decimal literal or a small int of the source denotes. *)
Definition number (q : Q) : float :=
  match Qnum q with
  | Z0 => 0%float
  | Zpos n => nearest_quotient false n (Qden q)
  | Zneg n => nearest_quotient true n (Qden q)
  end.

(** True division of floats. *)
Definition truediv (a b : float) : res float :=
  if (b =? 0)%float then Raise ZeroDivisionError else Ok (a / b)%float.

(** [max(0, x)]: [x] when it is greater than 0, else 0. *)
Definition max0 (x : float) : float := if (0 <? x)%float then x else 0%float.

(** Truth value of a float: zero is falsy. *)
Definition truthy (x : float) : bool := negb (x =? 0)%float.

(** [d.get(k)] and [d.get(k, dflt)]. *)
Definition dict_get (d : gmap pystr pyvalue) (k : pystr) : pyvalue :=
  default VNone (d !! k).

Definition dict_get_default (d : gmap pystr pyvalue) (k : pystr) (dflt : pyvalue)
  : pyvalue :=
  default dflt (d !! k).

(** [float(value)] does not raise. *)
Definition convertible (value : pyvalue) : Prop :=
  match value with
  | VInt n => exists x, float_of_int n = Ok x
  | _ => True
  end.

(** No value of the dictionary is an int that [float] cannot convert. *)
Definition all_convertible (d : gmap pystr pyvalue) : Prop :=
  map_Forall (fun _ value => convertible value) d.

End Binary64.

(** ** [industry_scorer.py] in binary64 *)

Module IndustryScorer64.
Import IndustryBenchmarks Binary64.
Local Open Scope float_scope.

(** [safe_float(value, default)]: [float(value)] raises [OverflowError] on
    an int that is too large, which the function does not catch. *)
Definition safe_float (value : pyvalue) (default : float) : res float :=
  match value with
  | VNone => Ok default
  | VInt n => float_of_int n
  | VFloat x => Ok x
  end.

(** [safe_float(value, None)] *)
Definition safe_float_none (value : pyvalue) : res (option float) :=
  match value with
  | VNone => Ok None
  | VInt n => x ← float_of_int n; Ok (Some x)
  | VFloat x => Ok (Some x)
  end.

Record metric_result := {
  score : float;
  weighted_score : float;
  rating : pystr;
  value : option float;
  industry_range : float * float;
  industry_ideal : float;
  name_cn : option pystr
}.

Definition rating_of (score : float) : pystr :=
  if 80 <=? score then u "优秀"
  else if 60 <=? score then u "良好"
  else if 40 <=? score then u "一般"
  else if 20 <=? score then u "较差"
  else u "差".

(** The 0-100 score of [calculate_metric_score], before rounding.  The
    ints the source gives in some branches (100, 50, 0) are written as the
    floats of the same value. *)
Definition raw_metric_score (value min_val max_val ideal : float) : res float :=
  if (min_val <=? value) && (value <=? max_val) then
    let range_width := max_val - min_val in
    if range_width =? 0 then
      Ok (if value =? ideal then 100 else 50)
    else
      let deviation := abs (value - ideal) in
      max_deviation ← truediv range_width 2;
      r ← truediv deviation max_deviation;
      Ok (max0 (100 * (1 - r)))
  else if value <? min_val then
    if negb (min_val =? 0) then
      r ← truediv value min_val; Ok (max0 (100 * r))
    else Ok 0
  else
    if negb (value =? 0) then
      r ← truediv max_val value; Ok (max0 (100 * r))
    else Ok 0.

Definition calculate_metric_score (value : option float)
    (min_val max_val ideal weight : float) : res metric_result :=
  match value with
  | None =>
      Ok {| score := 0; weighted_score := 0; rating := u "无数据"; value := None;
            industry_range := (min_val, max_val); industry_ideal := ideal;
            name_cn := None |}
  | Some value =>
      score ← raw_metric_score value min_val max_val ideal;
      let score := py_round2 score in
      let weighted_score := py_round2 (score * weight) in
      Ok {| score := score; weighted_score := weighted_score;
            rating := rating_of score; value := Some (py_round2 value);
            industry_range := (min_val, max_val); industry_ideal := ideal;
            name_cn := None |}
  end.

(** [alias in metrics and metrics[alias] is not None] *)
Definition present (metrics : gmap pystr pyvalue) (alias : pystr) : bool :=
  match metrics !! alias with
  | Some VNone | None => false
  | Some _ => true
  end.

(** The value of a benchmarked metric in the input: the metric's own key,
    else the first alias that is present and not [None], converted by
    [safe_float(value, None)]. *)
Definition resolve_value (metrics : gmap pystr pyvalue) (metric_name : pystr)
  : res (option float) :=
  let value :=
    match dict_get metrics metric_name with
    | VNone =>
        match find (present metrics)
                   (default [metric_name]
                      (assoc_get IndustryScorer.aliases metric_name)) with
        | Some alias => dict_get metrics alias
        | None => VNone
        end
    | v => v
    end in
  safe_float_none value.

(** The entry the scoring loop stores for a metric: the result of
    [calculate_metric_score] with the display name added. *)
Definition with_name_cn (metric_name : pystr) (result : metric_result) : metric_result :=
  {| score := score result; weighted_score := weighted_score result;
     rating := rating result; value := value result;
     industry_range := industry_range result;
     industry_ideal := industry_ideal result;
     name_cn :=
       Some (default metric_name
               (assoc_get IndustryScorer.metric_names_cn metric_name)) |}.

(** The state of the scoring loop. *)
Record totals := {
  dimension_scores : list (pystr * metric_result);
  total_weighted_score : float;
  total_max_score : float
}.

Fixpoint score_metrics (metrics : gmap pystr pyvalue)
    (industry_metrics : list (pystr * benchmark)) (acc : totals) : res totals :=
  match industry_metrics with
  | [] => Ok acc
  | (metric_name, config) :: rest =>
      value ← resolve_value metrics metric_name;
      match value with
      | None => score_metrics metrics rest acc
      | Some value =>
          let weight := number (weight config) in
          result ← calculate_metric_score (Some value) (number (min config))
                     (number (max config)) (number (ideal config)) weight;
          let result := with_name_cn metric_name result in
          score_metrics metrics rest
            {| dimension_scores := assoc_set (dimension_scores acc) metric_name result;
               total_weighted_score := total_weighted_score acc + weighted_score result;
               total_max_score := total_max_score acc + 100 * weight |}
      end
  end.

(** Step 4 of the aggregate: the adjustment factor and its notes. *)
Definition adjustments (metrics : gmap pystr pyvalue) (industry_info : industry_info)
  : res (float * list pystr) :=
  let special_rules := special_rules industry_info in
  let adjustment_factor := 1 in
  let adjustment_notes := [] in
  adjustment_notes ←
    (if IndustryScorer.rule_is special_rules (u "debt_tolerance") (u "high") then
       debt_ratio ← safe_float (dict_get_default metrics (u "debt_ratio") (VInt 0)) 0;
       Ok (if 70 <? debt_ratio
           then adjustment_notes ++ [name industry_info ++ u "行业高负债为常态"]
           else adjustment_notes)
     else Ok adjustment_notes);
  '(adjustment_factor, adjustment_notes) ←
    (if IndustryScorer.rule_truthy special_rules (u "cashflow_critical") then
       ocf_ratio ← safe_float (dict_get_default metrics (u "ocf_to_np") (VInt 1)) 0;
       Ok (if ocf_ratio <? number 0.5
           then (adjustment_factor * number 0.8,
                 adjustment_notes ++ [u "现金流严重恶化，扣减评分"])
           else (adjustment_factor, adjustment_notes))
     else Ok (adjustment_factor, adjustment_notes));
  if IndustryScorer.rule_truthy special_rules (u "high_rd_bonus") then
    rd_ratio ← safe_float (dict_get_default metrics (u "rd_ratio") (VInt 0)) 0;
    Ok (if 15 <? rd_ratio
        then (adjustment_factor * number 1.1,
              adjustment_notes ++ [u "研发投入突出，加分奖励"])
        else (adjustment_factor, adjustment_notes))
  else Ok (adjustment_factor, adjustment_notes).

Record comparison_entry := {
  company_value : float;
  comparison_ideal : float;
  difference : float;
  difference_pct : float;
  status : pystr;
  status_cn : pystr
}.

Fixpoint _generate_comparison (company_metrics : gmap pystr pyvalue)
    (industry_metrics : list (pystr * benchmark))
    (comparison : list (pystr * comparison_entry))
  : res (list (pystr * comparison_entry)) :=
  match industry_metrics with
  | [] => Ok comparison
  | (metric_name, config) :: rest =>
      match dict_get company_metrics metric_name with
      | VNone => _generate_comparison company_metrics rest comparison
      | value =>
          value ← safe_float value 0;
          let industry_ideal := number (ideal config) in
          if industry_ideal =? 0 then
            _generate_comparison company_metrics rest comparison
          else
            let diff := value - industry_ideal in
            diff_pct ←
              (if negb (industry_ideal =? 0)
               then r ← truediv diff industry_ideal; Ok (r * 100)
               else Ok 0);
            let '(status, status_cn) :=
              if abs diff_pct <=? 10 then (u "at", u "持平")
              else if 0 <? diff then (u "above", u "优于")
              else (u "below", u "低于") in
            _generate_comparison company_metrics rest
              (assoc_set comparison metric_name
                 {| company_value := py_round2 value;
                    comparison_ideal := industry_ideal;
                    difference := py_round2 diff;
                    difference_pct := py_round2 diff_pct;
                    status := status;
                    status_cn := status_cn |})
      end
  end.

Definition _generate_recommendations (dimension_scores : list (pystr * metric_result))
    (industry_id : industry) (risk_level : pystr) : list pystr :=
  let recommendations :=
    if bool_decide (risk_level = u "低风险")
    then [u "财务状况优秀，行业竞争力强，可考虑配置"]
    else if bool_decide (risk_level = u "中低风险")
    then [u "财务状况良好，部分指标需关注"]
    else if bool_decide (risk_level = u "中等风险")
    then [u "财务状况一般，建议深入分析薄弱环节"]
    else if bool_decide (risk_level = u "中高风险")
    then [u "财务状况需警惕，存在明显风险点"]
    else [u "财务状况高风险，建议回避"] in
  let industry_info := get_industry_info industry_id in
  let special_rules := special_rules industry_info in
  let score_of (metric : pystr) : float :=
    match assoc_get dimension_scores metric with
    | Some data => score data
    | None => 0
    end in
  let recommendations :=
    if IndustryScorer.rule_truthy special_rules (u "cashflow_critical") then
      if score_of (u "ocf_to_np") <? 40
      then recommendations ++ [u "现金流状况需重点关注"]
      else recommendations
    else recommendations in
  let recommendations :=
    if IndustryScorer.rule_is special_rules (u "debt_tolerance") (u "high")
    then recommendations ++ [u "行业高负债为常态，需关注有息负债成本"]
    else recommendations in
  let recommendations :=
    if IndustryScorer.rule_truthy special_rules (u "high_rd_bonus") then
      if 60 <=? score_of (u "rd_ratio")
      then recommendations ++ [u "研发投入较高，长期竞争力有保障"]
      else recommendations
    else recommendations in
  let weak_metrics :=
    List.filter (fun '(name, data) => score data <? 40) dimension_scores in
  match weak_metrics with
  | [] => recommendations
  | _ :: _ =>
      let weak_names :=
        map (fun '(name, data) => default name (name_cn data)) weak_metrics in
      recommendations ++ [u "需关注: " ++ join (u ", ") (firstn 3 weak_names)]
  end.

Record industry_score_result := {
  industry : IndustryScorer.industry_ref;
  result_dimension_scores : list (pystr * metric_result);
  raw_score : float;
  normalized_score : float;
  max_score : float;
  adjustment_factor : float;
  adjustment_notes : list pystr;
  risk_level : pystr;
  risk_class : pystr;
  industry_comparison : list (pystr * comparison_entry);
  recommendations : list pystr
}.

Section Scorer.

(** Python's [str.lower], used by the classifier. *)
Variable lower : pystr -> pystr.

Definition calculate_industry_adjusted_score (metrics : gmap pystr pyvalue)
    (stock_code : pystr) (company_name sw_industry : option pystr)
  : res industry_score_result :=
  (* 1. the industry *)
  industry_id ← IndustryClassifier.classify lower stock_code company_name sw_industry;
  let industry_info := get_industry_info industry_id in
  (* 2. its benchmarks and special rules *)
  let industry_metrics := IndustryBenchmarks.metrics industry_info in
  (* 3. the score of each metric *)
  t ← score_metrics metrics industry_metrics
        {| dimension_scores := []; total_weighted_score := 0; total_max_score := 0 |};
  (* 4. the special rules *)
  '(adjustment_factor, adjustment_notes) ← adjustments metrics industry_info;
  (* 5. the final score *)
  let final_score := py_round2 (total_weighted_score t * adjustment_factor) in
  normalized ←
    (if 0 <? total_max_score t
     then r ← truediv final_score (total_max_score t); Ok (r * 100)
     else Ok 0);
  let normalized_score := py_round2 normalized in
  (* 6. the risk tier *)
  let '(risk_level, risk_class) :=
    if 80 <=? normalized_score then (u "低风险", u "low")
    else if 60 <=? normalized_score then (u "中低风险", u "medium-low")
    else if 40 <=? normalized_score then (u "中等风险", u "medium")
    else if 20 <=? normalized_score then (u "中高风险", u "medium-high")
    else (u "高风险", u "high") in
  (* 7. the comparison with the industry *)
  industry_comparison ← _generate_comparison metrics industry_metrics [];
  Ok {| industry :=
          {| IndustryScorer.id := IndustryBenchmarks.industry_id industry_id;
             IndustryScorer.ref_name := name industry_info;
             IndustryScorer.ref_name_en := name_en industry_info;
             IndustryScorer.ref_description := description industry_info |};
        result_dimension_scores := dimension_scores t;
        raw_score := final_score;
        normalized_score := normalized_score;
        max_score := total_max_score t;
        adjustment_factor := py_round2 adjustment_factor;
        adjustment_notes := adjustment_notes;
        risk_level := risk_level;
        risk_class := risk_class;
        industry_comparison := industry_comparison;
        recommendations :=
          _generate_recommendations (dimension_scores t) industry_id risk_level |}.

End Scorer.

(** The entry the comparison loop stores for a company value against an
    ideal that is not zero. *)
Definition comparison_of (value industry_ideal : float) : comparison_entry :=
  let diff := value - industry_ideal in
  let diff_pct := diff / industry_ideal * 100 in
  {| company_value := py_round2 value;
     comparison_ideal := industry_ideal;
     difference := py_round2 diff;
     difference_pct := py_round2 diff_pct;
     status :=
       if abs diff_pct <=? 10 then u "at"
       else if 0 <? diff then u "above" else u "below";
     status_cn :=
       if abs diff_pct <=? 10 then u "持平"
       else if 0 <? diff then u "优于" else u "低于" |}.

(** A range whose width is not zero has half a width that is not zero:
    the division of the in-range branch cannot fail on it. *)
Definition safe_range (b : benchmark) : bool :=
  let range_width := number (max b) - number (min b) in
  (range_width =? 0) || negb (range_width / 2 =? 0).

(** The test metrics of the module's self-test, as floats, and a
    dictionary whose only value is an int beyond the float range. *)
Definition test_metrics : gmap pystr pyvalue :=
  list_to_map
    [(u "gross_margin", VFloat (number 51.26));
     (u "net_profit_margin", VFloat (number 51.26));
     (u "roe", VFloat 22.5); (u "roa", VFloat (number 18.2));
     (u "debt_ratio", VFloat 21.5); (u "asset_turnover", VFloat (number 0.85))].


(** A consumer company whose debt ratio is 30.8, a tenth above the ideal
    of 28. *)
Definition indebted_metrics : gmap pystr pyvalue :=
  list_to_map [(u "roe", VFloat 22.5); (u "debt_ratio", VFloat (number 30.8))].

End IndustryScorer64.

(** ** The derived metrics of [fetch_data.py] in binary64 *)

Module FetchData64.
Import Binary64.
Local Open Scope float_scope.

(** [safe_float(value)] with the default [0.0]. *)
Definition safe_float (value : pyvalue) : res float :=
  match value with
  | VNone => Ok 0
  | VInt n => float_of_int n
  | VFloat x => Ok x
  end.

(** Truth value of a dictionary value. *)
Definition value_truthy (value : pyvalue) : bool :=
  match value with
  | VNone => false
  | VInt n => negb (n =? 0)%Z
  | VFloat x => truthy x
  end.

(** [d.get(k1) or d.get(k2) or ... or 0]: the first truthy field, else the
    int 0. *)
Fixpoint first_truthy (d : gmap pystr pyvalue) (keys : list pystr) : pyvalue :=
  match keys with
  | [] => VInt 0
  | k :: keys' =>
      let value := dict_get d k in
      if value_truthy value then value else first_truthy d keys'
  end.

(** [e if c else None] for a float [c]. *)
Definition if_truthy (c : float) (e : res pyvalue) : res pyvalue :=
  if truthy c then e else Ok VNone.

(** [round(x, 2)] of a quotient, as a dictionary value. *)
Definition rounded (x : res float) : res pyvalue :=
  x ← x; Ok (VFloat (py_round2 x)).

(** The statement fields read by [calculate_advanced_metrics]. *)
Definition revenue_of (income : gmap pystr pyvalue) : res float :=
  safe_float (first_truthy income [u "TOTAL_OPERATE_INCOME"; u "营业收入"; u "营业总收入"]).
Definition cost_of (income : gmap pystr pyvalue) : res float :=
  safe_float (first_truthy income [u "TOTAL_OPERATE_COST"; u "营业成本"]).
Definition net_profit_of (income : gmap pystr pyvalue) : res float :=
  safe_float (first_truthy income
                [u "NETPROFIT"; u "净利润"; u "归属于母公司所有者的净利润"]).
Definition operating_profit_of (income : gmap pystr pyvalue) : res float :=
  safe_float (first_truthy income [u "OPERATE_PROFIT"; u "营业利润"]).
Definition total_assets_of (balance : gmap pystr pyvalue) : res float :=
  safe_float (first_truthy balance [u "TOTAL_ASSETS"; u "资产总计"]).
Definition total_liabilities_of (balance : gmap pystr pyvalue) : res float :=
  safe_float (first_truthy balance [u "TOTAL_LIABILITIES"; u "负债合计"]).
Definition current_assets_of (balance : gmap pystr pyvalue) : res float :=
  safe_float (first_truthy balance [u "TOTAL_CURRENT_ASSETS"; u "流动资产合计"]).
Definition current_liabilities_of (balance : gmap pystr pyvalue) : res float :=
  safe_float (first_truthy balance [u "TOTAL_CURRENT_LIABILITIES"; u "流动负债合计"]).
Definition inventory_of (balance : gmap pystr pyvalue) : res float :=
  safe_float (first_truthy balance [u "INVENTORY"; u "存货"]).

(** The cash-flow block of [calculate_advanced_metrics]. *)
Definition cashflow_metrics (net_profit : float) (cashflow : gmap pystr pyvalue)
    (metrics : gmap pystr pyvalue) : res (gmap pystr pyvalue) :=
  operating_cf ← safe_float (first_truthy cashflow [u "NETCASH_OPERATE"]);
  investing_cf ← safe_float (first_truthy cashflow [u "NETCASH_INVEST"]);
  financing_cf ← safe_float (first_truthy cashflow [u "NETCASH_FINANCE"]);
  capex ← safe_float (first_truthy cashflow [u "CONSTRUCT_LONG_ASSET"]);
  net_cash_increase ← safe_float (first_truthy cashflow [u "CCE_ADD"]);
  ending_cash ← safe_float (first_truthy cashflow [u "END_CCE"]);
  dividends_paid ← safe_float (first_truthy cashflow [u "ASSIGN_DIVIDEND_PORFIT"]);
  metrics ←
    (if negb (net_profit =? 0) then
       v ← if_truthy operating_cf
             (rounded (r ← truediv operating_cf net_profit; Ok (r * 100)));
       Ok (<[u "ocf_to_np" := v]> metrics)
     else Ok metrics);
  v ← if_truthy operating_cf (rounded (truediv operating_cf 1e8));
  let metrics := <[u "operating_cash_flow_billion" := v]> metrics in
  v ← rounded (truediv investing_cf 1e8);
  let metrics := <[u "investing_cash_flow_billion" := v]> metrics in
  v ← rounded (truediv financing_cf 1e8);
  let metrics := <[u "financing_cash_flow_billion" := v]> metrics in
  v ← if_truthy operating_cf (rounded (truediv (operating_cf - capex) 1e8));
  let metrics := <[u "free_cash_flow_billion" := v]> metrics in
  v ← if_truthy capex (rounded (truediv capex 1e8));
  let metrics := <[u "capex_billion" := v]> metrics in
  v ← rounded (truediv net_cash_increase 1e8);
  let metrics := <[u "net_cash_increase_billion" := v]> metrics in
  v ← if_truthy ending_cash (rounded (truediv ending_cash 1e8));
  let metrics := <[u "ending_cash_billion" := v]> metrics in
  v ← if_truthy dividends_paid (rounded (truediv dividends_paid 1e8));
  let metrics := <[u "dividends_paid_billion" := v]> metrics in
  metrics ←
    (if (0 <? operating_cf) && (0 <? net_profit) then
       v ← rounded (truediv operating_cf net_profit);
       Ok (<[u "cash_quality" := v]> metrics)
     else if operating_cf <? 0 then
       Ok (<[u "cash_quality" := VInt (-1)]> metrics)
     else Ok metrics);
  if negb (operating_cf =? 0) then
    v ← if_truthy capex
          (x ← (r ← truediv capex operating_cf; Ok (abs (r * 100)));
           Ok (VFloat (py_round2 x)));
    Ok (<[u "capex_ratio" := v]> metrics)
  else Ok metrics.

Definition calculate_advanced_metrics (income balance : gmap pystr pyvalue)
    (cashflow : option (gmap pystr pyvalue)) : res (gmap pystr pyvalue) :=
  let metrics : gmap pystr pyvalue := ∅ in
  revenue ← revenue_of income;
  cost ← cost_of income;
  net_profit ← net_profit_of income;
  operating_profit ← operating_profit_of income;
  total_assets ← total_assets_of balance;
  total_liabilities ← total_liabilities_of balance;
  current_assets ← current_assets_of balance;
  current_liabilities ← current_liabilities_of balance;
  inventory ← inventory_of balance;
  let equity := total_assets - total_liabilities in
  (* profitability *)
  metrics ←
    (if 0 <? revenue then
       gm ← if_truthy cost
              (rounded (r ← truediv (revenue - cost) revenue; Ok (r * 100)));
       om ← if_truthy operating_profit
              (rounded (r ← truediv operating_profit revenue; Ok (r * 100)));
       Ok (<[u "operating_margin" := om]> (<[u "gross_margin" := gm]> metrics))
     else Ok metrics);
  metrics ←
    (if 0 <? equity then
       v ← if_truthy net_profit
             (rounded (r ← truediv net_profit equity; Ok (r * 100)));
       Ok (<[u "roe" := v]> metrics)
     else Ok metrics);
  metrics ←
    (if 0 <? total_assets then
       v ← if_truthy net_profit
             (rounded (r ← truediv net_profit total_assets; Ok (r * 100)));
       Ok (<[u "roa" := v]> metrics)
     else Ok metrics);
  (* solvency *)
  metrics ←
    (if 0 <? current_liabilities then
       cr ← if_truthy current_assets (rounded (truediv current_assets current_liabilities));
       qr ← if_truthy current_assets
              (rounded (truediv (current_assets - inventory) current_liabilities));
       Ok (<[u "quick_ratio" := qr]> (<[u "current_ratio" := cr]> metrics))
     else Ok metrics);
  (* leverage *)
  metrics ←
    (if 0 <? equity then
       v ← rounded (truediv total_assets equity);
       Ok (<[u "equity_multiplier" := v]> metrics)
     else Ok metrics);
  (* asset turnover *)
  metrics ←
    (if 0 <? total_assets then
       v ← if_truthy revenue (rounded (truediv revenue total_assets));
       Ok (<[u "asset_turnover" := v]> metrics)
     else Ok metrics);
  (* cash flow *)
  match cashflow with
  | Some cf =>
      if bool_decide (cf = ∅) then Ok metrics
      else cashflow_metrics net_profit cf metrics
  | None => Ok metrics
  end.

(** [col in row and row[col] is not None] *)
Definition has_value (row : gmap pystr pyvalue) (col : pystr) : bool :=
  match row !! col with
  | Some VNone | None => false
  | Some _ => true
  end.

(** The loops of [extract_key_metrics]: [safe_float] of the first column
    of the list that the row holds and that is not [None]. *)
Definition first_column (row : gmap pystr pyvalue) (cols : list pystr)
  : res (option float) :=
  match find (has_value row) cols with
  | Some col => x ← safe_float (dict_get row col); Ok (Some x)
  | None => Ok None
  end.

(** [extract_key_metrics]: the values it stores are floats, which
    [safe_float] reads back unchanged. *)
Definition extract_key_metrics (income balance : gmap pystr pyvalue)
  : res (gmap pystr pyvalue) :=
  let metrics : gmap pystr pyvalue := ∅ in
  (* revenue and net profit, in units of 1e8 *)
  column ← first_column income FetchData.revenue_columns;
  metrics ←
    match column with
    | Some x => v ← truediv x 1e8; Ok (<[u "revenue_billion" := VFloat v]> metrics)
    | None => Ok metrics
    end;
  column ← first_column income FetchData.net_profit_columns;
  metrics ←
    match column with
    | Some x => v ← truediv x 1e8; Ok (<[u "net_profit_billion" := VFloat v]> metrics)
    | None => Ok metrics
    end;
  (* net profit margin *)
  metrics ←
    match metrics !! u "revenue_billion", metrics !! u "net_profit_billion" with
    | Some revenue_billion, Some net_profit_billion =>
        revenue_billion ← safe_float revenue_billion;
        net_profit_billion ← safe_float net_profit_billion;
        if 0 <? revenue_billion then
          r ← truediv net_profit_billion revenue_billion;
          Ok (<[u "net_profit_margin" := VFloat (py_round2 (r * 100))]> metrics)
        else Ok metrics
    | _, _ => Ok metrics
    end;
  (* total assets and liabilities, in units of 1e8 *)
  column ← first_column balance FetchData.total_assets_columns;
  metrics ←
    match column with
    | Some x => v ← truediv x 1e8; Ok (<[u "total_assets_billion" := VFloat v]> metrics)
    | None => Ok metrics
    end;
  column ← first_column balance FetchData.total_liabilities_columns;
  metrics ←
    match column with
    | Some x =>
        v ← truediv x 1e8; Ok (<[u "total_liabilities_billion" := VFloat v]> metrics)
    | None => Ok metrics
    end;
  (* debt ratio *)
  match metrics !! u "total_assets_billion", metrics !! u "total_liabilities_billion" with
  | Some total_assets_billion, Some total_liabilities_billion =>
      total_assets_billion ← safe_float total_assets_billion;
      total_liabilities_billion ← safe_float total_liabilities_billion;
      if 0 <? total_assets_billion then
        r ← truediv total_liabilities_billion total_assets_billion;
        Ok (<[u "debt_ratio" := VFloat (py_round2 (r * 100))]> metrics)
      else Ok metrics
  | _, _ => Ok metrics
  end.

(** [dupont_analysis]: the three factors of the return on equity and their
    product. *)
Definition dupont_analysis (income balance : gmap pystr pyvalue)
  : res (gmap pystr pyvalue) :=
  revenue ← safe_float (first_truthy income [u "TOTAL_OPERATE_INCOME"; u "营业收入"]);
  net_profit ← safe_float (first_truthy income [u "NETPROFIT"; u "净利润"]);
  total_assets ← safe_float (first_truthy balance [u "TOTAL_ASSETS"; u "资产总计"]);
  total_liabilities ←
    safe_float (first_truthy balance [u "TOTAL_LIABILITIES"; u "负债合计"]);
  let equity := total_assets - total_liabilities in
  let dupont : gmap pystr pyvalue := ∅ in
  dupont ←
    (if 0 <? revenue then
       r ← truediv net_profit revenue;
       Ok (<[u "net_margin" := VFloat (py_round2 (r * 100))]> dupont)
     else Ok dupont);
  dupont ←
    (if 0 <? total_assets then
       r ← truediv revenue total_assets;
       Ok (<[u "asset_turnover" := VFloat (py_round2 r)]> dupont)
     else Ok dupont);
  dupont ←
    (if 0 <? equity then
       r ← truediv total_assets equity;
       Ok (<[u "equity_multiplier" := VFloat (py_round2 r)]> dupont)
     else Ok dupont);
  match dupont !! u "net_margin", dupont !! u "asset_turnover",
        dupont !! u "equity_multiplier" with
  | Some net_margin, Some asset_turnover, Some equity_multiplier =>
      net_margin ← safe_float net_margin;
      asset_turnover ← safe_float asset_turnover;
      equity_multiplier ← safe_float equity_multiplier;
      r ← truediv (net_margin * asset_turnover * equity_multiplier) 100;
      Ok (<[u "roe_dupont" := VFloat (py_round2 r)]> dupont)
  | _, _, _ => Ok dupont
  end.

(** Statement rows used as examples: a profitable company whose ratios
    fall on decimal ties, a balance sheet whose liabilities exceed the
    assets, and an income statement with neither cost nor profit. *)
Definition example_income : gmap pystr pyvalue :=
  list_to_map
    [(u "TOTAL_OPERATE_INCOME", VInt 160); (u "TOTAL_OPERATE_COST", VInt 67);
     (u "NETPROFIT", VInt 23)].

Definition example_balance : gmap pystr pyvalue :=
  list_to_map [(u "TOTAL_ASSETS", VFloat 200); (u "TOTAL_LIABILITIES", VFloat 40)].

Definition insolvent_balance : gmap pystr pyvalue :=
  list_to_map [(u "TOTAL_ASSETS", VInt 100); (u "TOTAL_LIABILITIES", VInt 150)].

Definition bare_income : gmap pystr pyvalue :=
  list_to_map [(u "TOTAL_OPERATE_INCOME", VInt 1000)].

(** Rows whose ratios fall between two hundredths: liabilities of 3
    against assets of 32, and a profit of 15 on a revenue of 1000 that
    equals the assets. *)
Definition small_balance : gmap pystr pyvalue :=
  list_to_map [(u "TOTAL_ASSETS", VInt 32); (u "TOTAL_LIABILITIES", VInt 3)].

Definition thin_income : gmap pystr pyvalue :=
  list_to_map [(u "TOTAL_OPERATE_INCOME", VInt 1000); (u "NETPROFIT", VInt 15)].

Definition unlevered_balance : gmap pystr pyvalue :=
  list_to_map [(u "TOTAL_ASSETS", VInt 1000); (u "TOTAL_LIABILITIES", VInt 0)].

End FetchData64.

(** * Properties *)

(** ** Comparisons and rounding *)

Lemma Qltb_lt (a b : Q) : Qltb a b = true <-> (a < b)%Q.
Proof.
  unfold Qltb. rewrite negb_true_iff, <- not_true_iff_false, Qle_bool_iff.
  split; [apply Qnot_le_lt | apply Qlt_not_le].
Qed.

Lemma Qltb_ge (a b : Q) : Qltb a b = false <-> (b <= a)%Q.
Proof. unfold Qltb. rewrite negb_false_iff. apply Qle_bool_iff. Qed.

Lemma Qleb_le (a b : Q) : Qleb a b = true <-> (a <= b)%Q.
Proof. apply Qle_bool_iff. Qed.

Lemma Qleb_gt (a b : Q) : Qleb a b = false <-> (b < a)%Q.
Proof.
  unfold Qleb. rewrite <- not_true_iff_false, Qle_bool_iff.
  split; [apply Qnot_le_lt | apply Qlt_not_le].
Qed.

Lemma Qeq_bool_false (a b : Q) : Qeq_bool a b = false <-> ~ (a == b)%Q.
Proof. rewrite <- not_true_iff_false, Qeq_bool_iff. tauto. Qed.

(** Case analysis on the comparisons of the embedding, turning each into
    the order fact it decides. *)
Ltac qcases :=
  repeat match goal with
    | |- context [Qltb ?a ?b] =>
        let E := fresh "E" in
        destruct (Qltb a b) eqn:E; [apply Qltb_lt in E | apply Qltb_ge in E]
    | |- context [Qgtb ?a ?b] => unfold Qgtb
    | |- context [Qgeb ?a ?b] => unfold Qgeb
    | |- context [Qleb ?a ?b] =>
        let E := fresh "E" in
        destruct (Qleb a b) eqn:E; [apply Qleb_le in E | apply Qleb_gt in E]
    | |- context [Qeq_bool ?a ?b] =>
        let E := fresh "E" in
        destruct (Qeq_bool a b) eqn:E; [apply Qeq_bool_iff in E | apply Qeq_bool_false in E]
    end.

(** Closed comparisons between rational constants. *)
Ltac qconst :=
  vm_compute; first [reflexivity | discriminate | (split; discriminate)].

(** Inequality of two string literals, by evaluation. *)
Ltac key_neq := vm_compute; discriminate.

(** ** The generic health scorer *)

Section HealthScore.
Import FetchData.

(** The solvency points as a function of the debt ratio read from the
    input. *)
Lemma solvency_score_eq (m : gmap pystr pyval) :
  score (solvency (dimensions (calculate_health_score_v2 m))) =
  let debt_ratio := or_num (dict_get m (u "debt_ratio")) 100 in
  if Qltb debt_ratio 40 then 25
  else if Qltb debt_ratio 50 then 20
  else if Qltb debt_ratio 60 then 15
  else if Qltb debt_ratio 70 then 10 else 5.
Proof.
  unfold calculate_health_score_v2. cbv zeta. cbn [dimensions solvency].
  repeat match goal with |- context [if ?b then _ else _] => destruct b end;
    reflexivity.
Qed.

(** C1 (as amended): on the metrics of the end-to-end example the scorer
    returns profitability 25, solvency 25, efficiency 5, growth 12 and
    cashflow 15 (57.1 exceeds the first cash-flow threshold 1.2), so the
    total is 82. *)
Theorem C1_example_scores :
  dimension_scores (calculate_health_score_v2 example_metrics) = [25; 25; 5; 12; 15]
  /\ total_score (calculate_health_score_v2 example_metrics) = 82.
Proof. split; vm_compute; reflexivity. Qed.

(** C1 as stated (cashflow 0 and total 67) does not hold of the example. *)
Lemma C1_stated_scores_refuted :
  ~ (dimension_scores (calculate_health_score_v2 example_metrics) = [25; 25; 5; 12; 0]
     /\ total_score (calculate_health_score_v2 example_metrics) = 67).
Proof. intros [H _]. vm_compute in H. discriminate H. Qed.

(** C9: a debt ratio that is present and exactly zero gets the solvency
    score 5, the score of a missing debt ratio, of a [None] one and of one
    above 70, whereas every positive debt ratio below 40 gets 25. *)
Theorem C9_zero_debt_ratio_is_worst_case
    (m : gmap pystr pyval) (zero high low : Q) :
  (zero == 0)%Q -> (70 < high)%Q -> (0 < low)%Q -> (low < 40)%Q ->
  let solvency_score m :=
    score (solvency (dimensions (calculate_health_score_v2 m))) in
  solvency_score (<[u "debt_ratio" := PyNum zero]> m) = 5
  /\ solvency_score (delete (u "debt_ratio") m) = 5
  /\ solvency_score (<[u "debt_ratio" := PyNone]> m) = 5
  /\ solvency_score (<[u "debt_ratio" := PyNum high]> m) = 5
  /\ solvency_score (<[u "debt_ratio" := PyNum low]> m) = 25.
Proof.
  intros Hz Hh Hl0 Hl40 solvency_score. unfold solvency_score.
  rewrite !solvency_score_eq. unfold dict_get.
  rewrite !lookup_insert_eq, lookup_delete_eq. cbn [default from_option id or_num].
  apply Qeq_bool_iff in Hz. rewrite Hz.
  assert (Qeq_bool high 0 = false) as -> by (apply Qeq_bool_false; lra).
  assert (Qeq_bool low 0 = false) as -> by (apply Qeq_bool_false; lra).
  cbv zeta. repeat split; qcases; try reflexivity; lra.
Qed.

Lemma C9_witness :
  let solvency_score m :=
    score (solvency (dimensions (calculate_health_score_v2 m))) in
  solvency_score (<[u "debt_ratio" := PyNum 0]> example_metrics) = 5
  /\ solvency_score (delete (u "debt_ratio") example_metrics) = 5
  /\ solvency_score (<[u "debt_ratio" := PyNone]> example_metrics) = 5
  /\ solvency_score (<[u "debt_ratio" := PyNum 85.5]> example_metrics) = 5
  /\ solvency_score (<[u "debt_ratio" := PyNum 12.81]> example_metrics) = 25.
Proof.
  apply (C9_zero_debt_ratio_is_worst_case example_metrics 0 85.5 12.81);
    [reflexivity | reflexivity | reflexivity | reflexivity].
Defined.

End HealthScore.

(** ** Rounding to hundredths *)

Section Rounding.
Local Open Scope Q_scope.

#[global] Instance round_half_even_proper : Proper (Qeq ==> eq) round_half_even.
Proof.
  intros x y E. unfold round_half_even. rewrite (Qfloor_comp x y E).
  replace (x - inject_Z (Qfloor y) ?= 1 # 2) with (y - inject_Z (Qfloor y) ?= 1 # 2);
    [reflexivity |].
  apply Qcompare_comp; [rewrite E |]; reflexivity.
Qed.

#[global] Instance round2_proper : Proper (Qeq ==> eq) round2.
Proof. intros x y E. unfold round2. now rewrite E. Qed.

#[global] Instance max0_proper : Proper (Qeq ==> Qeq) max0.
Proof.
  intros x y E. unfold max0.
  destruct (Qltb 0 x) eqn:Hx, (Qltb 0 y) eqn:Hy; try assumption; try reflexivity.
  - apply Qltb_lt in Hx. apply Qltb_ge in Hy. lra.
  - apply Qltb_lt in Hy. apply Qltb_ge in Hx. lra.
Qed.

Lemma round_half_even_Z (z : Z) : round_half_even (inject_Z z) = z.
Proof.
  unfold round_half_even. rewrite Qfloor_Z.
  replace (inject_Z z - inject_Z z ?= 1 # 2) with Lt; [reflexivity |].
  symmetry. apply (proj1 (Qlt_alt _ _)). lra.
Qed.

Lemma round_half_even_mono (x y : Q) :
  x <= y -> (round_half_even x <= round_half_even y)%Z.
Proof.
  intros H. pose proof (Qfloor_resp_le _ _ H) as Hf.
  pose proof (Qfloor_le x) as Hx1. pose proof (Qlt_floor x) as Hx2.
  pose proof (Qfloor_le y) as Hy1. pose proof (Qlt_floor y) as Hy2.
  rewrite inject_Z_plus in Hx2, Hy2. change (inject_Z 1) with 1 in *.
  unfold round_half_even.
  destruct (Z.eq_dec (Qfloor x) (Qfloor y)) as [E | NE].
  - rewrite E in *.
    destruct (Qcompare_spec (x - inject_Z (Qfloor y)) (1 # 2)),
             (Qcompare_spec (y - inject_Z (Qfloor y)) (1 # 2));
      try destruct (Z.even (Qfloor y)); try lia; exfalso; lra.
  - destruct (x - inject_Z (Qfloor x) ?= 1 # 2), (y - inject_Z (Qfloor y) ?= 1 # 2);
      try destruct (Z.even (Qfloor x)); try destruct (Z.even (Qfloor y)); lia.
Qed.


Lemma Qmake_100 (z : Z) : z # 100 == inject_Z z / 100.
Proof. apply Qmake_Qdiv. Qed.

Lemma round2_mono (x y : Q) : x <= y -> round2 x <= round2 y.
Proof.
  intros H. unfold round2, Qle. cbn [Qnum Qden].
  apply Z.mul_le_mono_nonneg_r; [lia |]. apply round_half_even_mono. lra.
Qed.


(** A value with at most two decimals is its own rounding. *)
Lemma round2_cent (z : Z) (x : Q) : x == z # 100 -> round2 x == x.
Proof.
  intros E. rewrite E at 2. unfold round2.
  replace (round_half_even (x * 100)) with z; [reflexivity |].
  rewrite <- (round_half_even_Z z). apply round_half_even_proper.
  rewrite E, Qmake_100. field.
Qed.

Lemma round2_0 : round2 0 == 0.
Proof. reflexivity. Qed.

Lemma round2_nonneg (x : Q) : 0 <= x -> 0 <= round2 x.
Proof. intros H. rewrite <- round2_0. now apply round2_mono. Qed.

Lemma max0_nonneg (x : Q) : 0 <= max0 x.
Proof. unfold max0. qcases; lra. Qed.


Lemma pydiv_Ok (a b : Q) : ~ b == 0 -> pydiv a b = Ok (a / b).
Proof. intros H. unfold pydiv. apply Qeq_bool_false in H. now rewrite H. Qed.

End Rounding.

(** ** The per-metric score *)

Section MetricScore.
Import IndustryScorer.
Local Open Scope Q_scope.

Lemma bind_Ok {A B : Type} (a : A) (k : A -> res B) : (Ok a ≫= k) = k a.
Proof. reflexivity. Qed.

Lemma bind_Raise {A B : Type} (e : pyerr) (k : A -> res B) : (Raise e ≫= k) = Raise e.
Proof. reflexivity. Qed.

(** The unrounded score, by the branch of the code that computes it.  The
    code always returns one. *)
Lemma raw_metric_score_cases (value min_val max_val ideal : Q) :
  exists s, raw_metric_score value min_val max_val ideal = Ok s
  /\ (min_val <= value -> value <= max_val -> ~ max_val - min_val == 0 ->
        s = max0 (100 * (1 - Qabs (value - ideal) / ((max_val - min_val) / 2))))
  /\ (min_val <= value -> value <= max_val -> max_val - min_val == 0 ->
        (value == ideal -> s = 100) /\ (~ value == ideal -> s = 50))
  /\ (value < min_val ->
        (~ min_val == 0 -> s = max0 (100 * (value / min_val)))
        /\ (min_val == 0 -> s = 0))
  /\ (~ value < min_val -> max_val < value ->
        (~ value == 0 -> s = max0 (100 * (max_val / value)))
        /\ (value == 0 -> s = 0)).
Proof.
  unfold raw_metric_score.
  destruct (Qleb min_val value) eqn:E1; [apply Qleb_le in E1 | apply Qleb_gt in E1];
    [destruct (Qleb value max_val) eqn:E2;
       [apply Qleb_le in E2 | apply Qleb_gt in E2] |];
    cbn [andb].
  - destruct (Qeq_bool (max_val - min_val) 0) eqn:E3;
      [apply Qeq_bool_iff in E3 | apply Qeq_bool_false in E3].
    + destruct (Qeq_bool value ideal) eqn:E4;
        [apply Qeq_bool_iff in E4 | apply Qeq_bool_false in E4];
        (eexists; split; [reflexivity |]); repeat split; intros;
        solve [reflexivity | tauto | exfalso; lra].
    + rewrite (pydiv_Ok _ 2) by discriminate. rewrite bind_Ok.
      rewrite pydiv_Ok
        by (unfold Qdiv; change (/ 2) with (1 # 2); intros H; apply E3; lra).
      rewrite bind_Ok.
      eexists; split; [reflexivity |]; repeat split; intros;
        solve [reflexivity | tauto | exfalso; lra].
  - assert (Qltb value min_val = false) as -> by (apply Qltb_ge; lra).
    destruct (Qeq_bool value 0) eqn:E3;
      [apply Qeq_bool_iff in E3 | apply Qeq_bool_false in E3]; cbn [negb].
    + eexists; split; [reflexivity |]; repeat split; intros;
        solve [reflexivity | tauto | exfalso; lra].
    + rewrite pydiv_Ok by assumption. rewrite bind_Ok.
      eexists; split; [reflexivity |]; repeat split; intros;
        solve [reflexivity | tauto | exfalso; lra].
  - assert (Qltb value min_val = true) as -> by (apply Qltb_lt; lra).
    destruct (Qeq_bool min_val 0) eqn:E3;
      [apply Qeq_bool_iff in E3 | apply Qeq_bool_false in E3]; cbn [negb].
    + eexists; split; [reflexivity |]; repeat split; intros;
        solve [reflexivity | tauto | exfalso; lra].
    + rewrite pydiv_Ok by assumption. rewrite bind_Ok.
      eexists; split; [reflexivity |]; repeat split; intros;
        solve [reflexivity | tauto | exfalso; lra].
Qed.

(** The record returned for a number, given its unrounded score. *)
Lemma calculate_metric_score_Ok (value min_val max_val ideal weight s : Q) :
  raw_metric_score value min_val max_val ideal = Ok s ->
  calculate_metric_score (PyNum value) min_val max_val ideal weight =
  Ok {| score := round2 s; weighted_score := round2 (round2 s * weight);
        rating := rating_of (round2 s); value := Some (round2 value);
        industry_range := (min_val, max_val); industry_ideal := ideal;
        name_cn := None |}.
Proof. intros H. unfold calculate_metric_score. rewrite H. reflexivity. Qed.




End MetricScore.

(** ** The classifier *)

Import IndustryClassifier.

Section ClassifierProps.
Import IndustryBenchmarks.

Variable lower : pystr -> pystr.

Lemma startswith_refl (s : pystr) : startswith s s = true.
Proof. induction s as [| c s IH]; [reflexivity |]. cbn. now rewrite N.eqb_refl. Qed.

Lemma startswith_contains (s p : pystr) : startswith s p = true -> contains s p = true.
Proof.
  intros H. destruct s as [| c s]; [destruct p; [reflexivity | discriminate] |].
  change (contains (c :: s) p) with (startswith (c :: s) p || contains s p).
  now rewrite H.
Qed.

(** The first loop of [keyword_score] adds nothing when no keyword occurs. *)
Lemma count_loop_none (name : pystr) (keywords : list pystr) (z : Z) :
  existsb (fun keyword => contains name (lower keyword)) keywords = false ->
  fold_left (fun score keyword =>
               if contains name (lower keyword) then score + 1 else score)
            keywords z = z.
Proof.
  revert z. induction keywords as [| k ks IH]; intros z H; [reflexivity |].
  cbn in H. apply orb_false_iff in H as [Hk Hks]. cbn. rewrite Hk. now apply IH.
Qed.

Lemma bonus_loop_none (name : pystr) (keywords : list pystr) (z : Z) :
  existsb (fun keyword => contains name (lower keyword)) keywords = false ->
  fold_left (fun score keyword =>
               if bool_decide (lower keyword = name) || startswith name (lower keyword)
               then score + 2 else score)
            keywords z = z.
Proof.
  revert z. induction keywords as [| k ks IH]; intros z H; [reflexivity |].
  cbn in H. apply orb_false_iff in H as [Hk Hks]. cbn.
  destruct (bool_decide (lower k = name) || startswith name (lower k)) eqn:E.
  - exfalso. apply orb_true_iff in E as [E | E].
    + apply bool_decide_eq_true in E. rewrite E in Hk.
      rewrite (startswith_contains _ _ (startswith_refl name)) in Hk. discriminate.
    + rewrite (startswith_contains _ _ E) in Hk. discriminate.
  - now apply IH.
Qed.

Lemma count_loop_ge (name : pystr) (keywords : list pystr) (z : Z) :
  z <= fold_left (fun score keyword =>
                    if contains name (lower keyword) then score + 1 else score)
                 keywords z.
Proof.
  revert z. induction keywords as [| k ks IH]; intros z; cbn; [lia |].
  destruct (contains name (lower k)); [specialize (IH (z + 1)) | specialize (IH z)]; lia.
Qed.

Lemma count_loop_some (name : pystr) (keywords : list pystr) (z : Z) :
  existsb (fun keyword => contains name (lower keyword)) keywords = true ->
  z < fold_left (fun score keyword =>
                   if contains name (lower keyword) then score + 1 else score)
                keywords z.
Proof.
  revert z. induction keywords as [| k ks IH]; intros z H; [discriminate |].
  cbn in H. cbn. destruct (contains name (lower k)).
  - pose proof (count_loop_ge name ks (z + 1)). lia.
  - now apply IH.
Qed.

Lemma bonus_loop_ge (name : pystr) (keywords : list pystr) (z : Z) :
  z <= fold_left (fun score keyword =>
                    if bool_decide (lower keyword = name) || startswith name (lower keyword)
                    then score + 2 else score)
                 keywords z.
Proof.
  revert z. induction keywords as [| k ks IH]; intros z; cbn; [lia |].
  destruct (bool_decide (lower k = name) || startswith name (lower k));
    [specialize (IH (z + 2)) | specialize (IH z)]; lia.
Qed.

Lemma keyword_score_none (name : pystr) (keywords : list pystr) :
  existsb (fun keyword => contains name (lower keyword)) keywords = false ->
  keyword_score lower name keywords = 0.
Proof.
  intros H. unfold keyword_score. rewrite count_loop_none by assumption.
  now apply bonus_loop_none.
Qed.

Lemma keyword_score_some (name : pystr) (keywords : list pystr) :
  existsb (fun keyword => contains name (lower keyword)) keywords = true ->
  0 < keyword_score lower name keywords.
Proof.
  intros H. unfold keyword_score.
  pose proof (count_loop_some name keywords 0 H).
  pose proof (bonus_loop_ge name keywords
                (fold_left (fun score keyword =>
                              if contains name (lower keyword) then score + 1 else score)
                           keywords 0)).
  lia.
Qed.

Lemma keyword_score_nonneg (name : pystr) (keywords : list pystr) :
  0 <= keyword_score lower name keywords.
Proof.
  unfold keyword_score.
  pose proof (count_loop_ge name keywords 0).
  pose proof (bonus_loop_ge name keywords
                (fold_left (fun score keyword =>
                              if contains name (lower keyword) then score + 1 else score)
                           keywords 0)).
  lia.
Qed.

(** A positive keyword score needs a keyword, so the normalisation by the
    number of keywords never divides by zero. *)
Lemma keyword_score_pos_length (name : pystr) (keywords : list pystr) :
  0 < keyword_score lower name keywords -> keywords <> [].
Proof. intros H ->. cbn in H. lia. Qed.

Lemma classify_by_name_loop_skip (name : pystr) (i : industry) (info : industry_info)
    (rest : list (industry * industry_info)) (scores : list (industry * Q)) :
  existsb (fun keyword => contains name (lower keyword)) (keywords info) = false ->
  classify_by_name_loop lower name ((i, info) :: rest) scores =
  classify_by_name_loop lower name rest scores.
Proof. intros H. cbn [classify_by_name_loop]. now rewrite keyword_score_none. Qed.

Lemma classify_by_name_loop_hit (name : pystr) (i : industry) (info : industry_info)
    (rest : list (industry * industry_info)) (scores : list (industry * Q)) :
  existsb (fun keyword => contains name (lower keyword)) (keywords info) = true ->
  classify_by_name_loop lower name ((i, info) :: rest) scores =
  classify_by_name_loop lower name rest
    (assoc_set scores i
       (inject_Z (keyword_score lower name (keywords info))
        / inject_Z (Z.of_nat (length (keywords info))))%Q).
Proof.
  intros H. cbn [classify_by_name_loop].
  pose proof (keyword_score_some _ _ H) as Hpos.
  pose proof (keyword_score_pos_length _ _ Hpos) as Hlen.
  replace (keyword_score lower name (keywords info) >? 0) with true
    by (symmetry; apply Z.gtb_lt; lia).
  rewrite pydiv_Ok; [reflexivity |].
  destruct (keywords info); [congruence |].
  unfold Qeq. cbn [Qnum Qden inject_Z length]. lia.
Qed.

(** The name loop never raises. *)
Lemma classify_by_name_loop_Ok (name : pystr)
    (benchmarks : list (industry * industry_info)) (scores : list (industry * Q)) :
  exists name_scores, classify_by_name_loop lower name benchmarks scores = Ok name_scores.
Proof.
  revert scores. induction benchmarks as [| [i info] rest IH]; intros scores.
  - now exists scores.
  - destruct (existsb (fun keyword => contains name (lower keyword)) (keywords info))
      eqn:E.
    + rewrite classify_by_name_loop_hit by assumption. apply IH.
    + rewrite classify_by_name_loop_skip by assumption. apply IH.
Qed.

(** The classifier never raises: it ends at the default industry. *)
Lemma classify_Ok (stock_code : pystr) (company_name sw_industry : option pystr) :
  exists industry_id, classify lower stock_code company_name sw_industry = Ok industry_id.
Proof.
  unfold classify.
  destruct (match sw_industry with Some _ => _ | None => _ end); [eauto |].
  destruct (classify_by_stock_code stock_code); [eauto |].
  destruct company_name as [cname |]; [| eauto].
  destruct (str_truthy (Some cname)); [| eauto].
  unfold classify_by_name.
  destruct (classify_by_name_loop_Ok (lower cname) INDUSTRY_BENCHMARKS [])
    as [l ->].
  rewrite bind_Ok. destruct l; [eauto |]. cbn [py_max]. rewrite bind_Ok. eauto.
Qed.

Lemma get_industry_info_eq (i : industry) :
  get_industry_info i =
  match i with
  | technology => technology_info | manufacturing => manufacturing_info
  | construction => construction_info | retail => retail_info
  | finance => finance_info | real_estate => real_estate_info
  | consumer => consumer_info | energy => energy_info
  | utilities => utilities_info | telecom => telecom_info
  | transportation => transportation_info | materials => materials_info
  end.
Proof. destruct i; reflexivity. Qed.

(** When the keywords of the consumer industry are the only ones met in the
    name, the name loop records that industry alone. *)
Lemma classify_by_name_consumer (name : pystr) :
  mentions lower name consumer = true ->
  (forall i, i <> consumer -> mentions lower name i = false) ->
  exists q, classify_by_name lower name = Ok [(consumer, q)].
Proof.
  intros Hc Hothers. unfold mentions in Hc.
  assert (forall i, i <> consumer ->
            existsb (fun keyword => contains (lower name) (lower keyword))
                    (keywords (get_industry_info i)) = false) as Ho
    by exact Hothers.
  rewrite get_industry_info_eq in Hc.
  pose proof (Ho technology) as H1. pose proof (Ho manufacturing) as H2.
  pose proof (Ho construction) as H3. pose proof (Ho retail) as H4.
  pose proof (Ho finance) as H5. pose proof (Ho real_estate) as H6.
  pose proof (Ho energy) as H7. pose proof (Ho utilities) as H8.
  pose proof (Ho telecom) as H9. pose proof (Ho transportation) as H10.
  pose proof (Ho materials) as H11.
  rewrite get_industry_info_eq in H1, H2, H3, H4, H5, H6, H7, H8, H9, H10, H11.
  unfold classify_by_name, INDUSTRY_BENCHMARKS.
  rewrite !classify_by_name_loop_skip by auto using H1, H2, H3, H4, H5, H6 with congruence.
  rewrite classify_by_name_loop_hit by assumption.
  rewrite !classify_by_name_loop_skip by auto using H7, H8, H9, H10, H11 with congruence.
  eexists. reflexivity.
Qed.

(** C5 (as amended): with no sector tag, the code 688981 is classified as
    technology whatever the name; 601668 with the name of the example as
    construction; a code matching no prefix rule, example or pattern,
    with a name in which a consumer keyword occurs and no keyword of
    another industry does, as consumer; and such a code with an empty name
    as the default, manufacturing. *)
Theorem C5_classify_examples :
  (forall name, classify lower (u "688981") name None = Ok technology)
  /\ classify lower (u "601668") (Some (u "中国建筑")) None = Ok construction
  /\ (forall code name,
        classify_by_stock_code code = None -> name <> [] ->
        mentions lower name consumer = true ->
        (forall i, i <> consumer -> mentions lower name i = false) ->
        classify lower code (Some name) None = Ok consumer)
  /\ (forall code,
        classify_by_stock_code code = None ->
        classify lower code (Some []) None = Ok manufacturing).
Proof.
  split; [| split; [| split]].
  - intros name. unfold classify.
    replace (classify_by_stock_code (u "688981")) with (Some technology)
      by (vm_compute; reflexivity).
    reflexivity.
  - unfold classify.
    replace (classify_by_stock_code (u "601668")) with (Some construction)
      by (vm_compute; reflexivity).
    reflexivity.
  - intros code name Hcode Hname Hc Hothers. unfold classify. rewrite Hcode.
    destruct name as [| c name]; [congruence |]. cbn [str_truthy].
    destruct (classify_by_name_consumer (c :: name) Hc Hothers) as [q ->].
    reflexivity.
  - intros code Hcode. unfold classify. rewrite Hcode. reflexivity.
Qed.

End ClassifierProps.

Lemma C5_witness :
  classify ascii_lower (u "688981") (Some (u "中芯国际")) None
  = Ok IndustryBenchmarks.technology
  /\ classify ascii_lower (u "000123") (Some (u "泸州白酒")) None
     = Ok IndustryBenchmarks.consumer
  /\ classify ascii_lower (u "000123") (Some []) None
     = Ok IndustryBenchmarks.manufacturing.
Proof.
  destruct (C5_classify_examples ascii_lower) as (H1 & _ & H3 & H4).
  split; [apply H1 |]. split.
  - apply H3; [vm_compute; reflexivity | discriminate | vm_compute; reflexivity |].
    intros i Hi. destruct i; solve [vm_compute; reflexivity | congruence].
  - apply H4. vm_compute; reflexivity.
Defined.

(** C5 as stated fails for a name that also holds a keyword of another
    industry: the code 000123 matches no prefix rule, example or pattern,
    the name holds the consumer keyword 白酒, and the classifier returns
    finance, whose keyword 银行 starts the name. *)
Lemma C5_consumer_keyword_refuted :
  classify_by_stock_code (u "000123") = None
  /\ str_in (u "白酒") (IndustryBenchmarks.keywords IndustryBenchmarks.consumer_info)
     = true
  /\ contains (u "银行白酒") (u "白酒") = true
  /\ classify ascii_lower (u "000123") (Some (u "银行白酒")) None
     = Ok IndustryBenchmarks.finance
  /\ classify ascii_lower (u "000123") (Some (u "银行白酒")) None
     <> Ok IndustryBenchmarks.consumer.
Proof.
  split; [vm_compute; reflexivity |].
  split; [vm_compute; reflexivity |].
  split; [vm_compute; reflexivity |].
  split; [vm_compute; reflexivity |].
  intros H. vm_compute in H. discriminate H.
Qed.

(** ** Derived metrics *)

Section AdvancedMetrics.
Import FetchData.
Local Open Scope Q_scope.

Lemma rounded_Ok (q : Q) : rounded (Ok q) = Ok (PyNum (round2 q)).
Proof. reflexivity. Qed.

Lemma rounded_pct_Ok (a b : Q) :
  ~ b == 0 ->
  rounded (r ← pydiv a b; Ok (r * 100)) = Ok (PyNum (round2 (a / b * 100))).
Proof. intros H. now rewrite pydiv_Ok. Qed.

Lemma rounded_div_Ok (a b : Q) :
  ~ b == 0 -> rounded (pydiv a b) = Ok (PyNum (round2 (a / b))).
Proof. intros H. now rewrite pydiv_Ok. Qed.

Lemma if_truthy_Ok (c : Q) (e : res pyval) :
  (exists v, e = Ok v) -> exists v, if_truthy c e = Ok v.
Proof. intros [v ->]. unfold if_truthy. destruct (Qeq_bool c 0); eauto. Qed.

Lemma Qgtb_0_nonzero (a : Q) : Qgtb a 0 = true -> ~ a == 0.
Proof. unfold Qgtb. intros H%Qltb_lt. lra. Qed.

(** A guarded assignment [if c: metrics[k] = e] leaves the other keys. *)
Lemma guarded_assign (c : bool) (e : res pyval) (k : pystr) (m : gmap pystr pyval) :
  (c = true -> exists v, e = Ok v) ->
  exists m',
    (if c then v ← e; Ok (<[k := v]> m) else Ok m) = Ok m'
    /\ (forall k', k' <> k -> m' !! k' = m !! k')
    /\ (c = false -> m' = m)
    /\ (forall v, c = true -> e = Ok v -> m' = <[k := v]> m).
Proof.
  intros H. destruct c.
  - destruct H as [v ->]; [reflexivity |]. rewrite bind_Ok. eexists.
    split; [reflexivity |]. split; [| split]; [| discriminate |].
    + intros k' Hk'. now rewrite lookup_insert_ne.
    + intros v' _ [= ->]. reflexivity.
  - exists m. split; [reflexivity |]. split; [reflexivity |].
    split; [reflexivity | discriminate].
Qed.

(** The same for a guard over two assignments. *)
Lemma guarded_assign2 (c : bool) (e1 e2 : res pyval) (k1 k2 : pystr)
    (m : gmap pystr pyval) :
  (c = true -> exists v, e1 = Ok v) -> (c = true -> exists v, e2 = Ok v) ->
  exists m',
    (if c then v1 ← e1; v2 ← e2; Ok (<[k2 := v2]> (<[k1 := v1]> m)) else Ok m) = Ok m'
    /\ (forall k', k' <> k1 -> k' <> k2 -> m' !! k' = m !! k')
    /\ (c = false -> m' = m)
    /\ (forall v1 v2, c = true -> e1 = Ok v1 -> e2 = Ok v2 ->
          m' = <[k2 := v2]> (<[k1 := v1]> m)).
Proof.
  intros H1 H2. destruct c.
  - destruct H1 as [v1 ->]; [reflexivity |]. destruct H2 as [v2 ->]; [reflexivity |].
    rewrite !bind_Ok. eexists. split; [reflexivity |].
    split; [| split]; [| discriminate |].
    + intros k' Hk1 Hk2. now rewrite !lookup_insert_ne.
    + intros v1' v2' _ [= ->] [= ->]. reflexivity.
  - exists m. split; [reflexivity |]. split; [reflexivity |].
    split; [reflexivity | discriminate].
Qed.

(** The cash-flow block returns and leaves [roe] and [gross_margin]. *)
Lemma cashflow_metrics_Ok (net_profit : Q) (cashflow m : gmap pystr pyval) :
  exists m',
    cashflow_metrics net_profit cashflow m = Ok m'
    /\ m' !! u "roe" = m !! u "roe"
    /\ m' !! u "gross_margin" = m !! u "gross_margin".
Proof.
  unfold cashflow_metrics. cbv zeta.
  set (operating_cf := safe_float (first_truthy cashflow [u "NETCASH_OPERATE"])).
  set (capex := safe_float (first_truthy cashflow [u "CONSTRUCT_LONG_ASSET"])).
  destruct (guarded_assign (negb (Qeq_bool net_profit 0))
              (if_truthy operating_cf
                 (rounded (r ← pydiv operating_cf net_profit; Ok (r * 100))))
              (u "ocf_to_np") m) as (m1 & -> & P1 & _).
  { intros H. apply negb_true_iff, Qeq_bool_false in H.
    apply if_truthy_Ok. rewrite rounded_pct_Ok by assumption. eauto. }
  rewrite bind_Ok.
  repeat match goal with
    | |- context [if_truthy ?c (rounded (pydiv ?a 100000000))] =>
        let v := fresh "v" in
        destruct (if_truthy_Ok c (rounded (pydiv a 100000000))) as [v ->];
        [rewrite rounded_div_Ok by discriminate; eauto | rewrite bind_Ok]
    | |- context [rounded (pydiv ?a 100000000)] =>
        rewrite (rounded_div_Ok a 100000000) by discriminate; rewrite bind_Ok
    end.
  match goal with
  | |- context [(if Qgtb operating_cf 0 && Qgtb net_profit 0 then _ else _) ≫= _] =>
      destruct (Qgtb operating_cf 0 && Qgtb net_profit 0) eqn:Eq
  end.
  - apply andb_true_iff in Eq as [_ Hnp%Qgtb_0_nonzero].
    rewrite rounded_div_Ok by assumption. rewrite !bind_Ok.
    match goal with
    | |- context [if ?c then (?e ≫= _) else Ok ?mm] =>
        destruct (guarded_assign c e (u "capex_ratio") mm) as (m2 & -> & P2 & _)
    end.
    { intros H. apply negb_true_iff, Qeq_bool_false in H.
      apply if_truthy_Ok. rewrite pydiv_Ok by assumption. rewrite !bind_Ok. eauto. }
    eexists. split; [reflexivity |].
    split; rewrite P2 by key_neq; rewrite !lookup_insert_ne by key_neq;
      apply P1; key_neq.
  - match goal with
    | |- context [(if Qltb operating_cf 0 then Ok ?ma else Ok ?mb) ≫= _] =>
        assert (exists m3, (if Qltb operating_cf 0 then Ok ma else Ok mb) = Ok m3
                  /\ m3 !! u "roe" = m1 !! u "roe"
                  /\ m3 !! u "gross_margin" = m1 !! u "gross_margin")
          as (m3 & -> & R3 & G3)
    end.
    { destruct (Qltb operating_cf 0); eexists; (split; [reflexivity |]);
        split; rewrite !lookup_insert_ne by key_neq; reflexivity. }
    rewrite bind_Ok.
    match goal with
    | |- context [if ?c then (?e ≫= _) else Ok ?mm] =>
        destruct (guarded_assign c e (u "capex_ratio") mm) as (m2 & -> & P2 & _)
    end.
    { intros H. apply negb_true_iff, Qeq_bool_false in H.
      apply if_truthy_Ok. rewrite pydiv_Ok by assumption. rewrite !bind_Ok. eauto. }
    eexists. split; [reflexivity |].
    split; rewrite P2 by key_neq; [rewrite R3 | rewrite G3]; apply P1; key_neq.
Qed.


End AdvancedMetrics.

(** ** The industry-adjusted scorer *)

Import IndustryScorer.

Section ScorerProps.
Import IndustryBenchmarks.
Local Open Scope Q_scope.

Lemma max0_le (x c : Q) : 0 <= c -> x <= c -> max0 x <= c.
Proof. intros Hc Hx. unfold max0. qcases; lra. Qed.

Lemma round2_Z (z : Z) : round2 (inject_Z z) == inject_Z z.
Proof.
  apply (round2_cent (100 * z)). rewrite Qmake_100, inject_Z_mult. field.
Qed.

Lemma round2_le_Z (x : Q) (z : Z) : x <= inject_Z z -> round2 x <= inject_Z z.
Proof. intros H. rewrite <- (round2_Z z). now apply round2_mono. Qed.

(** Against a range of positive lower bound and positive width the score
    before rounding lies between 0 and 100. *)
Lemma raw_metric_score_bounds (value min_val max_val ideal s : Q) :
  0 < min_val -> min_val < max_val ->
  raw_metric_score value min_val max_val ideal = Ok s -> 0 <= s <= 100.
Proof.
  intros Hmin Hw Hs.
  destruct (raw_metric_score_cases value min_val max_val ideal)
    as (s' & Hs' & Hin & _ & Hlo & Hhi).
  assert (s' = s) by congruence. subst s'.
  destruct (Qlt_le_dec value min_val) as [Hb | Hge].
  - destruct (Hlo Hb) as [Ha _]. rewrite Ha by lra.
    split; [apply max0_nonneg |]. apply max0_le; [lra |].
    assert (value / min_val <= 1) by (apply Qle_shift_div_r; lra). lra.
  - destruct (Qlt_le_dec max_val value) as [Ha | Hle].
    + destruct Hhi as [Hx _]; [lra | assumption |]. rewrite Hx by lra.
      split; [apply max0_nonneg |]. apply max0_le; [lra |].
      assert (max_val / value <= 1) by (apply Qle_shift_div_r; lra). lra.
    + rewrite Hin by lra.
      split; [apply max0_nonneg |]. apply max0_le; [lra |].
      assert (0 <= Qabs (value - ideal) / ((max_val - min_val) / 2)) as Hr.
      { apply Qle_shift_div_l.
        - unfold Qdiv. change (/ 2) with (1 # 2). lra.
        - rewrite Qmult_0_l. apply Qabs_nonneg. }
      set (r := Qabs (value - ideal) / ((max_val - min_val) / 2)) in *. lra.
Qed.

Lemma wf_benchmark_spec (b : benchmark) :
  wf_benchmark b = true ->
  0 < min b /\ min b < max b /\ 0 <= weight b
  /\ exists k, 100 * weight b == inject_Z (5 * k).
Proof.
  unfold wf_benchmark. rewrite !andb_true_iff.
  intros [[[H1%Qltb_lt H2%Qltb_lt] H3%Qleb_le] H4%Qeq_bool_iff].
  repeat split; try assumption. eexists. symmetry. exact H4.
Qed.

(** The scores of a number against a benchmark of the table. *)
Lemma calculate_metric_score_bounds (value : Q) (b : benchmark) :
  wf_benchmark b = true ->
  exists r,
    calculate_metric_score (PyNum value) (min b) (max b) (ideal b) (weight b) = Ok r
    /\ 0 <= score r <= 100
    /\ 0 <= weighted_score r <= 100 * weight b
    /\ exists z, weighted_score r == z # 100.
Proof.
  intros (Hmin & Hw & Hwt & k & Hk)%wf_benchmark_spec.
  destruct (raw_metric_score_cases value (min b) (max b) (ideal b)) as (s & Hs & _).
  pose proof (raw_metric_score_bounds _ _ _ _ _ Hmin Hw Hs) as [Hs0 Hs100].
  rewrite (calculate_metric_score_Ok _ _ _ _ (weight b) _ Hs).
  eexists. split; [reflexivity |]. cbn [score weighted_score].
  assert (0 <= round2 s <= 100) as [Hr0 Hr100].
  { split; [now apply round2_nonneg |].
    apply (round2_le_Z s 100). exact Hs100. }
  split; [tauto |]. split.
  - split.
    + apply round2_nonneg, Qmult_le_0_compat; assumption.
    + assert (round2 (100 * weight b) == 100 * weight b) as <-.
      { rewrite (round2_proper _ _ Hk), Hk. apply round2_Z. }
      apply round2_mono, Qmult_le_compat_r; assumption.
  - eexists. unfold round2. reflexivity.
Qed.

Lemma assoc_get_set {V : Type} (d : list (pystr * V)) (k k' : pystr) (v : V) :
  assoc_get (assoc_set d k v) k' = if decide (k = k') then Some v else assoc_get d k'.
Proof.
  induction d as [| [k0 v0] d IH]; cbn.
  - reflexivity.
  - destruct (decide (k0 = k)) as [-> | Hne]; cbn.
    + destruct (decide (k = k')); reflexivity.
    + destruct (decide (k0 = k')) as [-> | Hne'].
      * destruct (decide (k = k')); [congruence | reflexivity].
      * exact IH.
Qed.

Lemma table_wf (i : industry) :
  forallb (fun p => wf_benchmark (snd p)) (metrics (get_industry_info i)) = true.
Proof. destruct i; vm_compute; reflexivity. Qed.






(** Python's [str.lower], the parameter of the classifier. *)
Variable lower : pystr -> pystr.



End ScorerProps.



(** ** A null metric and an absent metric *)

Section NullAndAbsent.
Import IndustryBenchmarks.
Local Open Scope Q_scope.

Variable lower : pystr -> pystr.




Lemma generate_comparison_ext (m1 m2 : gmap pystr pyval)
    (industry_metrics : list (pystr * benchmark))
    (comparison : list (pystr * comparison_entry)) :
  (forall k, dict_get m1 k = dict_get m2 k) ->
  _generate_comparison m1 industry_metrics comparison
  = _generate_comparison m2 industry_metrics comparison.
Proof.
  intros H. revert comparison.
  induction industry_metrics as [| [metric_name config] rest IH]; intros comparison;
    [reflexivity |].
  cbn [_generate_comparison]. rewrite H.
  destruct (dict_get m2 metric_name); [apply IH |].
  destruct (Qeq_bool (ideal config) 0); [apply IH |].
  destruct (if negb false then _ else _); [| reflexivity].
  rewrite !bind_Ok. destruct (if Qleb _ 10 then _ else _). apply IH.
Qed.






End NullAndAbsent.



(** ** The defaults of the generic scorer *)

Section Totality.
Import IndustryBenchmarks FetchData.
Local Open Scope Q_scope.

Lemma dict_get_insert (m : gmap pystr pyval) (k k' : pystr) (v : pyval) :
  dict_get (<[k := v]> m) k' = if decide (k = k') then v else dict_get m k'.
Proof.
  unfold dict_get. destruct (decide (k = k')) as [-> | Hne].
  - now rewrite lookup_insert_eq.
  - now rewrite lookup_insert_ne.
Qed.



Lemma resolve_value_empty (n : pystr) : resolve_value ∅ n = None.
Proof.
  unfold resolve_value, dict_get. rewrite lookup_empty. cbn [default from_option].
  replace (find (present ∅) (default [n] (assoc_get aliases n))) with (@None pystr);
    [reflexivity |].
  induction (default [n] (assoc_get aliases n)) as [| a l IH]; [reflexivity |].
  cbn. unfold present at 1. rewrite lookup_empty. exact IH.
Qed.

Variable lower : pystr -> pystr.

End Totality.

(** ** The comparison with the industry *)

(** C6, at the test input of the module: the net margin of the company is
    resolved through the alias ["net_profit_margin"] and scored against
    the benchmark of the consumer industry, whose ideal is not zero, yet
    the comparison has no entry for it; the comparison reads the metric's
    own key only. *)
Theorem C6_alias_resolved_metric_not_compared :
  exists r,
    calculate_industry_adjusted_score ascii_lower test_metrics (u "600519")
      (Some (u "贵州茅台")) None = Ok r
    /\ id (industry r) = u "consumer"
    /\ (exists v, resolve_value test_metrics (u "net_margin") = Some v /\ (v == 51.26)%Q)
    /\ (exists b, IndustryBenchmarks.assoc_get
                    (IndustryBenchmarks.metrics IndustryBenchmarks.consumer_info)
                    (u "net_margin") = Some b
                  /\ ~ (IndustryBenchmarks.ideal b == 0)%Q)
    /\ (exists d, IndustryBenchmarks.assoc_get (result_dimension_scores r)
                    (u "net_margin") = Some d
                  /\ (score d == 58.53)%Q)
    /\ IndustryBenchmarks.assoc_get (industry_comparison r) (u "net_margin") = None.
Proof.
  eexists. split; [vm_compute; reflexivity |]. split; [reflexivity |].
  split; [eexists; split; [vm_compute; reflexivity | reflexivity] |].
  split; [eexists; split; [vm_compute; reflexivity | vm_compute; discriminate] |].
  split; [eexists; split; [vm_compute; reflexivity | reflexivity] |].
  vm_compute. reflexivity.
Qed.

(** * Further properties of the scoring core *)

(** ** The generic health scorer: bounds and monotonicity *)

Section HealthScoreMore.
Import FetchData.
Local Open Scope Z_scope.

Ltac dimension_eq :=
  unfold calculate_health_score_v2; cbv zeta;
  cbn [dimensions profitability solvency efficiency growth cashflow];
  repeat match goal with |- context [if ?b then _ else _] => destruct b end;
  reflexivity.

Lemma profitability_score_eq (m : gmap pystr pyval) :
  score (profitability (dimensions (calculate_health_score_v2 m)))
  = profitability_points (or_num (dict_get m (u "roe")) 0).
Proof. unfold profitability_points. dimension_eq. Qed.

Lemma solvency_score_points (m : gmap pystr pyval) :
  score (solvency (dimensions (calculate_health_score_v2 m)))
  = solvency_points (or_num (dict_get m (u "debt_ratio")) 100).
Proof. unfold solvency_points. dimension_eq. Qed.

Lemma efficiency_score_eq (m : gmap pystr pyval) :
  score (efficiency (dimensions (calculate_health_score_v2 m)))
  = efficiency_points (or_num (dict_get m (u "asset_turnover")) 0).
Proof. unfold efficiency_points. dimension_eq. Qed.

Lemma growth_score_eq (m : gmap pystr pyval) :
  score (growth (dimensions (calculate_health_score_v2 m)))
  = growth_points (or_num (dict_get m (u "net_profit_margin")) 0).
Proof. unfold growth_points. dimension_eq. Qed.

Lemma cashflow_score_eq (m : gmap pystr pyval) :
  score (cashflow (dimensions (calculate_health_score_v2 m)))
  = cashflow_points (or_num (dict_get m (u "ocf_to_np")) 0).
Proof. unfold cashflow_points. dimension_eq. Qed.

Lemma total_score_sum (m : gmap pystr pyval) :
  let d := dimensions (calculate_health_score_v2 m) in
  total_score (calculate_health_score_v2 m)
  = score (profitability d) + score (solvency d) + score (efficiency d)
    + score (growth d) + score (cashflow d).
Proof. reflexivity. Qed.

Lemma total_score_points (m : gmap pystr pyval) :
  total_score (calculate_health_score_v2 m)
  = profitability_points (or_num (dict_get m (u "roe")) 0)
    + solvency_points (or_num (dict_get m (u "debt_ratio")) 100)
    + efficiency_points (or_num (dict_get m (u "asset_turnover")) 0)
    + growth_points (or_num (dict_get m (u "net_profit_margin")) 0)
    + cashflow_points (or_num (dict_get m (u "ocf_to_np")) 0).
Proof.
  rewrite total_score_sum. cbv zeta.
  now rewrite profitability_score_eq, solvency_score_points, efficiency_score_eq,
    growth_score_eq, cashflow_score_eq.
Qed.

(** X1: Every dimension score lies between its floor and its declared maximum
    (solvency and growth never score below 5, growth never above 12 of its
    15 points); the total is the sum of the five and lies between 10 and
    97. *)
Theorem health_score_bounds (m : gmap pystr pyval) :
  let r := calculate_health_score_v2 m in
  let d := dimensions r in
  (0 <= score (profitability d) <= max (profitability d)
   /\ max (profitability d) = 25)
  /\ (5 <= score (solvency d) <= max (solvency d) /\ max (solvency d) = 25)
  /\ (0 <= score (efficiency d) <= max (efficiency d) /\ max (efficiency d) = 20)
  /\ (5 <= score (growth d) <= 12 /\ max (growth d) = 15)
  /\ (0 <= score (cashflow d) <= max (cashflow d) /\ max (cashflow d) = 15)
  /\ total_score r
     = score (profitability d) + score (solvency d) + score (efficiency d)
       + score (growth d) + score (cashflow d)
  /\ 10 <= total_score r <= 97.
Proof.
  cbv zeta.
  assert (forall x, 0 <= profitability_points x <= 25) as Hp
    by (intros x; unfold profitability_points;
        repeat match goal with |- context [if ?b then _ else _] => destruct b end; lia).
  assert (forall x, 5 <= solvency_points x <= 25) as Hs
    by (intros x; unfold solvency_points;
        repeat match goal with |- context [if ?b then _ else _] => destruct b end; lia).
  assert (forall x, 0 <= efficiency_points x <= 20) as He
    by (intros x; unfold efficiency_points;
        repeat match goal with |- context [if ?b then _ else _] => destruct b end; lia).
  assert (forall x, 5 <= growth_points x <= 12) as Hg
    by (intros x; unfold growth_points;
        repeat match goal with |- context [if ?b then _ else _] => destruct b end; lia).
  assert (forall x, 0 <= cashflow_points x <= 15) as Hc
    by (intros x; unfold cashflow_points;
        repeat match goal with |- context [if ?b then _ else _] => destruct b end; lia).
  assert (max (profitability (dimensions (calculate_health_score_v2 m))) = 25
          /\ max (solvency (dimensions (calculate_health_score_v2 m))) = 25
          /\ max (efficiency (dimensions (calculate_health_score_v2 m))) = 20
          /\ max (growth (dimensions (calculate_health_score_v2 m))) = 15
          /\ max (cashflow (dimensions (calculate_health_score_v2 m))) = 15)
    as (M1 & M2 & M3 & M4 & M5).
  { repeat split; unfold calculate_health_score_v2; cbv zeta;
      cbn [dimensions profitability solvency efficiency growth cashflow];
      repeat match goal with |- context [if ?b then _ else _] => destruct b end;
      reflexivity. }
  rewrite M1, M2, M3, M4, M5, total_score_points.
  rewrite profitability_score_eq, solvency_score_points, efficiency_score_eq,
    growth_score_eq, cashflow_score_eq.
  specialize (Hp (or_num (dict_get m (u "roe")) 0)).
  specialize (Hs (or_num (dict_get m (u "debt_ratio")) 100)).
  specialize (He (or_num (dict_get m (u "asset_turnover")) 0)).
  specialize (Hg (or_num (dict_get m (u "net_profit_margin")) 0)).
  specialize (Hc (or_num (dict_get m (u "ocf_to_np")) 0)).
  repeat split; lia.
Qed.

End HealthScoreMore.

Section HealthScoreMonotone.
Import FetchData.
Local Open Scope Z_scope.

Ltac points_cases :=
  unfold or_num;
  repeat match goal with
    | |- context [Qeq_bool ?a ?b] =>
        let E := fresh "E" in
        destruct (Qeq_bool a b) eqn:E;
        [apply Qeq_bool_iff in E | apply Qeq_bool_false in E]
    end;
  qcases; try lia; exfalso; lra.

Lemma profitability_points_mono (q1 q2 : Q) :
  (q1 <= q2)%Q ->
  profitability_points (or_num (PyNum q1) 0) <= profitability_points (or_num (PyNum q2) 0).
Proof. intros H. unfold profitability_points. points_cases. Qed.

Lemma efficiency_points_mono (q1 q2 : Q) :
  (q1 <= q2)%Q ->
  efficiency_points (or_num (PyNum q1) 0) <= efficiency_points (or_num (PyNum q2) 0).
Proof. intros H. unfold efficiency_points. points_cases. Qed.

Lemma growth_points_mono (q1 q2 : Q) :
  (q1 <= q2)%Q ->
  growth_points (or_num (PyNum q1) 0) <= growth_points (or_num (PyNum q2) 0).
Proof. intros H. unfold growth_points. points_cases. Qed.

Lemma cashflow_points_mono (q1 q2 : Q) :
  (q1 <= q2)%Q ->
  cashflow_points (or_num (PyNum q1) 0) <= cashflow_points (or_num (PyNum q2) 0).
Proof. intros H. unfold cashflow_points. points_cases. Qed.

Lemma solvency_points_antitone (q1 q2 : Q) :
  (q1 <= q2)%Q -> ~ (q1 == 0)%Q -> ~ (q2 == 0)%Q ->
  solvency_points (or_num (PyNum q2) 100) <= solvency_points (or_num (PyNum q1) 100).
Proof. intros H H1 H2. unfold solvency_points. points_cases. Qed.

(** Rewriting of the lookups of an updated dictionary at literal keys. *)
Ltac insert_lookups :=
  rewrite !dict_get_insert;
  repeat match goal with
    | |- context [decide (?a = ?b)] =>
        first [rewrite (decide_True (P := a = b)) by reflexivity
              | rewrite (decide_False (P := a = b)) by key_neq]
    end.

(** X2: Raising the return on equity, the asset turnover, the net profit
    margin or the cash-flow ratio of an input never lowers its total
    score. *)
Theorem health_score_monotone (m : gmap pystr pyval) (k : pystr) (q1 q2 : Q) :
  In k [u "roe"; u "asset_turnover"; u "net_profit_margin"; u "ocf_to_np"] ->
  (q1 <= q2)%Q ->
  total_score (calculate_health_score_v2 (<[k := PyNum q1]> m))
  <= total_score (calculate_health_score_v2 (<[k := PyNum q2]> m)).
Proof.
  intros Hk Hq. rewrite !total_score_points.
  pose proof (profitability_points_mono _ _ Hq).
  pose proof (efficiency_points_mono _ _ Hq).
  pose proof (growth_points_mono _ _ Hq).
  pose proof (cashflow_points_mono _ _ Hq).
  cbn [In] in Hk. destruct Hk as [<- | [<- | [<- | [<- | []]]]]; insert_lookups; lia.
Qed.

Lemma health_score_monotone_witness :
  total_score (calculate_health_score_v2 (<[u "roe" := PyNum 4]> example_metrics))
  <= total_score (calculate_health_score_v2 (<[u "roe" := PyNum 12]> example_metrics)).
Proof.
  apply health_score_monotone; [left; reflexivity | qconst].
Defined.

(** X3: Between two debt ratios that are not zero, the lower one never gets
    the lower total score.  (A debt ratio of exactly zero is scored as
    missing.) *)
Theorem health_score_debt_antitone (m : gmap pystr pyval) (q1 q2 : Q) :
  (q1 <= q2)%Q -> ~ (q1 == 0)%Q -> ~ (q2 == 0)%Q ->
  total_score (calculate_health_score_v2 (<[u "debt_ratio" := PyNum q2]> m))
  <= total_score (calculate_health_score_v2 (<[u "debt_ratio" := PyNum q1]> m)).
Proof.
  intros Hq H1 H2. rewrite !total_score_points.
  pose proof (solvency_points_antitone _ _ Hq H1 H2).
  insert_lookups. lia.
Qed.

Lemma health_score_debt_antitone_witness :
  total_score (calculate_health_score_v2 (<[u "debt_ratio" := PyNum 65]> example_metrics))
  <= total_score (calculate_health_score_v2 (<[u "debt_ratio" := PyNum 45]> example_metrics)).
Proof.
  apply health_score_debt_antitone; qconst.
Defined.

End HealthScoreMonotone.

(** ** The per-metric score: its range *)

Section MetricScoreMore.
Import IndustryBenchmarks.
Local Open Scope Q_scope.

(** X5: Whenever the score of a number against a benchmark of the table is
    computed, it lies between 0 and 100 and the weighted score between 0
    and 100 times the weight. *)
Theorem table_metric_score_range (i : industry) (metric_name : pystr) (b : benchmark)
    (value : Q) (r : metric_result) :
  In (metric_name, b) (metrics (get_industry_info i)) ->
  calculate_metric_score (PyNum value) (min b) (max b) (ideal b) (weight b) = Ok r ->
  0 <= score r <= 100 /\ 0 <= weighted_score r <= 100 * weight b.
Proof.
  intros Hin Hr. pose proof (table_wf i) as Hwf.
  rewrite forallb_forall in Hwf. specialize (Hwf _ Hin). cbn [snd] in Hwf.
  destruct (calculate_metric_score_bounds value b Hwf) as (r' & Hr' & Hs & Hw & _).
  assert (r' = r) by congruence. subst r'. split; assumption.
Qed.

Lemma table_metric_score_range_witness :
  exists r,
    calculate_metric_score (PyNum 1000) 12 35 22 0.30 = Ok r
    /\ 0 <= score r <= 100
    /\ 0 <= weighted_score r <= 100 * 0.30.
Proof.
  eexists. split; [vm_compute; reflexivity |].
  apply (table_metric_score_range consumer (u "roe")
           {| min := 12; max := 35; ideal := 22; weight := 0.30 |} 1000).
  - vm_compute. tauto.
  - vm_compute. reflexivity.
Defined.

End MetricScoreMore.

(** ** The aggregate: what the scoring loop records *)

Section AggregateMore.
Import IndustryBenchmarks.
Local Open Scope Q_scope.




Lemma table_names_distinct (i : industry) :
  NoDup (map fst (metrics (get_industry_info i))).
Proof.
  apply (bool_decide_eq_true_1 (NoDup (map fst (metrics (get_industry_info i))))).
  destruct i; vm_compute; reflexivity.
Qed.

(** Python's [str.lower], the parameter of the classifier. *)
Variable lower : pystr -> pystr.



End AggregateMore.



(** ** The aggregate: adjustments, comparison and recommendations *)

Section AggregateResult.
Import IndustryBenchmarks.
Local Open Scope Q_scope.



(** The comparison loop over any list of benchmarks: the entries of other
    metrics and of metrics whose own key holds no number are left, and,
    the names being distinct, a metric whose own key holds a number gets
    the entry of that number against its ideal. *)
Lemma generate_comparison_state (m : gmap pystr pyval)
    (industry_metrics : list (pystr * benchmark)) :
  forall comparison,
  exists c,
    _generate_comparison m industry_metrics comparison = Ok c
    /\ (forall n, ~ In n (map fst industry_metrics) ->
                  assoc_get c n = assoc_get comparison n)
    /\ (forall n, dict_get m n = PyNone -> assoc_get c n = assoc_get comparison n)
    /\ (NoDup (map fst industry_metrics) ->
        forall n b v,
          In (n, b) industry_metrics -> dict_get m n = PyNum v -> ~ ideal b == 0 ->
          assoc_get c n = Some (comparison_of v (ideal b))).
Proof.
  induction industry_metrics as [| [n0 b0] rest IH]; intros comparison.
  - exists comparison. cbn. split; [reflexivity |]. split; [reflexivity |].
    split; [reflexivity |]. intros _ n b v [].
  - cbn [_generate_comparison].
    assert (forall c0,
              (exists c, _generate_comparison m rest c0 = Ok c
                 /\ (forall n, ~ In n (map fst rest) -> assoc_get c n = assoc_get c0 n)
                 /\ (forall n, dict_get m n = PyNone -> assoc_get c n = assoc_get c0 n)
                 /\ (NoDup (map fst rest) ->
                     forall n b v,
                       In (n, b) rest -> dict_get m n = PyNum v -> ~ ideal b == 0 ->
                       assoc_get c n = Some (comparison_of v (ideal b))))) as IH'
      by exact IH.
    assert (dict_get m n0 = PyNone \/ Qeq_bool (ideal b0) 0 = true ->
            exists c,
              _generate_comparison m rest comparison = Ok c
              /\ (forall n, ~ In n (map fst ((n0, b0) :: rest)) ->
                            assoc_get c n = assoc_get comparison n)
              /\ (forall n, dict_get m n = PyNone ->
                            assoc_get c n = assoc_get comparison n)
              /\ (NoDup (map fst ((n0, b0) :: rest)) ->
                  forall n b v,
                    In (n, b) ((n0, b0) :: rest) -> dict_get m n = PyNum v ->
                    ~ ideal b == 0 ->
                    assoc_get c n = Some (comparison_of v (ideal b)))) as Hskip.
    { intros Hs. destruct (IH' comparison) as (c & Hc & Hkeep & Hnone & Hent).
      exists c. split; [exact Hc |]. split; [| split; [exact Hnone |]].
      - intros n Hn. apply Hkeep. intros Hin. apply Hn. right. exact Hin.
      - intros Hnd n b v Hin Hv Hi. apply NoDup_cons in Hnd as [_ Hnd].
        destruct Hin as [[= <- <-] | Hin]; [| exact (Hent Hnd n b v Hin Hv Hi)].
        destruct Hs as [Hs | Hs]; [congruence |].
        apply Qeq_bool_iff in Hs. contradiction. }
    destruct (dict_get m n0) as [| v0] eqn:Hv0; [apply Hskip; left; reflexivity |].
    destruct (Qeq_bool (ideal b0) 0) eqn:Hi0; [apply Hskip; right; reflexivity |].
    apply Qeq_bool_false in Hi0. cbn [negb].
    rewrite pydiv_Ok by assumption. rewrite !bind_Ok. cbn [safe_float].
    match goal with
    | |- context [_generate_comparison m rest (assoc_set comparison n0 ?e)] =>
        assert (e = comparison_of v0 (ideal b0)) as ->
          by (unfold comparison_of; cbv zeta;
              destruct (Qleb _ 10); [reflexivity |];
              destruct (Qgtb _ 0); reflexivity)
    | |- context [let '(_, _) := ?p in _] =>
        replace (let '(st, st_cn) := p in
                 _generate_comparison m rest
                   (assoc_set comparison n0
                      {| company_value := round2 v0;
                         comparison_ideal := ideal b0;
                         difference := round2 (v0 - ideal b0);
                         difference_pct := round2 ((v0 - ideal b0) / ideal b0 * 100);
                         status := st; status_cn := st_cn |}))
          with (_generate_comparison m rest
                  (assoc_set comparison n0 (comparison_of v0 (ideal b0))))
          by (unfold comparison_of; cbv zeta;
              destruct (Qleb _ 10); [reflexivity |];
              destruct (Qgtb _ 0); reflexivity)
    end.
    destruct (IH' (assoc_set comparison n0 (comparison_of v0 (ideal b0))))
      as (c & Hc & Hkeep & Hnone & Hent).
    exists c. split; [exact Hc |]. split; [| split].
    + intros n Hn. rewrite Hkeep by (intros Hin; apply Hn; right; exact Hin).
      rewrite assoc_get_set. destruct (decide (n0 = n)) as [-> | _]; [| reflexivity].
      exfalso. apply Hn. left. reflexivity.
    + intros n Hn. rewrite (Hnone n Hn), assoc_get_set.
      destruct (decide (n0 = n)) as [-> | _]; [congruence | reflexivity].
    + intros Hnd n b v Hin Hv Hi. apply NoDup_cons in Hnd as [Hfresh Hnd].
      destruct Hin as [[= <- <-] | Hin]; [| exact (Hent Hnd n b v Hin Hv Hi)].
      assert (v = v0) by congruence. subst v.
      rewrite Hkeep by (intros Hin; apply Hfresh, list_elem_of_In; exact Hin).
      rewrite assoc_get_set, decide_True by reflexivity. reflexivity.
Qed.

Lemma table_ideal_nonzero (i : industry) (n : pystr) (b : benchmark) :
  In (n, b) (metrics (get_industry_info i)) -> ~ ideal b == 0.
Proof.
  intros Hin.
  assert (forallb (fun p => negb (Qeq_bool (ideal (snd p)) 0))
                  (metrics (get_industry_info i)) = true) as H
    by (destruct i; vm_compute; reflexivity).
  rewrite forallb_forall in H. specialize (H _ Hin). cbn [snd] in H.
  apply negb_true_iff, Qeq_bool_false in H. exact H.
Qed.


End AggregateResult.

Section AggregateResultTheorems.
Import IndustryBenchmarks.
Local Open Scope Q_scope.

(** Python's [str.lower], the parameter of the classifier. *)
Variable lower : pystr -> pystr.




End AggregateResultTheorems.

(** ** Stripping and padding of stock codes *)

Section Strings.

Lemma lstrip_id (s : pystr) : no_leading_space s -> lstrip s = s.
Proof. destruct s as [| c s]; cbn; [reflexivity |]. now intros ->. Qed.

Lemma lstrip_no_leading_space (s : pystr) : no_leading_space (lstrip s).
Proof.
  induction s as [| c s IH]; cbn; [exact I |].
  destruct (py_isspace c) eqn:E; [exact IH | exact E].
Qed.

Lemma lstrip_suffix (s : pystr) : exists pre, s = pre ++ lstrip s.
Proof.
  induction s as [| c s [pre IH]]; [now exists [] |].
  cbn. destruct (py_isspace c).
  - exists (c :: pre). cbn. now rewrite <- IH.
  - now exists [].
Qed.

Lemma strip_trimmed (s : pystr) : trimmed (strip s).
Proof.
  unfold strip, trimmed. rewrite rev_involutive.
  split; [| apply lstrip_no_leading_space].
  destruct (lstrip_suffix (rev (lstrip s))) as [pre Hpre].
  pose proof (lstrip_no_leading_space s) as Hhead.
  apply (f_equal (@rev N)) in Hpre. rewrite rev_involutive, rev_app_distr in Hpre.
  destruct (rev (lstrip (rev (lstrip s)))) as [| c t]; [exact I |].
  rewrite Hpre in Hhead. exact Hhead.
Qed.

Lemma strip_id (s : pystr) : trimmed s -> strip s = s.
Proof.
  intros [H1 H2]. unfold strip. rewrite (lstrip_id s H1), (lstrip_id _ H2).
  apply rev_involutive.
Qed.

(** Stripping twice is stripping once. *)
Lemma strip_idempotent (s : pystr) : strip (strip s) = strip s.
Proof. apply strip_id, strip_trimmed. Qed.

Lemma no_leading_space_insert (a f b : pystr) :
  no_leading_space (a ++ b) -> Forall (fun c => py_isspace c = false) f ->
  no_leading_space (a ++ f ++ b).
Proof.
  intros H Hf. destruct a as [| c a]; [| exact H].
  cbn in *. destruct Hf as [| c f Hc _]; [exact H | exact Hc].
Qed.

(** Putting characters that are not white space into a trimmed string
    leaves it trimmed. *)
Lemma trimmed_insert (a f b : pystr) :
  trimmed (a ++ b) -> Forall (fun c => py_isspace c = false) f ->
  trimmed (a ++ f ++ b).
Proof.
  intros [H1 H2] Hf. split; [now apply no_leading_space_insert |].
  rewrite !rev_app_distr, <- app_assoc. rewrite rev_app_distr in H2.
  apply no_leading_space_insert; [exact H2 |].
  apply Forall_forall. intros c Hc. apply list_elem_of_In, in_rev, list_elem_of_In in Hc.
  rewrite Forall_forall in Hf. now apply Hf.
Qed.

Lemma zfill_split (width : nat) (s : pystr) :
  exists a b, s = a ++ b /\ zfill width s = a ++ repeat 48%N (width - length s) ++ b.
Proof.
  unfold zfill. destruct s as [| c s'].
  - exists [], []. split; [reflexivity |]. now rewrite app_nil_r.
  - destruct ((c =? 43) || (c =? 45))%N.
    + exists [c], s'. split; reflexivity.
    + exists [], (c :: s'). split; reflexivity.
Qed.

Lemma zfill_trimmed (width : nat) (s : pystr) : trimmed s -> trimmed (zfill width s).
Proof.
  intros H. destruct (zfill_split width s) as (a & b & Hs & ->).
  apply trimmed_insert; [now rewrite <- Hs |].
  apply Forall_forall. intros c Hc. apply list_elem_of_In, repeat_spec in Hc.
  now subst c.
Qed.

Lemma zfill_length (width : nat) (s : pystr) : (width <= length (zfill width s))%nat.
Proof.
  destruct (zfill_split width s) as (a & b & Hs & ->).
  rewrite Hs, !length_app, repeat_length. lia.
Qed.

Lemma zfill_long (width : nat) (s : pystr) : (width <= length s)%nat -> zfill width s = s.
Proof.
  intros H. unfold zfill. replace (width - length s)%nat with 0%nat by lia.
  cbn. destruct s as [| c s']; [reflexivity |]. now destruct ((c =? 43) || (c =? 45))%N.
Qed.

(** The normal form of a stock code is its own normal form. *)
Lemma normal_code_idempotent (stock_code : pystr) :
  zfill 6 (strip (zfill 6 (strip stock_code))) = zfill 6 (strip stock_code).
Proof.
  rewrite (strip_id (zfill 6 (strip stock_code)))
    by apply zfill_trimmed, strip_trimmed.
  apply zfill_long, zfill_length.
Qed.

End Strings.

(** ** The classifier: what decides *)

Section ClassifierMore.
Import IndustryBenchmarks.

(** X11: The classifier looks at a stock code through its normal form only:
    white space around the code and missing leading zeros do not change
    the industry. *)
Theorem classify_by_stock_code_normal_form (stock_code : pystr) :
  classify_by_stock_code (strip stock_code) = classify_by_stock_code stock_code
  /\ classify_by_stock_code (zfill 6 (strip stock_code))
     = classify_by_stock_code stock_code.
Proof.
  unfold classify_by_stock_code.
  now rewrite strip_idempotent, normal_code_idempotent.
Qed.

(** X12: The order of the classifier: a sector tag that maps to an industry
    other than manufacturing decides alone; a tag that maps to
    manufacturing, or to nothing, is ignored; without a deciding tag, an
    industry found from the stock code decides whatever the name is. *)
Theorem classify_priority (lower : pystr -> pystr) (stock_code : pystr)
    (company_name : option pystr) :
  (forall sw, sw <> [] -> get_industry_by_sw sw <> manufacturing ->
              classify lower stock_code company_name (Some sw)
              = Ok (get_industry_by_sw sw))
  /\ (forall sw, get_industry_by_sw sw = manufacturing ->
                 classify lower stock_code company_name (Some sw)
                 = classify lower stock_code company_name None)
  /\ (forall i, classify_by_stock_code stock_code = Some i ->
                classify lower stock_code company_name None = Ok i).
Proof.
  split; [| split].
  - intros sw Hsw Hne. unfold classify, classify_by_sw_industry.
    destruct sw as [| c sw]; [congruence |]. cbn [str_truthy].
    now rewrite bool_decide_eq_true_2.
  - intros sw Hsw. unfold classify, classify_by_sw_industry. rewrite Hsw.
    destruct (str_truthy (Some sw)); reflexivity.
  - intros i Hi. unfold classify. now rewrite Hi.
Qed.

Lemma scan_examples_sound (code : pystr) (benchmarks : list (industry * industry_info))
    (i : industry) :
  scan_examples code benchmarks = Some i ->
  exists info examples,
    In (i, info) benchmarks /\ stock_examples info = Some examples
    /\ str_in code examples = true.
Proof.
  induction benchmarks as [| [i0 info0] rest IH]; [discriminate |].
  cbn [scan_examples]. destruct (stock_examples info0) as [ex |] eqn:Eex.
  - destruct (str_in code ex) eqn:Ein.
    + intros [= <-]. exists info0, ex. split; [left; reflexivity | tauto].
    + intros H. destruct (IH H) as (info & ex' & Hin & He & Hs).
      exists info, ex'. split; [right; exact Hin | tauto].
  - intros H. destruct (IH H) as (info & ex' & Hin & He & Hs).
    exists info, ex'. split; [right; exact Hin | tauto].
Qed.

Lemma scan_patterns_sound (code : pystr) (benchmarks : list (industry * industry_info))
    (i : industry) :
  scan_patterns code benchmarks = Some i ->
  exists info patterns,
    In (i, info) benchmarks /\ stock_patterns info = Some patterns
    /\ existsb (startswith code) patterns = true.
Proof.
  induction benchmarks as [| [i0 info0] rest IH]; [discriminate |].
  cbn [scan_patterns]. destruct (stock_patterns info0) as [ps |] eqn:Eps.
  - destruct (existsb (startswith code) ps) eqn:Ein.
    + intros [= <-]. exists info0, ps. split; [left; reflexivity | tauto].
    + intros H. destruct (IH H) as (info & ps' & Hin & He & Hs).
      exists info, ps'. split; [right; exact Hin | tauto].
  - intros H. destruct (IH H) as (info & ps' & Hin & He & Hs).
    exists info, ps'. split; [right; exact Hin | tauto].
Qed.

Lemma table_entry (i : industry) (info : industry_info) :
  In (i, info) INDUSTRY_BENCHMARKS -> info = get_industry_info i.
Proof.
  unfold INDUSTRY_BENCHMARKS. cbn [In]. intros H.
  repeat destruct H as [H | H]; try contradiction; injection H as <- <-; reflexivity.
Qed.

(** X13: The code step only ever answers technology, manufacturing, finance, or
    an industry whose example list holds the normal form of the code. *)
Theorem classify_by_stock_code_answers (stock_code : pystr) (i : industry) :
  classify_by_stock_code stock_code = Some i ->
  i = technology \/ i = manufacturing \/ i = finance
  \/ exists examples,
       stock_examples (get_industry_info i) = Some examples
       /\ str_in (zfill 6 (strip stock_code)) examples = true.
Proof.
  unfold classify_by_stock_code. cbv zeta.
  destruct (startswith _ (u "688")); [intros [= <-]; tauto |].
  destruct (startswith _ (u "300")); [intros [= <-]; tauto |].
  destruct (startswith _ (u "8") || startswith _ (u "4")); [intros [= <-]; tauto |].
  destruct (scan_examples _ INDUSTRY_BENCHMARKS) as [j |] eqn:Eex.
  - intros [= <-]. destruct (scan_examples_sound _ _ _ Eex) as (info & ex & Hin & He & Hs).
    right. right. right. exists ex. rewrite <- (table_entry _ _ Hin). tauto.
  - intros H. destruct (scan_patterns_sound _ _ _ H) as (info & ps & Hin & Hp & _).
    pose proof (table_entry _ _ Hin) as ->.
    destruct i; first [tauto | vm_compute in Hp; discriminate Hp].
Qed.

(** X14: A code whose normal form begins with 60 or with 002 and is in no
    example list is classified as finance: the prefixes of the finance
    industry cover the Shanghai main board. *)
Theorem unlisted_main_board_code_is_finance (stock_code : pystr) :
  let code := zfill 6 (strip stock_code) in
  startswith code (u "60") = true \/ startswith code (u "002") = true ->
  scan_examples code INDUSTRY_BENCHMARKS = None ->
  classify_by_stock_code stock_code = Some finance.
Proof.
  intros code Hpre Hex. unfold classify_by_stock_code. fold code. rewrite Hex.
  assert (exists c1 c2 rest,
            code = c1 :: c2 :: rest
            /\ ((c1 = 54%N /\ c2 = 48%N)
                \/ (c1 = 48%N /\ c2 = 48%N /\ startswith rest (u "2") = true)))
    as (c1 & c2 & rest & -> & Hc).
  { change (u "60") with [54%N; 48%N] in Hpre.
    change (u "002") with [48%N; 48%N; 50%N] in Hpre.
    destruct code as [| c1 [| c2 rest]];
      try (destruct Hpre as [H | H]; cbn [startswith] in H;
           rewrite ?andb_false_r in H; discriminate H).
    exists c1, c2, rest. split; [reflexivity |].
    destruct Hpre as [H | H]; cbn [startswith] in H.
    - apply andb_true_iff in H as [H1 H2]. apply andb_true_iff in H2 as [H2 _].
      apply N.eqb_eq in H1, H2. left. split; congruence.
    - apply andb_true_iff in H as [H1 H2]. apply andb_true_iff in H2 as [H2 H3].
      apply N.eqb_eq in H1, H2. right. repeat split; try congruence.
      exact H3. }
  assert (existsb (startswith (c1 :: c2 :: rest)) [u "601"; u "60"; u "002"] = true)
    as Hfin.
  { cbn [existsb]. destruct Hc as [[-> ->] | (-> & -> & H3)].
    - assert (startswith (54%N :: 48%N :: rest) (u "60") = true) as ->
        by (change (u "60") with [54%N; 48%N]; cbn [startswith];
            now destruct rest).
      now rewrite orb_true_r.
    - replace (startswith (48%N :: 48%N :: rest) (u "002"))
        with (startswith rest (u "2")) by reflexivity.
      rewrite H3. now rewrite !orb_true_r. }
  assert (startswith (c1 :: c2 :: rest) (u "688") = false
          /\ startswith (c1 :: c2 :: rest) (u "300") = false
          /\ startswith (c1 :: c2 :: rest) (u "8") = false
          /\ startswith (c1 :: c2 :: rest) (u "4") = false) as (H1 & H2 & H3 & H4)
    by (destruct Hc as [[-> ->] | (-> & -> & _)]; repeat split; reflexivity).
  rewrite H1, H2, H3, H4. cbn [orb].
  unfold INDUSTRY_BENCHMARKS.
  cbn [scan_patterns stock_patterns technology_info manufacturing_info
       construction_info retail_info finance_info].
  replace (existsb (startswith (c1 :: c2 :: rest)) [u "688"]) with false
    by (cbn [existsb]; now rewrite H1).
  now rewrite Hfin.
Qed.

End ClassifierMore.

Lemma classify_priority_witness :
  classify ascii_lower (u "688981") (Some (u "中芯国际")) (Some (u "银行"))
  = Ok IndustryBenchmarks.finance
  /\ classify ascii_lower (u "688981") (Some (u "中芯国际")) (Some (u "汽车"))
     = classify ascii_lower (u "688981") (Some (u "中芯国际")) None
  /\ classify ascii_lower (u "688981") (Some (u "中芯国际")) None
     = Ok IndustryBenchmarks.technology.
Proof.
  destruct (classify_priority ascii_lower (u "688981") (Some (u "中芯国际")))
    as (H1 & H2 & H3).
  split; [| split].
  - apply (H1 (u "银行")); [discriminate | vm_compute; discriminate].
  - apply (H2 (u "汽车")). vm_compute. reflexivity.
  - apply H3. vm_compute. reflexivity.
Defined.

Lemma classify_by_stock_code_answers_witness :
  IndustryBenchmarks.consumer = IndustryBenchmarks.technology
  \/ IndustryBenchmarks.consumer = IndustryBenchmarks.manufacturing
  \/ IndustryBenchmarks.consumer = IndustryBenchmarks.finance
  \/ exists examples,
       IndustryBenchmarks.stock_examples
         (IndustryBenchmarks.get_industry_info IndustryBenchmarks.consumer)
       = Some examples
       /\ str_in (zfill 6 (strip (u " 600519 "))) examples = true.
Proof.
  apply (classify_by_stock_code_answers (u " 600519 ")). vm_compute. reflexivity.
Defined.

Lemma unlisted_main_board_code_is_finance_witness :
  classify_by_stock_code (u "600000") = Some IndustryBenchmarks.finance.
Proof.
  apply unlisted_main_board_code_is_finance;
    [left; vm_compute; reflexivity | vm_compute; reflexivity].
Defined.

(** ** The list of candidate industries *)

Section MatchesProps.
Import IndustryBenchmarks IndustryClassifier.

Variable lower : pystr -> pystr.

Lemma max_by_score_In (best : industry * Q) (items : list (industry * Q)) :
  In (max_by_score best items) (best :: items).
Proof.
  revert best. induction items as [| x rest IH]; intros best; cbn [max_by_score].
  - now left.
  - destruct (IH (if Qgtb (snd x) (snd best) then x else best)) as [H | H].
    + rewrite <- H. destruct (Qgtb (snd x) (snd best)); cbn; tauto.
    + right. now right.
Qed.

Lemma insert_by_score_perm (x : industry * Q) (items : list (industry * Q)) :
  Permutation (insert_by_score x items) (x :: items).
Proof.
  induction items as [| y rest IH]; cbn [insert_by_score]; [reflexivity |].
  destruct (Qleb (snd y) (snd x)); [reflexivity |].
  rewrite IH. apply perm_swap.
Qed.

Lemma sorted_by_score_perm (items : list (industry * Q)) :
  Permutation (sorted_by_score items) items.
Proof.
  induction items as [| x rest IH]; [reflexivity |].
  cbn. rewrite insert_by_score_perm. now constructor.
Qed.

Lemma insert_by_score_sorted (x : industry * Q) (items : list (industry * Q)) :
  Sorted (fun a b => (snd b <= snd a)%Q) items ->
  Sorted (fun a b => (snd b <= snd a)%Q) (insert_by_score x items).
Proof.
  induction items as [| y rest IH]; intros Hs; cbn [insert_by_score].
  - repeat constructor.
  - destruct (Qleb (snd y) (snd x)) eqn:E.
    + constructor; [exact Hs |]. constructor. now apply Qle_bool_iff.
    + assert (snd x <= snd y)%Q as Hxy.
      { apply Qlt_le_weak, Qnot_le_lt. intros H. apply Qle_bool_iff in H.
        unfold Qleb in E. congruence. }
      inversion Hs as [| ? ? Hrest Hhd]; subst.
      constructor; [now apply IH |].
      destruct rest as [| z rest]; cbn [insert_by_score].
      * now constructor.
      * destruct (Qleb (snd z) (snd x)); constructor; [exact Hxy |].
        now inversion Hhd.
Qed.

Lemma sorted_by_score_sorted (items : list (industry * Q)) :
  Sorted (fun a b => (snd b <= snd a)%Q) (sorted_by_score items).
Proof.
  induction items as [| x rest IH]; [constructor |].
  now apply insert_by_score_sorted.
Qed.

(** X15: The industry that [classify] returns is one of the industries that
    [get_industry_matches] lists for the same arguments; when the list is
    empty, [classify] returns the default, manufacturing.  Neither of the
    two raises. *)
Theorem classify_among_matches (stock_code : pystr)
    (company_name sw_industry : option pystr) :
  exists industry_id matches,
    classify lower stock_code company_name sw_industry = Ok industry_id
    /\ get_industry_matches lower stock_code company_name sw_industry = Ok matches
    /\ (In industry_id (map (fun m => fst (fst m)) matches)
        \/ (matches = [] /\ industry_id = manufacturing)).
Proof.
  unfold classify, get_industry_matches.
  set (l1 := match sw_industry with
             | Some sw => if str_truthy sw_industry then [] ++ [(_, _, _)] else []
             | None => []
             end).
  set (by_sw := match sw_industry with Some _ => _ | None => _ end).
  assert (match by_sw with
          | Some i => In i (map (fun m => fst (fst m)) l1)
          | None => l1 = [] \/ In manufacturing (map (fun m => fst (fst m)) l1)
          end) as Hsw.
  { subst by_sw l1. destruct sw_industry as [sw |]; [| now left].
    destruct (str_truthy (Some sw)); [| now left].
    unfold classify_by_sw_industry.
    destruct (bool_decide (get_industry_by_sw sw ≠ manufacturing)) eqn:E; cbn.
    - now left.
    - apply bool_decide_eq_false in E. right. left.
      destruct (decide (get_industry_by_sw sw = manufacturing)); tauto. }
  clearbody by_sw l1.
  set (l2 := match classify_by_stock_code stock_code with
             | Some _ => l1 ++ _ | None => l1 end).
  assert (forall i, In i (map (fun m => fst (fst m)) l1) ->
                    In i (map (fun m => fst (fst m)) l2)) as H12.
  { intros i Hi. subst l2. destruct (classify_by_stock_code stock_code); [| exact Hi].
    rewrite map_app. apply in_or_app. now left. }
  assert (match classify_by_stock_code stock_code with
          | Some i => In i (map (fun m => fst (fst m)) l2)
          | None => l2 = l1
          end) as Hcode.
  { subst l2. destruct (classify_by_stock_code stock_code); [| reflexivity].
    rewrite map_app. apply in_or_app. right. now left. }
  clearbody l2.
  destruct by_sw as [i |].
  - (* the sector tag decides *)
    destruct company_name as [cname |].
    + destruct (str_truthy (Some cname)).
      * unfold classify_by_name.
        destruct (classify_by_name_loop_Ok lower (lower cname) INDUSTRY_BENCHMARKS [])
          as [l ->].
        rewrite bind_Ok. eexists _, _. split; [reflexivity |]. split; [reflexivity |].
        left. rewrite map_app. apply in_or_app. left. auto.
      * eexists _, _. split; [reflexivity |]. split; [reflexivity |]. left. auto.
    + eexists _, _. split; [reflexivity |]. split; [reflexivity |]. left. auto.
  - destruct (classify_by_stock_code stock_code) as [i |].
    + (* the stock code decides *)
      destruct company_name as [cname |].
      * destruct (str_truthy (Some cname)).
        -- unfold classify_by_name.
           destruct (classify_by_name_loop_Ok lower (lower cname) INDUSTRY_BENCHMARKS [])
             as [l ->].
           rewrite bind_Ok. eexists _, _. split; [reflexivity |]. split; [reflexivity |].
           left. rewrite map_app. apply in_or_app. left. auto.
        -- eexists _, _. split; [reflexivity |]. split; [reflexivity |]. left. auto.
      * eexists _, _. split; [reflexivity |]. split; [reflexivity |]. left. auto.
    + subst l2.
      assert (l1 = [] /\ manufacturing = manufacturing
              \/ In manufacturing (map (fun m => fst (fst m)) l1)) as Hdef by tauto.
      destruct company_name as [cname |].
      * destruct (str_truthy (Some cname)).
        -- unfold classify_by_name.
           destruct (classify_by_name_loop_Ok lower (lower cname) INDUSTRY_BENCHMARKS [])
             as [l ->].
           rewrite !bind_Ok. destruct l as [| x rest].
           ++ eexists _, _. split; [reflexivity |]. split; [reflexivity |].
              cbn [sorted_by_score fold_right map]. rewrite app_nil_r. tauto.
           ++ cbn [py_max]. rewrite bind_Ok.
              eexists _, _. split; [reflexivity |]. split; [reflexivity |].
              left. rewrite map_app. apply in_or_app. right.
              rewrite map_map.
              pose proof (max_by_score_In x rest) as Hin.
              apply (Permutation_in _ (Permutation_sym (sorted_by_score_perm (x :: rest))))
                in Hin.
              apply in_map_iff. exists (max_by_score x rest). split; [| exact Hin].
              now destruct (max_by_score x rest).
        -- eexists _, _. split; [reflexivity |]. split; [reflexivity |]. tauto.
      * eexists _, _. split; [reflexivity |]. split; [reflexivity |]. tauto.
Qed.

(** X16: The matches by company name come after the at most two matches by
    sector tag and by stock code, in order of decreasing confidence. *)
Theorem name_matches_ranked (stock_code name : pystr) (sw_industry : option pystr) :
  exists fixed ranked,
    get_industry_matches lower stock_code None sw_industry = Ok fixed
    /\ get_industry_matches lower stock_code (Some name) sw_industry
       = Ok (fixed ++ ranked)
    /\ (length fixed <= 2)%nat
    /\ Sorted (fun a b => (snd (fst b) <= snd (fst a))%Q) ranked.
Proof.
  unfold get_industry_matches.
  set (l2 := match classify_by_stock_code stock_code with
             | Some _ => _ | None => _ end).
  assert (length l2 <= 2)%nat as Hlen.
  { subst l2. destruct sw_industry as [sw |], (classify_by_stock_code stock_code);
      try destruct (str_truthy (Some sw)); cbn; lia. }
  clearbody l2.
  destruct (str_truthy (Some name)).
  - unfold classify_by_name.
    destruct (classify_by_name_loop_Ok lower (lower name) INDUSTRY_BENCHMARKS [])
      as [l ->].
    rewrite bind_Ok. eexists _, _. split; [reflexivity |]. split; [reflexivity |].
    split; [exact Hlen |].
    pose proof (sorted_by_score_sorted l) as Hs.
    induction Hs as [| [i q] rest Hrest IH Hhd]; cbn [map]; [constructor |].
    constructor; [exact IH |].
    destruct Hhd as [| [j r] rest' Hle]; cbn [map]; constructor.
    cbn [fst snd] in *. lra.
  - exists l2, []. rewrite app_nil_r. repeat split; [exact Hlen | constructor].
Qed.

End MatchesProps.

(** ** The exchange prefix of a stock code *)

Section ConvertStockCode.
Import FetchData.

Lemma trimmed_prefixed (c1 c2 : N) (s : pystr) :
  py_isspace c1 = false -> py_isspace c2 = false -> trimmed s ->
  trimmed (c1 :: c2 :: s).
Proof.
  intros H1 H2 Hs.
  change (c1 :: c2 :: s) with ([c1; c2] ++ s).
  rewrite <- (app_nil_l ([c1; c2] ++ s)).
  apply trimmed_insert; [exact Hs | repeat constructor; assumption].
Qed.

(** X17: Converting a converted code changes nothing: the exchange prefix is
    added once. *)
Theorem convert_stock_code_idempotent (stock_code : pystr) :
  convert_stock_code (convert_stock_code stock_code) = convert_stock_code stock_code.
Proof.
  unfold convert_stock_code at 2 3. cbv zeta.
  pose proof (strip_trimmed stock_code) as Ht.
  set (code := strip stock_code) in *.
  assert (forall c1 c2,
            py_isspace c1 = false -> py_isspace c2 = false ->
            (54 =? c1)%N = false -> (48 =? c1)%N = false ->
            (51 =? c1)%N = false -> (56 =? c1)%N = false ->
            (52 =? c1)%N = false ->
            convert_stock_code (c1 :: c2 :: code) = c1 :: c2 :: code) as Hfix.
  { intros c1 c2 H1 H2 N6 N0 N3 N8 N4. unfold convert_stock_code. cbv zeta.
    rewrite (strip_id _ (trimmed_prefixed c1 c2 code H1 H2 Ht)).
    change (u "6") with [54%N]. change (u "0") with [48%N].
    change (u "3") with [51%N]. change (u "8") with [56%N].
    change (u "4") with [52%N]. change (u "68") with [54%N; 56%N].
    cbn [startswith]. now rewrite N6, N0, N3, N8, N4. }
  destruct (startswith code (u "6")) eqn:E6;
    [apply (Hfix 83%N 72%N); reflexivity |].
  destruct (startswith code (u "0") || startswith code (u "3")) eqn:E03;
    [apply (Hfix 83%N 90%N); reflexivity |].
  destruct (startswith code (u "68")) eqn:E68;
    [apply (Hfix 83%N 72%N); reflexivity |].
  destruct (startswith code (u "8") || startswith code (u "4")) eqn:E84;
    [apply (Hfix 66%N 74%N); reflexivity |].
  unfold convert_stock_code. cbv zeta. rewrite (strip_id _ Ht).
  now rewrite E6, E03, E68, E84.
Qed.

End ConvertStockCode.

(** ** From the statement rows to the health score *)

Section StatementMetrics.
Import FetchData.
Open Scope Q_scope.

(** Keys are compared once and then treated as atoms. *)
Ltac atom k name := set (name := k) in *.

Ltac distinct_from k :=
  repeat match goal with
    | k' := u _ : pystr |- _ =>
        lazymatch k' with
        | k => fail
        | _ =>
            lazymatch goal with
            | _ : k <> k' |- _ => fail
            | _ => assert (k <> k') by (unfold k, k'; key_neq);
                   assert (k' <> k) by (unfold k, k'; key_neq)
            end
        end
    end.

Ltac lookups :=
  repeat first [ rewrite lookup_insert_eq
               | rewrite lookup_insert_ne by assumption
               | rewrite lookup_empty ].

Lemma not_in_keys (k : pystr) (keys : list pystr) :
  ~ In k keys -> Forall (fun key => key <> k) keys.
Proof.
  intros H. apply Forall_forall. intros key Hin%list_elem_of_In ->. contradiction.
Qed.

Ltac other_key Hk :=
  apply not_in_keys in Hk;
  repeat match type of Hk with
    | Forall _ (_ :: _) =>
        let H := fresh "Hne" in
        apply Forall_cons in Hk as [H Hk]
    end;
  clear Hk.

Lemma scaled_ratio (a b : Q) :
  ~ b == 0 -> a / 100000000 / (b / 100000000) * 100 == a / b * 100.
Proof. intros H. field. exact H. Qed.

Lemma scaled_positive (b : Q) : Qgtb (b / 100000000) 0 = Qgtb b 0.
Proof.
  unfold Qgtb. destruct (Qltb 0 b) eqn:E.
  - apply Qltb_lt. apply Qltb_lt in E. unfold Qdiv.
    change (/ 100000000) with (1 # 100000000). nra.
  - apply Qltb_ge. apply Qltb_ge in E. unfold Qdiv.
    change (/ 100000000) with (1 # 100000000). nra.
Qed.

Lemma column_stage (column : option Q) (key : pystr) (m : gmap pystr pyval) :
  match column with
  | Some x => v ← pydiv x 100000000; Ok (<[key := PyNum v]> m)
  | None => Ok m
  end
  = Ok (match column with
        | Some x => <[key := PyNum (x / 100000000)]> m
        | None => m
        end).
Proof. destruct column as [x |]; [| reflexivity]. now rewrite pydiv_Ok by discriminate. Qed.

Lemma ratio_stage (k1 k2 key : pystr) (m : gmap pystr pyval) :
  match m !! k1, m !! k2 with
  | Some a, Some b =>
      if Qgtb (safe_float a) 0 then
        r ← pydiv (safe_float b) (safe_float a);
        Ok (<[key := PyNum (round2 (r * 100))]> m)
      else Ok m
  | _, _ => Ok m
  end
  = Ok (match m !! k1, m !! k2 with
        | Some a, Some b =>
            if Qgtb (safe_float a) 0
            then <[key := PyNum (round2 (safe_float b / safe_float a * 100))]> m
            else m
        | _, _ => m
        end).
Proof.
  destruct (m !! k1) as [a |], (m !! k2) as [b |]; try reflexivity.
  destruct (Qgtb (safe_float a) 0) eqn:E; [| reflexivity].
  now rewrite pydiv_Ok by (now apply Qgtb_0_nonzero).
Qed.

Lemma extract_key_metrics_spec (income balance : gmap pystr pyval) :
  exists b,
    extract_key_metrics income balance = Ok b
    /\ (forall k, ~ In k basic_metric_keys -> b !! k = None)
    /\ b !! u "net_profit_margin"
       = match first_column income revenue_columns,
               first_column income net_profit_columns with
         | Some revenue, Some net_profit =>
             if Qgtb revenue 0
             then Some (PyNum (round2 (net_profit / revenue * 100)))
             else None
         | _, _ => None
         end
    /\ b !! u "debt_ratio"
       = match first_column balance total_assets_columns,
               first_column balance total_liabilities_columns with
         | Some assets, Some liabilities =>
             if Qgtb assets 0
             then Some (PyNum (round2 (liabilities / assets * 100)))
             else None
         | _, _ => None
         end.
Proof.
  unfold extract_key_metrics, total_assets_columns, total_liabilities_columns,
    revenue_columns, net_profit_columns, basic_metric_keys.
  cbv zeta.
  set (cr := first_column income (u "TOTAL_OPERATE_INCOME" :: _)).
  set (cn := first_column income _).
  set (ca := first_column balance (u "TOTAL_ASSETS" :: _)).
  set (cl := first_column balance _).
  clearbody cr cn ca cl.
  atom (u "revenue_billion") kr. atom (u "net_profit_billion") kn.
  atom (u "net_profit_margin") km. atom (u "total_assets_billion") ka.
  atom (u "total_liabilities_billion") kl. atom (u "debt_ratio") kd.
  distinct_from kr. distinct_from kn. distinct_from km. distinct_from ka.
  distinct_from kl.
  clearbody kr kn km ka kl kd.
  repeat first [rewrite column_stage | rewrite ratio_stage | rewrite bind_Ok].
  eexists. split; [reflexivity |].
  set (m2 := match _ !! kr with Some _ => _ | None => _ end).
  assert ((forall k, ~ In k [kr; kn; km; ka; kl; kd] -> m2 !! k = None)
          /\ m2 !! ka = None /\ m2 !! kl = None /\ m2 !! kd = None
          /\ m2 !! km
             = match cr, cn with
               | Some revenue, Some net_profit =>
                   if Qgtb revenue 0
                   then Some (PyNum (round2 (net_profit / revenue * 100)))
                   else None
               | _, _ => None
               end)
    as (F2 & A2 & L2 & D2 & M2).
  { subst m2.
    destruct cr as [revenue |], cn as [net_profit |];
      lookups; cbn [safe_float]; rewrite ?scaled_positive;
      try destruct (Qgtb revenue 0) eqn:Er;
      (split; [intros k Hk; other_key Hk; lookups; reflexivity |]);
      lookups;
      try (rewrite (round2_proper _ _ (scaled_ratio net_profit revenue
                                         (Qgtb_0_nonzero _ Er))));
      auto. }
  clearbody m2. rewrite <- M2.
  destruct ca as [assets |], cl as [liabilities |];
    lookups; rewrite ?A2, ?L2; cbn [safe_float]; rewrite ?scaled_positive;
    try destruct (Qgtb assets 0) eqn:Ea;
    (split;
     [ intros k Hk; pose proof (F2 k Hk); other_key Hk; lookups; assumption
     | lookups;
       try (rewrite (round2_proper _ _ (scaled_ratio liabilities assets
                                          (Qgtb_0_nonzero _ Ea))));
       auto ]).
Qed.

(** *** The derived metrics *)

Lemma if_truthy_pct (c a b : Q) :
  ~ b == 0 ->
  if_truthy c (rounded (r ← pydiv a b; Ok (r * 100)))
  = Ok (if Qeq_bool c 0 then PyNone else PyNum (round2 (a / b * 100))).
Proof.
  intros H. unfold if_truthy. destruct (Qeq_bool c 0); [reflexivity |].
  now apply rounded_pct_Ok.
Qed.

Lemma if_truthy_div (c a b : Q) :
  ~ b == 0 ->
  if_truthy c (rounded (pydiv a b))
  = Ok (if Qeq_bool c 0 then PyNone else PyNum (round2 (a / b))).
Proof.
  intros H. unfold if_truthy. destruct (Qeq_bool c 0); [reflexivity |].
  now apply rounded_div_Ok.
Qed.

Lemma guard_stage (c : bool) (e : res pyval) (v : pyval) (k : pystr)
    (m : gmap pystr pyval) :
  (c = true -> e = Ok v) ->
  (if c then x ← e; Ok (<[k := x]> m) else Ok m)
  = Ok (if c then <[k := v]> m else m).
Proof. intros H. destruct c; [| reflexivity]. now rewrite H. Qed.

Lemma guard_stage2 (c : bool) (e1 e2 : res pyval) (v1 v2 : pyval) (k1 k2 : pystr)
    (m : gmap pystr pyval) :
  (c = true -> e1 = Ok v1) -> (c = true -> e2 = Ok v2) ->
  (if c then x1 ← e1; x2 ← e2; Ok (<[k2 := x2]> (<[k1 := x1]> m)) else Ok m)
  = Ok (if c then <[k2 := v2]> (<[k1 := v1]> m) else m).
Proof. intros H1 H2. destruct c; [| reflexivity]. now rewrite H1, H2. Qed.

Lemma if_truthy_abs_pct (c a b : Q) :
  ~ b == 0 ->
  if_truthy c
    (x ← (r ← pydiv a b; Ok (Qabs (r * 100))); Ok (PyNum (round2 x)))
  = Ok (if Qeq_bool c 0 then PyNone else PyNum (round2 (Qabs (a / b * 100)))).
Proof.
  intros H. unfold if_truthy. destruct (Qeq_bool c 0); [reflexivity |].
  now rewrite pydiv_Ok.
Qed.

Lemma cash_quality_stage (a b c : bool) (o n : Q) (k : pystr) (m : gmap pystr pyval) :
  (b = true -> ~ n == 0) ->
  (if a && b then v ← rounded (pydiv o n); Ok (<[k := v]> m)
   else if c then Ok (<[k := PyNum (-1)]> m) else Ok m)
  = Ok (if a && b then <[k := PyNum (round2 (o / n))]> m
        else if c then <[k := PyNum (-1)]> m else m).
Proof.
  intros H. destruct a, b, c; cbn [andb]; try reflexivity;
    now rewrite rounded_div_Ok by auto.
Qed.

Lemma cashflow_metrics_spec (net_profit : Q) (cashflow m : gmap pystr pyval) :
  let operating_cf := safe_float (first_truthy cashflow [u "NETCASH_OPERATE"]) in
  exists m',
    cashflow_metrics net_profit cashflow m = Ok m'
    /\ (forall k, ~ In k cashflow_metric_keys -> m' !! k = m !! k)
    /\ m' !! u "ocf_to_np"
       = if Qeq_bool net_profit 0 then m !! u "ocf_to_np"
         else Some (if Qeq_bool operating_cf 0 then PyNone
                    else PyNum (round2 (operating_cf / net_profit * 100))).
Proof.
  intros operating_cf.
  unfold cashflow_metrics, cashflow_metric_keys. cbv zeta. fold operating_cf.
  set (investing_cf := safe_float (first_truthy cashflow [u "NETCASH_INVEST"])).
  set (financing_cf := safe_float (first_truthy cashflow [u "NETCASH_FINANCE"])).
  set (capex := safe_float (first_truthy cashflow [u "CONSTRUCT_LONG_ASSET"])).
  set (net_cash_increase := safe_float (first_truthy cashflow [u "CCE_ADD"])).
  set (ending_cash := safe_float (first_truthy cashflow [u "END_CCE"])).
  set (dividends_paid := safe_float (first_truthy cashflow [u "ASSIGN_DIVIDEND_PORFIT"])).
  clearbody operating_cf investing_cf financing_cf capex net_cash_increase
    ending_cash dividends_paid.
  atom (u "ocf_to_np") k0. atom (u "operating_cash_flow_billion") k1.
  atom (u "investing_cash_flow_billion") k2. atom (u "financing_cash_flow_billion") k3.
  atom (u "free_cash_flow_billion") k4. atom (u "capex_billion") k5.
  atom (u "net_cash_increase_billion") k6. atom (u "ending_cash_billion") k7.
  atom (u "dividends_paid_billion") k8. atom (u "cash_quality") k9.
  atom (u "capex_ratio") k10.
  distinct_from k0.
  clearbody k0 k1 k2 k3 k4 k5 k6 k7 k8 k9 k10.
  erewrite (guard_stage (negb (Qeq_bool net_profit 0)))
    by (intros Hnz; apply negb_true_iff, Qeq_bool_false in Hnz;
        apply if_truthy_pct; exact Hnz).
  rewrite bind_Ok.
  rewrite !(if_truthy_div _ _ 100000000) by discriminate.
  rewrite !(rounded_div_Ok _ 100000000) by discriminate.
  rewrite !bind_Ok.
  set (m8 := <[k8 := _]> _).
  assert ((forall k, ~ In k [k0; k1; k2; k3; k4; k5; k6; k7; k8; k9; k10] ->
                     m8 !! k = m !! k)
          /\ m8 !! k0
             = if Qeq_bool net_profit 0 then m !! k0
               else Some (if Qeq_bool operating_cf 0 then PyNone
                          else PyNum (round2 (operating_cf / net_profit * 100))))
    as [F8 O8].
  { subst m8. split.
    - intros k Hk. other_key Hk. lookups.
      destruct (negb (Qeq_bool net_profit 0)); lookups; reflexivity.
    - lookups. destruct (Qeq_bool net_profit 0); cbn [negb]; lookups; reflexivity. }
  clearbody m8.
  rewrite (cash_quality_stage _ _ _ _ _ k9 m8)
    by (intros Hnz; now apply Qgtb_0_nonzero).
  rewrite bind_Ok.
  erewrite (guard_stage (negb (Qeq_bool operating_cf 0)))
    by (intros Hnz; apply negb_true_iff, Qeq_bool_false in Hnz;
        apply if_truthy_abs_pct; exact Hnz).
  eexists. split; [reflexivity |]. split.
  - intros k Hk. rewrite <- (F8 k Hk). other_key Hk.
    destruct (negb (Qeq_bool operating_cf 0)),
             (Qgtb operating_cf 0 && Qgtb net_profit 0), (Qltb operating_cf 0);
      lookups; reflexivity.
  - rewrite <- O8.
    destruct (negb (Qeq_bool operating_cf 0)),
             (Qgtb operating_cf 0 && Qgtb net_profit 0), (Qltb operating_cf 0);
      lookups; reflexivity.
Qed.

Ltac stage :=
  first
    [ erewrite guard_stage2
        by (intros Hp%Qgtb_0_nonzero;
            first [apply if_truthy_pct | apply if_truthy_div]; exact Hp)
    | erewrite guard_stage
        by (intros Hp%Qgtb_0_nonzero;
            first [apply if_truthy_pct | apply if_truthy_div | apply rounded_div_Ok];
            exact Hp) ];
  rewrite bind_Ok.

Lemma calculate_advanced_metrics_spec (income balance : gmap pystr pyval)
    (cashflow : option (gmap pystr pyval)) :
  let revenue := revenue_of income in
  let net_profit := net_profit_of income in
  let total_assets := total_assets_of balance in
  let equity := equity_of balance in
  exists a,
    calculate_advanced_metrics income balance cashflow = Ok a
    /\ (forall k, ~ In k advanced_metric_keys -> a !! k = None)
    /\ a !! u "roe"
       = (if Qgtb equity 0
          then Some (if Qeq_bool net_profit 0 then PyNone
                     else PyNum (round2 (net_profit / equity * 100)))
          else None)
    /\ a !! u "asset_turnover"
       = (if Qgtb total_assets 0
          then Some (if Qeq_bool revenue 0 then PyNone
                     else PyNum (round2 (revenue / total_assets)))
          else None)
    /\ a !! u "ocf_to_np"
       = match cashflow with
         | Some cf =>
             let operating_cf := safe_float (first_truthy cf [u "NETCASH_OPERATE"]) in
             if bool_decide (cf = ∅) then None
             else if Qeq_bool net_profit 0 then None
             else Some (if Qeq_bool operating_cf 0 then PyNone
                        else PyNum (round2 (operating_cf / net_profit * 100)))
         | None => None
         end.
Proof.
  intros revenue net_profit total_assets equity.
  unfold calculate_advanced_metrics. cbv zeta.
  fold revenue net_profit total_assets equity.
  set (cost := cost_of income).
  set (operating_profit := operating_profit_of income).
  set (current_assets := current_assets_of balance).
  set (current_liabilities := current_liabilities_of balance).
  set (inventory := inventory_of balance).
  clearbody revenue net_profit total_assets equity cost operating_profit
    current_assets current_liabilities inventory.
  assert (forall cf m,
            exists m',
              cashflow_metrics net_profit cf m = Ok m'
              /\ (forall k, ~ In k advanced_metric_keys -> m' !! k = m !! k)
              /\ m' !! u "roe" = m !! u "roe"
              /\ m' !! u "asset_turnover" = m !! u "asset_turnover"
              /\ m' !! u "ocf_to_np"
                 = if Qeq_bool net_profit 0 then m !! u "ocf_to_np"
                   else Some (if Qeq_bool (safe_float (first_truthy cf [u "NETCASH_OPERATE"])) 0
                              then PyNone
                              else PyNum (round2 (safe_float (first_truthy cf [u "NETCASH_OPERATE"])
                                                  / net_profit * 100))))
    as Hcf.
  { intros cf m. destruct (cashflow_metrics_spec net_profit cf m) as (m' & E & F & O).
    exists m'. split; [exact E |]. split; [| split; [| split]].
    - intros k Hk. apply F. intros Hin. apply Hk. unfold advanced_metric_keys.
      apply in_or_app. now right.
    - apply F. intros Hin. cbn [In cashflow_metric_keys] in Hin.
      repeat destruct Hin as [Hin | Hin]; try (vm_compute in Hin; discriminate Hin).
      exact Hin.
    - apply F. intros Hin. cbn [In cashflow_metric_keys] in Hin.
      repeat destruct Hin as [Hin | Hin]; try (vm_compute in Hin; discriminate Hin).
      exact Hin.
    - exact O. }
  unfold advanced_metric_keys, cashflow_metric_keys in *. cbn [app] in *.
  atom (u "gross_margin") k1. atom (u "operating_margin") k2. atom (u "roe") k3.
  atom (u "roa") k4. atom (u "current_ratio") k5. atom (u "quick_ratio") k6.
  atom (u "equity_multiplier") k7. atom (u "asset_turnover") k8.
  atom (u "ocf_to_np") k0.
  distinct_from k3. distinct_from k8. distinct_from k0.
  clearbody k0 k1 k2 k3 k4 k5 k6 k7 k8.
  do 6 stage.
  match goal with |- context [Ok ?M] => set (m6 := M) end.
  assert ((forall k, ~ In k [k1; k2; k3; k4; k5; k6; k7; k8] -> m6 !! k = None)
          /\ m6 !! k3
             = (if Qgtb equity 0
                then Some (if Qeq_bool net_profit 0 then PyNone
                           else PyNum (round2 (net_profit / equity * 100)))
                else None)
          /\ m6 !! k8
             = (if Qgtb total_assets 0
                then Some (if Qeq_bool revenue 0 then PyNone
                           else PyNum (round2 (revenue / total_assets)))
                else None)
          /\ m6 !! k0 = None) as (F6 & R6 & T6 & O6).
  { subst m6.
    destruct (Qgtb revenue 0), (Qgtb equity 0), (Qgtb total_assets 0),
             (Qgtb current_liabilities 0);
      (split; [intros k Hk; other_key Hk; lookups; reflexivity |]);
      lookups; auto. }
  clearbody m6.
  assert (forall k,
            ~ In k [k1; k2; k3; k4; k5; k6; k7; k8; k0;
                    u "operating_cash_flow_billion"; u "investing_cash_flow_billion";
                    u "financing_cash_flow_billion"; u "free_cash_flow_billion";
                    u "capex_billion"; u "net_cash_increase_billion";
                    u "ending_cash_billion"; u "dividends_paid_billion";
                    u "cash_quality"; u "capex_ratio"] ->
            m6 !! k = None) as F6'.
  { intros k Hk. apply F6. intros Hin. apply Hk. cbn [In] in *. tauto. }
  rewrite <- R6, <- T6.
  destruct cashflow as [cf |].
  - cbv zeta. destruct (bool_decide (cf = ∅)).
    + exists m6. auto.
    + destruct (Hcf cf m6) as (m' & -> & F & R & T & O).
      exists m'. split; [reflexivity |]. split; [| split; [| split]].
      * intros k Hk. rewrite (F k Hk). now apply F6'.
      * exact R.
      * exact T.
      * rewrite O, O6. reflexivity.
  - exists m6. auto.
Qed.

Ltac key_not_in :=
  let Hin := fresh "Hin" in
  intros Hin;
  cbn [In app basic_metric_keys advanced_metric_keys cashflow_metric_keys] in Hin;
  repeat destruct Hin as [Hin | Hin];
  try (vm_compute in Hin; discriminate Hin); exact Hin.

(** The metrics that are scored: what each of the five driving values is
    in terms of the statement rows. *)
Lemma key_metrics_spec (income balance cashflow : gmap pystr pyval) :
  let revenue := revenue_of income in
  let net_profit := net_profit_of income in
  let total_assets := total_assets_of balance in
  let equity := equity_of balance in
  let operating_cf := safe_float (first_truthy cashflow [u "NETCASH_OPERATE"]) in
  exists m,
    key_metrics income balance cashflow = Ok m
    /\ m !! u "roe"
       = (if Qgtb equity 0
          then Some (if Qeq_bool net_profit 0 then PyNone
                     else PyNum (round2 (net_profit / equity * 100)))
          else None)
    /\ m !! u "debt_ratio"
       = match first_column balance total_assets_columns,
               first_column balance total_liabilities_columns with
         | Some assets, Some liabilities =>
             if Qgtb assets 0
             then Some (PyNum (round2 (liabilities / assets * 100)))
             else None
         | _, _ => None
         end
    /\ m !! u "asset_turnover"
       = (if Qgtb total_assets 0
          then Some (if Qeq_bool revenue 0 then PyNone
                     else PyNum (round2 (revenue / total_assets)))
          else None)
    /\ m !! u "net_profit_margin"
       = match first_column income revenue_columns,
               first_column income net_profit_columns with
         | Some revenue, Some net_profit =>
             if Qgtb revenue 0
             then Some (PyNum (round2 (net_profit / revenue * 100)))
             else None
         | _, _ => None
         end
    /\ m !! u "ocf_to_np"
       = (if bool_decide (cashflow = ∅) then None
          else if Qeq_bool net_profit 0 then None
          else Some (if Qeq_bool operating_cf 0 then PyNone
                     else PyNum (round2 (operating_cf / net_profit * 100)))).
Proof.
  cbv zeta. unfold key_metrics.
  destruct (extract_key_metrics_spec income balance) as (b & -> & Fb & Mb & Db).
  destruct (calculate_advanced_metrics_spec income balance (Some cashflow))
    as (a & -> & Fa & Ra & Ta & Oa).
  rewrite !bind_Ok. eexists. split; [reflexivity |].
  rewrite <- Ra, <- Ta, <- Mb, <- Db. cbv zeta in Oa. rewrite <- Oa.
  repeat split.
  - apply lookup_union_l, Fb. key_not_in.
  - apply lookup_union_r, Fa. key_not_in.
  - apply lookup_union_l, Fb. key_not_in.
  - apply lookup_union_r, Fa. key_not_in.
  - apply lookup_union_l, Fb. key_not_in.
Qed.

(** X20: A company whose balance sheet shows positive assets and liabilities
    of exactly zero is given the lowest solvency score whenever the
    analysis returns a result: its debt ratio is 0.0, which the scorer
    takes for a missing value. *)
Theorem debt_free_balance_scores_lowest_solvency
    (income balance cashflow : gmap pystr pyval) (assets liabilities : Q)
    (r : health_result) :
  first_column balance total_assets_columns = Some assets ->
  first_column balance total_liabilities_columns = Some liabilities ->
  0 < assets -> liabilities == 0 ->
  statement_health_score income balance cashflow = Ok r ->
  score (solvency (dimensions r)) = 5%Z.
Proof.
  intros Ha Hl Hpos Hl0 Hr. unfold statement_health_score in Hr.
  destruct (key_metrics_spec income balance cashflow) as (m & Hm & _ & D & _).
  rewrite Hm, bind_Ok in Hr. injection Hr as <-.
  rewrite solvency_score_points. unfold dict_get. rewrite D, Ha, Hl.
  replace (Qgtb assets 0) with true by (symmetry; now apply Qltb_lt).
  cbn [default from_option Datatypes.id or_num].
  assert (liabilities / assets * 100 == 0) as E0
    by (rewrite Hl0; unfold Qdiv; ring).
  assert (round2 (liabilities / assets * 100) == 0) as E
    by (rewrite (round2_proper _ _ E0); reflexivity).
  apply Qeq_bool_iff in E. now rewrite E.
Qed.



End StatementMetrics.

Lemma debt_free_balance_scores_lowest_solvency_witness :
  exists r,
    FetchData.statement_health_score
      FetchData.example_income FetchData.debt_free_balance ∅ = Ok r
    /\ FetchData.score (FetchData.solvency (FetchData.dimensions r)) = 5.
Proof.
  eexists. split; [vm_compute; reflexivity |].
  apply (debt_free_balance_scores_lowest_solvency
           FetchData.example_income FetchData.debt_free_balance ∅ 500 0);
    first [reflexivity | discriminate | (vm_compute; reflexivity)].
Defined.



(** * Properties in binary64 *)

(** Keys are compared once and then treated as atoms. *)
Ltac atom k name := set (name := k) in *.

Ltac distinct_from k :=
  repeat match goal with
    | k' := u _ : pystr |- _ =>
        lazymatch k' with
        | k => fail
        | _ =>
            lazymatch goal with
            | _ : k <> k' |- _ => fail
            | _ => assert (k <> k') by (unfold k, k'; key_neq);
                   assert (k' <> k) by (unfold k, k'; key_neq)
            end
        end
    end.

Ltac lookups :=
  repeat first [ rewrite lookup_insert_eq
               | rewrite lookup_insert_ne by assumption
               | rewrite lookup_empty ].

Ltac other_key Hk :=
  apply not_in_keys in Hk;
  repeat match type of Hk with
    | Forall _ (_ :: _) =>
        let H := fresh "Hne" in
        apply Forall_cons in Hk as [H Hk]
    end;
  clear Hk.

Ltac key_not_in :=
  let Hin := fresh "Hin" in
  intros Hin;
  cbn [In app FetchData.basic_metric_keys FetchData.advanced_metric_keys
       FetchData.cashflow_metric_keys] in Hin;
  repeat destruct Hin as [Hin | Hin];
  try (vm_compute in Hin; discriminate Hin); exact Hin.

(** ** Comparison of floats *)

Section FloatOrder.
Import Binary64.

Lemma SFcompare_antisym (x y : spec_float) :
  SFcompare y x = option_map CompOpp (SFcompare x y).
Proof.
  destruct x as [sx | sx | | sx mx ex], y as [sy | sy | | sy my ey];
    try destruct sx; try destruct sy; try reflexivity; cbn;
    rewrite (Z.compare_antisym ey ex);
    destruct (ey ?= ex); cbn; try reflexivity;
    rewrite (Pos.compare_cont_antisym mx my Eq); cbn;
    now destruct (Pos.compare_cont Eq my mx).
Qed.

Lemma SFltb_SFleb_false (x y : spec_float) :
  SFltb x y = true -> SFleb y x = false.
Proof.
  unfold SFltb, SFleb. rewrite (SFcompare_antisym x y).
  now destruct (SFcompare x y) as [[] |].
Qed.

Lemma SFleb_SFltb_false (x y : spec_float) :
  SFleb x y = true -> SFltb y x = false.
Proof.
  unfold SFltb, SFleb. rewrite (SFcompare_antisym x y).
  now destruct (SFcompare x y) as [[] |].
Qed.

Lemma SFleb_SFltb_trans (x y z : spec_float) :
  SFleb x y = true -> SFltb y z = true -> SFltb x z = true.
Proof.
  unfold SFleb, SFltb.
  destruct x as [sx | sx | | sx mx ex], y as [sy | sy | | sy my ey],
           z as [sz | sz | | sz mz ez];
    try destruct sx; try destruct sy; try destruct sz; cbn;
    try discriminate; try reflexivity;
    change (Pos.compare_cont Eq) with Pos.compare;
    repeat match goal with
      | |- context [(?a ?= ?b)%Z] => destruct (Z.compare_spec a b)
      | |- context [(?a ?= ?b)%positive] => destruct (Pos.compare_spec a b)
      end; cbn; try discriminate; try reflexivity; intros; subst; lia.
Qed.

Lemma ltb_leb_false (x y : float) : (x <? y)%float = true -> (y <=? x)%float = false.
Proof. rewrite FloatAxioms.ltb_spec, FloatAxioms.leb_spec. apply SFltb_SFleb_false. Qed.

Lemma leb_ltb_false (x y : float) : (x <=? y)%float = true -> (y <? x)%float = false.
Proof. rewrite FloatAxioms.ltb_spec, FloatAxioms.leb_spec. apply SFleb_SFltb_false. Qed.

Lemma leb_ltb_trans (x y z : float) :
  (x <=? y)%float = true -> (y <? z)%float = true -> (x <? z)%float = true.
Proof. rewrite !FloatAxioms.ltb_spec, FloatAxioms.leb_spec. apply SFleb_SFltb_trans. Qed.

Lemma ltb_eqb_false (x y : float) : (x <? y)%float = true -> (y =? x)%float = false.
Proof.
  rewrite FloatAxioms.ltb_spec, FloatAxioms.eqb_spec. unfold SFltb, SFeqb.
  rewrite (SFcompare_antisym (Prim2SF x) (Prim2SF y)).
  now destruct (SFcompare (Prim2SF x) (Prim2SF y)) as [[] |].
Qed.

Lemma eqb_ltb_false (x y : float) : (x =? y)%float = true -> (y <? x)%float = false.
Proof.
  rewrite FloatAxioms.ltb_spec, FloatAxioms.eqb_spec. unfold SFltb, SFeqb.
  rewrite (SFcompare_antisym (Prim2SF x) (Prim2SF y)).
  now destruct (SFcompare (Prim2SF x) (Prim2SF y)) as [[] |].
Qed.

Lemma ltb_leb (x y : float) : (x <? y)%float = true -> (x <=? y)%float = true.
Proof.
  rewrite FloatAxioms.ltb_spec, FloatAxioms.leb_spec. unfold SFltb, SFleb.
  now destruct (SFcompare (Prim2SF x) (Prim2SF y)) as [[] |].
Qed.

Lemma truediv_Ok (a b : float) :
  (b =? 0)%float = false -> truediv a b = Ok (a / b)%float.
Proof. unfold truediv. now intros ->. Qed.

Lemma truediv_pos (a b : float) :
  (0 <? b)%float = true -> truediv a b = Ok (a / b)%float.
Proof. intros H. apply truediv_Ok. now apply ltb_eqb_false. Qed.

End FloatOrder.

(** ** Rounding never gives NaN *)

Section NoNaN.

(** Rounding a non-negative mantissa never gives NaN. *)
Lemma shr_1_nonneg (r : shr_record) : 0 <= shr_m r -> 0 <= shr_m (shr_1 r).
Proof. destruct r as [[| [p | p |] | p] r s]; cbn; lia. Qed.

Lemma iter_shr_1_nonneg (p : positive) (r : shr_record) :
  0 <= shr_m r -> 0 <= shr_m (SpecFloat.iter_pos shr_1 p r).
Proof.
  revert r. induction p as [p IH | p IH |]; intros r H; cbn.
  - apply IH, IH, shr_1_nonneg, H.
  - apply IH, IH, H.
  - apply shr_1_nonneg, H.
Qed.

Lemma shr_fexp_nonneg (m e : Z) (l : location) :
  0 <= m -> 0 <= shr_m (fst (shr_fexp prec emax m e l)).
Proof.
  intros H. unfold shr_fexp, shr.
  assert (0 <= shr_m (shr_record_of_loc m l)) as H0 by (destruct l as [| []]; exact H).
  destruct (fexp prec emax (Zdigits2 m + e) - e); cbn [fst]; try exact H0.
  now apply iter_shr_1_nonneg.
Qed.

Lemma round_nearest_even_nonneg (m : Z) (l : location) :
  0 <= m -> 0 <= round_nearest_even m l.
Proof. intros H. destruct l as [| []]; cbn; try destruct (Z.even m); lia. Qed.

Lemma binary_round_aux_not_nan (s : bool) (m e : Z) (l : location) :
  0 <= m -> binary_round_aux prec emax s m e l <> S754_nan.
Proof.
  intros H. unfold binary_round_aux.
  pose proof (shr_fexp_nonneg m e l H) as H1.
  destruct (shr_fexp prec emax m e l) as [r1 e1]. cbn [fst] in H1.
  pose proof (shr_fexp_nonneg _ e1 loc_Exact
                (round_nearest_even_nonneg _ (loc_of_shr_record r1) H1)) as H2.
  destruct (shr_fexp prec emax _ e1 loc_Exact) as [r2 e2]. cbn [fst] in H2.
  destruct (shr_m r2); [discriminate | | lia].
  destruct (e2 <=? emax - prec); discriminate.
Qed.

Lemma binary_normalize_not_nan (m e : Z) (s : bool) :
  binary_normalize prec emax m e s <> S754_nan.
Proof.
  destruct m; cbn; [discriminate | |];
    unfold binary_round; destruct (shl_align _ _ _);
    apply binary_round_aux_not_nan; lia.
Qed.

End NoNaN.

(** ** The per-metric score in binary64 *)

Section MetricScore64.
Import Binary64 IndustryScorer64.
Local Open Scope float_scope.

(** [round(x, 2)] at decimal ties that are not ties in binary64, and at
    one that is: 0.025 is stored above the tie, 2.675 and 0.015 below it,
    0.125 exactly. *)
Example py_round2_ties :
  py_round2 (number 0.025) = number 0.03
  /\ py_round2 (number 2.675) = number 2.67
  /\ py_round2 (number 0.015) = number 0.01
  /\ py_round2 0.125 = number 0.12
  /\ py_round2 (number (-0.001)) = (-0)%float
  /\ py_round2 infinity = infinity.
Proof. repeat split; vm_compute; reflexivity. Qed.

Lemma py_round2_100 : py_round2 100 = 100.
Proof. vm_compute. reflexivity. Qed.

Lemma py_round2_50 : py_round2 50 = 50.
Proof. vm_compute. reflexivity. Qed.

Lemma py_round2_0 : py_round2 0 = 0.
Proof. vm_compute. reflexivity. Qed.

Lemma truediv_2 (a : float) : truediv a 2 = Ok (a / 2).
Proof. apply truediv_Ok. vm_compute. reflexivity. Qed.

(** The score before rounding, branch by branch. *)
Lemma raw_metric_score_in_range (value min_val max_val ideal : float) :
  (min_val <=? value) = true -> (value <=? max_val) = true ->
  raw_metric_score value min_val max_val ideal
  = if max_val - min_val =? 0 then Ok (if value =? ideal then 100 else 50)
    else if (max_val - min_val) / 2 =? 0 then Raise ZeroDivisionError
    else Ok (max0 (100 * (1 - abs (value - ideal) / ((max_val - min_val) / 2)))).
Proof.
  intros H1 H2. unfold raw_metric_score. rewrite H1, H2. cbn [andb].
  destruct (max_val - min_val =? 0); [reflexivity |].
  rewrite truediv_2, bind_Ok. unfold truediv.
  now destruct ((max_val - min_val) / 2 =? 0).
Qed.

Lemma raw_metric_score_below (value min_val max_val ideal : float) :
  (value <? min_val) = true ->
  raw_metric_score value min_val max_val ideal
  = Ok (if min_val =? 0 then 0 else max0 (100 * (value / min_val))).
Proof.
  intros H. unfold raw_metric_score.
  rewrite (ltb_leb_false _ _ H), H. cbn [andb].
  destruct (min_val =? 0) eqn:E; cbn [negb]; [reflexivity |].
  now rewrite truediv_Ok.
Qed.

Lemma raw_metric_score_above (value min_val max_val ideal : float) :
  (min_val <=? max_val) = true -> (max_val <? value) = true ->
  raw_metric_score value min_val max_val ideal
  = Ok (if value =? 0 then 0 else max0 (100 * (max_val / value))).
Proof.
  intros H0 H. unfold raw_metric_score.
  rewrite (ltb_leb_false _ _ H), andb_false_r.
  rewrite (leb_ltb_false _ _ (ltb_leb _ _ (leb_ltb_trans _ _ _ H0 H))).
  destruct (value =? 0) eqn:E; cbn [negb]; [reflexivity |].
  now rewrite truediv_Ok.
Qed.

End MetricScore64.

Section AtIdeal.
Import Binary64 IndustryScorer64.
Local Open Scope float_scope.

Lemma is_finite_cases (x : float) :
  is_finite x = true ->
  (exists s, Prim2SF x = S754_zero s) \/ (exists s m e, Prim2SF x = S754_finite s m e).
Proof.
  unfold is_finite, is_nan, is_infinity.
  rewrite !FloatAxioms.eqb_spec, abs_spec.
  change (Prim2SF infinity) with (S754_infinity false).
  destruct (Prim2SF x) as [s | [] | | s m e]; cbn; try discriminate; intros _;
    [left | right]; eauto.
Qed.

Lemma SFdiv_not_nan (x : spec_float) (s : bool) (m : positive) (e : Z) :
  x <> S754_nan -> SFdiv prec emax x (S754_finite s m e) <> S754_nan.
Proof.
  intros Hx. destruct x as [sx | sx | | sx mx ex]; cbn [SFdiv]; try discriminate;
    [congruence |].
  unfold SFdiv_core_binary.
  set (s' := (ex - e - _)%Z).
  set (m' := match s' with Zpos _ => _ | Z0 => _ | Zneg _ => _ end).
  assert (0 <= m')%Z as Hm'.
  { subst m'. destruct s'; try lia. apply Z.shiftl_nonneg. lia. }
  pose proof (Z.div_pos m' (Zpos m) Hm' ltac:(lia)) as Hq.
  unfold Z.div in Hq. destruct (Z.div_eucl m' (Zpos m)) as [q r]. cbn [fst] in Hq.
  now apply binary_round_aux_not_nan.
Qed.

Lemma SFsub_equal (x y : spec_float) :
  SFeqb x y = true ->
  (exists s, x = S754_zero s) \/ (exists s m e, x = S754_finite s m e) ->
  exists s, SFsub prec emax x y = S754_zero s.
Proof.
  unfold SFeqb. intros H [[s ->] | (s & m & e & ->)].
  - destruct y as [sy | sy | | sy my ey]; cbn in H; try discriminate;
      try (destruct sy; discriminate).
    cbn. destruct s, sy; eauto.
  - destruct y as [sy | sy | | sy my ey]; cbn in H; try discriminate;
      try (destruct s; discriminate); try (destruct sy; discriminate).
    assert (s = sy /\ e = ey /\ m = my) as (E1 & E2 & E3).
    { change (Pos.compare_cont Eq) with Pos.compare in H.
      destruct s, sy; try discriminate;
        destruct (Z.compare_spec e ey) as [Ee | |]; try discriminate;
        destruct (Pos.compare_spec m my) as [Em | |]; try discriminate; auto. }
    subst sy ey my.
    cbn [SFsub]. rewrite Z.min_id, Z.sub_diag. cbn. eauto.
Qed.

Lemma half_width_not_nan (value min_val max_val : float) :
  is_finite value = true ->
  (min_val <=? value) = true -> (value <=? max_val) = true ->
  Prim2SF ((max_val - min_val) / 2) <> S754_nan.
Proof.
  intros Hf H1 H2. rewrite div_spec, sub_spec.
  change (Prim2SF 2) with (S754_finite false 4503599627370496 (-51)).
  apply SFdiv_not_nan.
  rewrite FloatAxioms.leb_spec in H1, H2. unfold SFleb in H1, H2.
  destruct (is_finite_cases value Hf) as [[s E] | (s & m & e & E)]; rewrite E in H1, H2;
    destruct (Prim2SF max_val) as [sx | sx | | sx mx ex],
             (Prim2SF min_val) as [sy | sy | | sy my ey];
    cbn in H1, H2; try discriminate; unfold SF64sub; cbn [SFsub];
    try discriminate;
    try (destruct sx; try discriminate); try (destruct sy; try discriminate);
    try discriminate; try apply binary_normalize_not_nan;
    try (destruct s; discriminate).
Qed.

(** At the ideal a finite value of the range scores 100. *)
Lemma score_at_ideal (value min_val max_val ideal : float) :
  is_finite value = true ->
  (min_val <=? value) = true -> (value <=? max_val) = true ->
  ((max_val - min_val) / 2 =? 0) = false ->
  (value =? ideal) = true ->
  max0 (100 * (1 - abs (value - ideal) / ((max_val - min_val) / 2))) = 100.
Proof.
  intros Hf H1 H2 Hh He.
  pose proof (half_width_not_nan value min_val max_val Hf H1 H2) as Hn.
  set (h := (max_val - min_val) / 2) in *.
  assert (exists s, Prim2SF (abs (value - ideal) / h) = S754_zero s) as [sq Hq].
  { rewrite div_spec, abs_spec, sub_spec. unfold SF64sub.
    rewrite FloatAxioms.eqb_spec in He, Hh.
    destruct (SFsub_equal _ _ He (is_finite_cases value Hf)) as [s ->].
    cbn [SFabs]. unfold SF64div.
    change (Prim2SF 0) with (S754_zero false) in Hh.
    destruct (Prim2SF h) as [sh | sh | | sh mh eh]; cbn; eauto;
      [discriminate Hh | congruence]. }
  assert (1 - abs (value - ideal) / h = 1) as ->.
  { apply Prim2SF_inj. rewrite sub_spec, Hq. reflexivity. }
  vm_compute. reflexivity.
Qed.

End AtIdeal.

Section MetricScore64Claim.
Import Binary64 IndustryScorer64.
Local Open Scope float_scope.

Lemma calculate_metric_score_raw (value min_val max_val ideal weight s : float) :
  raw_metric_score value min_val max_val ideal = Ok s ->
  calculate_metric_score (Some value) min_val max_val ideal weight
  = Ok {| score := py_round2 s; weighted_score := py_round2 (py_round2 s * weight);
          rating := rating_of (py_round2 s); value := Some (py_round2 value);
          industry_range := (min_val, max_val); industry_ideal := ideal;
          name_cn := None |}.
Proof. intros H. unfold calculate_metric_score. now rewrite H. Qed.

(** C2 (as amended), in binary64: the score of a float against a benchmark
    range [min_val <= max_val], every operation being that of binary64 in
    the order in which the source writes it.  Inside the range, when the
    width is not zero, it is
    [round(max(0, 100 * (1 - |value - ideal| / ((max - min) / 2))), 2)], and
    exactly 100 at the ideal when the value is finite; when half the width
    rounds to zero the division raises.  Inside a range of width zero it is
    100 at the ideal and 50 elsewhere.  Below the range it is
    [round(max(0, 100 * (value / min)), 2)], and 0 when [min] is zero; above
    the range it is [round(max(0, 100 * (max / value)), 2)], and 0 when the
    value is zero.  The weighted score is [round(score * weight, 2)] in
    every case. *)
Theorem C2_metric_score_formula (value min_val max_val ideal weight : float) :
  let width := max_val - min_val in
  let result := calculate_metric_score (Some value) min_val max_val ideal weight in
  ((min_val <=? value) = true -> (value <=? max_val) = true -> (width =? 0) = false ->
     ((width / 2 =? 0) = false ->
        exists r,
          result = Ok r
          /\ score r
             = py_round2 (max0 (100 * (1 - abs (value - ideal) / (width / 2))))
          /\ (is_finite value = true -> (value =? ideal) = true -> score r = 100))
     /\ ((width / 2 =? 0) = true -> result = Raise ZeroDivisionError))
  /\ ((min_val <=? value) = true -> (value <=? max_val) = true -> (width =? 0) = true ->
        exists r, result = Ok r /\ score r = if value =? ideal then 100 else 50)
  /\ ((value <? min_val) = true ->
        exists r,
          result = Ok r
          /\ score r = if min_val =? 0 then 0
                       else py_round2 (max0 (100 * (value / min_val))))
  /\ ((min_val <=? max_val) = true -> (max_val <? value) = true ->
        exists r,
          result = Ok r
          /\ score r = if value =? 0 then 0
                       else py_round2 (max0 (100 * (max_val / value))))
  /\ (forall r, result = Ok r -> weighted_score r = py_round2 (score r * weight)).
Proof.
  intros width result. subst width result.
  split; [| split; [| split; [| split]]].
  - intros H1 H2 Hw.
    pose proof (raw_metric_score_in_range value min_val max_val ideal H1 H2) as E.
    rewrite Hw in E. split; intros Hh; rewrite Hh in E.
    + rewrite (calculate_metric_score_raw _ _ _ _ weight _ E).
      eexists. split; [reflexivity |]. cbn [score]. split; [reflexivity |].
      intros Hf He. f_equal.
      rewrite (score_at_ideal value min_val max_val ideal Hf H1 H2 Hh He).
      apply py_round2_100.
    + unfold calculate_metric_score. now rewrite E.
  - intros H1 H2 Hw.
    pose proof (raw_metric_score_in_range value min_val max_val ideal H1 H2) as E.
    rewrite Hw in E.
    rewrite (calculate_metric_score_raw _ _ _ _ weight _ E).
    eexists. split; [reflexivity |]. cbn [score].
    destruct (value =? ideal); [apply py_round2_100 | apply py_round2_50].
  - intros H.
    rewrite (calculate_metric_score_raw _ _ _ _ weight _
               (raw_metric_score_below value min_val max_val ideal H)).
    eexists. split; [reflexivity |]. cbn [score].
    destruct (min_val =? 0); [apply py_round2_0 | reflexivity].
  - intros H0 H.
    rewrite (calculate_metric_score_raw _ _ _ _ weight _
               (raw_metric_score_above value min_val max_val ideal H0 H)).
    eexists. split; [reflexivity |]. cbn [score].
    destruct (value =? 0); [apply py_round2_0 | reflexivity].
  - intros r. unfold calculate_metric_score.
    destruct (raw_metric_score value min_val max_val ideal); [| discriminate].
    rewrite bind_Ok. intros [= <-]. reflexivity.
Qed.

End MetricScore64Claim.

Lemma C2_witness :
  (exists r,
     IndustryScorer64.calculate_metric_score (Some 22.5%float) 12 35 22
       (Binary64.number 0.3) = Ok r
     /\ IndustryScorer64.score r
        = Binary64.py_round2
            (Binary64.max0 (100 * (1 - abs (22.5 - 22) / ((35 - 12) / 2))))%float
     /\ IndustryScorer64.weighted_score r
        = Binary64.py_round2 (IndustryScorer64.score r * Binary64.number 0.3)%float)
  /\ (exists r,
        IndustryScorer64.calculate_metric_score (Some 22%float) 12 35 22
          (Binary64.number 0.3) = Ok r
        /\ IndustryScorer64.score r = 100%float)
  /\ IndustryScorer64.calculate_metric_score (Some 0%float) 0 0x1p-1074 0 1
     = Raise ZeroDivisionError
  /\ (exists r,
        IndustryScorer64.calculate_metric_score (Some 10%float) 10 10 8 1 = Ok r
        /\ IndustryScorer64.score r = 50%float)
  /\ (exists r,
        IndustryScorer64.calculate_metric_score (Some 5.75%float) 40 70 55
          (Binary64.number 0.15) = Ok r
        /\ IndustryScorer64.score r
           = Binary64.py_round2 (Binary64.max0 (100 * (5.75 / 40)))%float)
  /\ (exists r,
        IndustryScorer64.calculate_metric_score (Some 40%float) 12 35 22
          (Binary64.number 0.3) = Ok r
        /\ IndustryScorer64.score r
           = Binary64.py_round2 (Binary64.max0 (100 * (35 / 40)))%float).
Proof.
  pose proof (C2_metric_score_formula 22.5 12 35 22 (Binary64.number 0.3))
    as (H1 & _ & _ & _ & Hw).
  pose proof (C2_metric_score_formula 22 12 35 22 (Binary64.number 0.3))
    as (H2 & _).
  pose proof (C2_metric_score_formula 0 0 0x1p-1074 0 1) as (H3 & _).
  pose proof (C2_metric_score_formula 10 10 10 8 1) as (_ & H4 & _).
  pose proof (C2_metric_score_formula 5.75 40 70 55 (Binary64.number 0.15))
    as (_ & _ & H5 & _).
  pose proof (C2_metric_score_formula 40 12 35 22 (Binary64.number 0.3))
    as (_ & _ & _ & H6 & _).
  cbv zeta in *.
  split; [| split; [| split; [| split; [| split]]]].
  - destruct (proj1 (H1 eq_refl eq_refl eq_refl) eq_refl) as (r & Hr & Hs & _).
    exists r. split; [exact Hr |]. split; [exact Hs |]. exact (Hw r Hr).
  - destruct (proj1 (H2 eq_refl eq_refl eq_refl) eq_refl) as (r & Hr & _ & Hi).
    exists r. split; [exact Hr |]. exact (Hi eq_refl eq_refl).
  - exact (proj2 (H3 eq_refl eq_refl eq_refl) eq_refl).
  - destruct (H4 eq_refl eq_refl eq_refl) as (r & Hr & Hs).
    exists r. split; [exact Hr |]. exact Hs.
  - destruct (H5 eq_refl) as (r & Hr & Hs). exists r. split; [exact Hr |]. exact Hs.
  - destruct (H6 eq_refl eq_refl) as (r & Hr & Hs).
    exists r. split; [exact Hr |]. exact Hs.
Defined.

(** C2 as stated fails on the code.  Below the range the source computes
    [100 * (value / min)]: for the value 5.75 against the minimum 40 the
    quotient is rounded before it is multiplied and the score is 14.37,
    whereas [round(max(0, 100 * value / min), 2)] is 14.38, in binary64 as
    in exact arithmetic.  And on a reversed range the value 5 is both below
    the minimum 10 and above the maximum 2: the score is 50, not the
    [round(max(0, 100 * max / value), 2) = 40] of the clause for a value
    above the range. *)
Lemma C2_stated_formula_refuted :
  (exists r,
     IndustryScorer64.calculate_metric_score (Some 5.75%float) 40 70 55
       (Binary64.number 0.15) = Ok r
     /\ IndustryScorer64.score r = Binary64.number 14.37)
  /\ Binary64.py_round2 (Binary64.max0 (100 * 5.75 / 40))%float = Binary64.number 14.38
  /\ (round2 (max0 (100 * 5.75 / 40)) == 14.38)%Q
  /\ (exists r,
        IndustryScorer64.calculate_metric_score (Some 5%float) 10 2 6 1 = Ok r
        /\ (2 <? 5)%float = true
        /\ IndustryScorer64.score r = 50%float
        /\ Binary64.py_round2 (Binary64.max0 (100 * 2 / 5))%float = 40%float).
Proof.
  split; [| split; [| split]].
  - eexists. split; [vm_compute; reflexivity |]. vm_compute. reflexivity.
  - vm_compute. reflexivity.
  - vm_compute. reflexivity.
  - eexists. split; [vm_compute; reflexivity |]. repeat split; vm_compute; reflexivity.
Qed.

(** ** Dictionaries whose values convert *)

Section Convertible.
Import Binary64.

Lemma list_to_map_convertible (l : list (pystr * pyvalue)) :
  Forall (fun p => convertible p.2) l -> all_convertible (list_to_map l).
Proof.
  induction 1 as [| [k v] l Hv Hl IH]; cbn [list_to_map foldr].
  - apply map_Forall_empty.
  - apply map_Forall_insert_2; [exact Hv | exact IH].
Qed.


End Convertible.

(** The values of a dictionary given by a list of entries are convertible. *)
Ltac rows_convertible :=
  apply list_to_map_convertible;
  repeat (apply Forall_cons_2;
          [first [exact I | cbn; eexists; vm_compute; reflexivity] |]);
  apply Forall_nil_2.

(** ** The industry scorer in binary64: which inputs raise *)

Section Scorer64.
Import IndustryBenchmarks Binary64 IndustryScorer64.
Local Open Scope float_scope.

Lemma safe_float_Ok (value : pyvalue) (default : float) :
  convertible value -> exists x, safe_float value default = Ok x.
Proof. destruct value; cbn; eauto. Qed.

Lemma safe_float_none_Ok (value : pyvalue) :
  convertible value -> exists x, safe_float_none value = Ok x.
Proof.
  destruct value as [| n | x]; cbn; eauto.
  intros [x ->]. rewrite bind_Ok. eauto.
Qed.

Lemma dict_get_convertible (metrics : gmap pystr pyvalue) (k : pystr) :
  all_convertible metrics -> convertible (dict_get metrics k).
Proof.
  intros H. unfold dict_get. destruct (metrics !! k) as [v |] eqn:E; [| exact I].
  exact (H k v E).
Qed.

Lemma dict_get_default_convertible (metrics : gmap pystr pyvalue) (k : pystr)
    (dflt : pyvalue) :
  all_convertible metrics -> convertible dflt ->
  convertible (dict_get_default metrics k dflt).
Proof.
  intros H Hd. unfold dict_get_default. destruct (metrics !! k) as [v |] eqn:E;
    [exact (H k v E) | exact Hd].
Qed.

Lemma convertible_small (n : Z) :
  (Z.abs n <=? 1)%Z = true -> convertible (VInt n).
Proof.
  intros H. apply Z.leb_le in H.
  assert (n = (-1)%Z \/ n = 0%Z \/ n = 1%Z) as [-> | [-> | ->]] by lia;
    cbn; eexists; vm_compute; reflexivity.
Qed.

Lemma resolve_value_Ok (metrics : gmap pystr pyvalue) (metric_name : pystr) :
  all_convertible metrics -> exists v, resolve_value metrics metric_name = Ok v.
Proof.
  intros H. unfold resolve_value. apply safe_float_none_Ok.
  destruct (dict_get metrics metric_name) eqn:E.
  - destruct (find _ _); [apply dict_get_convertible, H | exact I].
  - rewrite <- E. apply dict_get_convertible, H.
  - exact I.
Qed.

(** Against a range that [safe_range] accepts the score is computed for
    every float. *)
Lemma raw_metric_score_Ok64 (b : benchmark) (value : float) :
  safe_range b = true ->
  exists s,
    raw_metric_score value (number (min b)) (number (max b)) (number (ideal b)) = Ok s.
Proof.
  unfold safe_range. cbv zeta. intros Hb. unfold raw_metric_score.
  destruct ((number (min b) <=? value) && (value <=? number (max b))).
  - destruct (number (max b) - number (min b) =? 0); [eauto |].
    cbn [orb] in Hb. apply negb_true_iff in Hb.
    rewrite truediv_2, bind_Ok, (truediv_Ok _ _ Hb), bind_Ok. eauto.
  - destruct (value <? number (min b)).
    + destruct (number (min b) =? 0) eqn:E; cbn [negb]; [eauto |].
      rewrite (truediv_Ok _ _ E), bind_Ok. eauto.
    + destruct (value =? 0) eqn:E; cbn [negb]; [eauto |].
      rewrite (truediv_Ok _ _ E), bind_Ok. eauto.
Qed.

Lemma calculate_metric_score_Ok64 (b : benchmark) (value : float) :
  safe_range b = true ->
  exists r,
    calculate_metric_score (Some value) (number (min b)) (number (max b))
      (number (ideal b)) (number (weight b)) = Ok r.
Proof.
  intros Hb. unfold calculate_metric_score.
  destruct (raw_metric_score_Ok64 b value Hb) as [s ->]. rewrite bind_Ok. eauto.
Qed.

(** Every range of the table is accepted. *)
Lemma table_safe_range (i : IndustryBenchmarks.industry) (n : pystr) (b : benchmark) :
  In (n, b) (metrics (get_industry_info i)) -> safe_range b = true.
Proof.
  assert (forallb (fun '(_, b) => safe_range b) (metrics (get_industry_info i)) = true)
    as H by (destruct i; vm_compute; reflexivity).
  rewrite forallb_forall in H. intros Hin. exact (H (n, b) Hin).
Qed.

(** The scoring loop returns; it scores the metrics that resolve and no
    others, and without any that resolves it leaves the totals. *)
Lemma score_metrics_Ok (metrics : gmap pystr pyvalue)
    (industry_metrics : list (pystr * benchmark)) (acc : totals) :
  all_convertible metrics ->
  (forall n b, In (n, b) industry_metrics -> safe_range b = true) ->
  exists t,
    score_metrics metrics industry_metrics acc = Ok t
    /\ (forall metric, resolve_value metrics metric = Ok None ->
                       assoc_get (dimension_scores t) metric
                       = assoc_get (dimension_scores acc) metric)
    /\ ((forall metric, resolve_value metrics metric = Ok None) -> t = acc).
Proof.
  intros Hm. revert acc.
  induction industry_metrics as [| [n b] rest IH]; intros acc Hb.
  - exists acc. cbn. auto.
  - cbn [score_metrics].
    destruct (resolve_value_Ok metrics n Hm) as [[v |] Ev]; rewrite Ev, bind_Ok.
    + destruct (calculate_metric_score_Ok64 b v) as [r ->];
        [apply (Hb n b); now left |].
      rewrite bind_Ok.
      match goal with
      | |- context [score_metrics metrics rest ?a] =>
          destruct (IH a) as (t & -> & Hk & Hnone)
      end; [intros n' b' Hin; apply (Hb n' b'); now right |].
      exists t. split; [reflexivity |]. split.
      * intros metric Hr. rewrite (Hk metric Hr). cbn [dimension_scores].
        rewrite assoc_get_set. destruct (decide (n = metric)) as [-> |];
          [congruence | reflexivity].
      * intros Hall. specialize (Hall n). congruence.
    + destruct (IH acc) as (t & -> & Hk & Hnone);
        [intros n' b' Hin; apply (Hb n' b'); now right |].
      exists t. auto.
Qed.

Lemma adjustments_Ok (metrics : gmap pystr pyvalue) (info : industry_info) :
  all_convertible metrics -> exists a, adjustments metrics info = Ok a.
Proof.
  intros Hm. unfold adjustments. cbv zeta.
  destruct (IndustryScorer.rule_is _ _ _).
  - destruct (safe_float_Ok (dict_get_default metrics (u "debt_ratio") (VInt 0)) 0)
      as [x ->];
      [apply dict_get_default_convertible; [exact Hm | now apply convertible_small] |].
    rewrite !bind_Ok.
    destruct (IndustryScorer.rule_truthy _ (u "cashflow_critical")).
    + destruct (safe_float_Ok (dict_get_default metrics (u "ocf_to_np") (VInt 1)) 0)
        as [y ->];
        [apply dict_get_default_convertible; [exact Hm | now apply convertible_small] |].
      rewrite !bind_Ok. destruct (y <? number 0.5);
        destruct (IndustryScorer.rule_truthy _ (u "high_rd_bonus")); eauto;
        (destruct (safe_float_Ok (dict_get_default metrics (u "rd_ratio") (VInt 0)) 0)
           as [z ->];
         [apply dict_get_default_convertible; [exact Hm | now apply convertible_small] |];
         rewrite bind_Ok; eauto).
    + rewrite !bind_Ok.
      destruct (IndustryScorer.rule_truthy _ (u "high_rd_bonus")); eauto.
      destruct (safe_float_Ok (dict_get_default metrics (u "rd_ratio") (VInt 0)) 0)
        as [z ->];
        [apply dict_get_default_convertible; [exact Hm | now apply convertible_small] |].
      rewrite bind_Ok. eauto.
  - rewrite !bind_Ok.
    destruct (IndustryScorer.rule_truthy _ (u "cashflow_critical")).
    + destruct (safe_float_Ok (dict_get_default metrics (u "ocf_to_np") (VInt 1)) 0)
        as [y ->];
        [apply dict_get_default_convertible; [exact Hm | now apply convertible_small] |].
      rewrite !bind_Ok. destruct (y <? number 0.5);
        destruct (IndustryScorer.rule_truthy _ (u "high_rd_bonus")); eauto;
        (destruct (safe_float_Ok (dict_get_default metrics (u "rd_ratio") (VInt 0)) 0)
           as [z ->];
         [apply dict_get_default_convertible; [exact Hm | now apply convertible_small] |];
         rewrite bind_Ok; eauto).
    + rewrite !bind_Ok.
      destruct (IndustryScorer.rule_truthy _ (u "high_rd_bonus")); eauto.
      destruct (safe_float_Ok (dict_get_default metrics (u "rd_ratio") (VInt 0)) 0)
        as [z ->];
        [apply dict_get_default_convertible; [exact Hm | now apply convertible_small] |].
      rewrite bind_Ok. eauto.
Qed.

(** The comparison loop over any list of benchmarks: the entries of other
    metrics and of metrics whose own key holds no number are left, and,
    the names being distinct, a metric whose own key holds a number gets
    the entry of that number against its ideal. *)
Lemma generate_comparison_state64 (metrics : gmap pystr pyvalue)
    (industry_metrics : list (pystr * benchmark)) :
  all_convertible metrics ->
  forall comparison,
  exists c,
    _generate_comparison metrics industry_metrics comparison = Ok c
    /\ (forall n, ~ In n (map fst industry_metrics) ->
                  assoc_get c n = assoc_get comparison n)
    /\ (forall n, dict_get metrics n = VNone -> assoc_get c n = assoc_get comparison n)
    /\ (NoDup (map fst industry_metrics) ->
        forall n b x,
          In (n, b) industry_metrics -> dict_get metrics n <> VNone ->
          safe_float (dict_get metrics n) 0 = Ok x ->
          (number (ideal b) =? 0) = false ->
          assoc_get c n = Some (comparison_of x (number (ideal b)))).
Proof.
  intros Hm.
  induction industry_metrics as [| [n0 b0] rest IH]; intros comparison.
  - exists comparison. cbn. split; [reflexivity |]. split; [reflexivity |].
    split; [reflexivity |]. intros _ n b x [].
  - cbn [_generate_comparison].
    assert (dict_get metrics n0 = VNone \/ (number (ideal b0) =? 0) = true ->
            exists c,
              _generate_comparison metrics rest comparison = Ok c
              /\ (forall n, ~ In n (map fst ((n0, b0) :: rest)) ->
                            assoc_get c n = assoc_get comparison n)
              /\ (forall n, dict_get metrics n = VNone ->
                            assoc_get c n = assoc_get comparison n)
              /\ (NoDup (map fst ((n0, b0) :: rest)) ->
                  forall n b x,
                    In (n, b) ((n0, b0) :: rest) -> dict_get metrics n <> VNone ->
                    safe_float (dict_get metrics n) 0 = Ok x ->
                    (number (ideal b) =? 0) = false ->
                    assoc_get c n = Some (comparison_of x (number (ideal b))))) as Hskip.
    { intros Hs. destruct (IH comparison) as (c & Hc & Hkeep & Hnone & Hent).
      exists c. split; [exact Hc |]. split; [| split; [exact Hnone |]].
      - intros n Hn. apply Hkeep. intros Hin. apply Hn. right. exact Hin.
      - intros Hnd n b x Hin Hv Hx Hi. apply NoDup_cons in Hnd as [_ Hnd].
        destruct Hin as [[= <- <-] | Hin]; [| exact (Hent Hnd n b x Hin Hv Hx Hi)].
        destruct Hs as [Hs | Hs]; congruence. }
    assert (forall v0,
              dict_get metrics n0 <> VNone -> safe_float (dict_get metrics n0) 0 = Ok v0 ->
              (number (ideal b0) =? 0) = false ->
              exists c,
                _generate_comparison metrics rest
                  (assoc_set comparison n0 (comparison_of v0 (number (ideal b0)))) = Ok c
                /\ (forall n, ~ In n (map fst ((n0, b0) :: rest)) ->
                              assoc_get c n = assoc_get comparison n)
                /\ (forall n, dict_get metrics n = VNone ->
                              assoc_get c n = assoc_get comparison n)
                /\ (NoDup (map fst ((n0, b0) :: rest)) ->
                    forall n b x,
                      In (n, b) ((n0, b0) :: rest) -> dict_get metrics n <> VNone ->
                      safe_float (dict_get metrics n) 0 = Ok x ->
                      (number (ideal b) =? 0) = false ->
                      assoc_get c n = Some (comparison_of x (number (ideal b)))))
      as Hstore.
    { intros v0 Hv0 Hx0 Hi0.
      destruct (IH (assoc_set comparison n0 (comparison_of v0 (number (ideal b0)))))
        as (c & Hc & Hkeep & Hnone & Hent).
      exists c. split; [exact Hc |]. split; [| split].
      + intros n Hn. rewrite Hkeep by (intros Hin; apply Hn; right; exact Hin).
        rewrite assoc_get_set. destruct (decide (n0 = n)) as [-> | _]; [| reflexivity].
        exfalso. apply Hn. left. reflexivity.
      + intros n Hn. rewrite (Hnone n Hn), assoc_get_set.
        destruct (decide (n0 = n)) as [-> | _]; [congruence | reflexivity].
      + intros Hnd n b x Hin Hv Hx Hi. apply NoDup_cons in Hnd as [Hfresh Hnd].
        destruct Hin as [[= <- <-] | Hin]; [| exact (Hent Hnd n b x Hin Hv Hx Hi)].
        assert (x = v0) by congruence. subst x.
        rewrite Hkeep by (intros Hin; apply Hfresh, list_elem_of_In; exact Hin).
        rewrite assoc_get_set, decide_True by reflexivity. reflexivity. }
    pose proof (dict_get_convertible metrics n0 Hm) as Hc.
    destruct (safe_float_Ok (dict_get metrics n0) 0 Hc) as [v0 Hv0].
    destruct (dict_get metrics n0) as [| z | x0] eqn:E;
      [apply Hskip; left; reflexivity | |];
      rewrite Hv0, bind_Ok;
      (destruct (number (ideal b0) =? 0) eqn:Ei; [apply Hskip; right; reflexivity |]);
      cbn [negb]; rewrite (truediv_Ok _ _ Ei), !bind_Ok;
      specialize (Hstore v0 ltac:(discriminate) Hv0 eq_refl);
      unfold comparison_of in Hstore; cbv zeta in Hstore;
      destruct (abs _ <=? 10); [exact Hstore | destruct (0 <? _); exact Hstore
                               | exact Hstore | destruct (0 <? _); exact Hstore].
Qed.

Lemma table_ideal_nonzero64 (i : IndustryBenchmarks.industry) (n : pystr) (b : benchmark) :
  In (n, b) (metrics (get_industry_info i)) -> (number (ideal b) =? 0) = false.
Proof.
  intros Hin.
  assert (forallb (fun p => negb (number (ideal (snd p)) =? 0))
                  (metrics (get_industry_info i)) = true) as H
    by (destruct i; vm_compute; reflexivity).
  rewrite forallb_forall in H. specialize (H _ Hin). cbn [snd] in H.
  now apply negb_true_iff in H.
Qed.

Variable lower : pystr -> pystr.

(** The aggregate on a convertible dictionary: it returns, and its result
    is made of the industry, the totals of the scoring loop and the
    comparison. *)
Lemma calculate_industry_adjusted_score_spec64 (metrics : gmap pystr pyvalue)
    (stock_code : pystr) (company_name sw_industry : option pystr) :
  all_convertible metrics ->
  exists i r,
    IndustryClassifier.classify lower stock_code company_name sw_industry = Ok i
    /\ calculate_industry_adjusted_score lower metrics stock_code company_name
         sw_industry = Ok r
    /\ (forall metric, resolve_value metrics metric = Ok None ->
                       assoc_get (result_dimension_scores r) metric = None)
    /\ ((max_score r =? 0) = true -> normalized_score r = 0)
    /\ ((forall metric, resolve_value metrics metric = Ok None) ->
        max_score r = 0 /\ normalized_score r = 0)
    /\ _generate_comparison metrics (IndustryBenchmarks.metrics (get_industry_info i)) []
       = Ok (industry_comparison r).
Proof.
  intros Hm. unfold calculate_industry_adjusted_score.
  destruct (classify_Ok lower stock_code company_name sw_industry) as [i Hi].
  exists i. rewrite Hi, bind_Ok. cbv zeta.
  destruct (score_metrics_Ok metrics (IndustryBenchmarks.metrics (get_industry_info i))
              {| dimension_scores := []; total_weighted_score := 0;
                 total_max_score := 0 |} Hm (table_safe_range i))
    as (t & -> & Hk & Hnone).
  rewrite bind_Ok.
  destruct (adjustments_Ok metrics (get_industry_info i) Hm) as [[af an] ->].
  rewrite bind_Ok.
  assert (exists n,
            (if 0 <? total_max_score t
             then r ← truediv (py_round2 (total_weighted_score t * af))
                      (total_max_score t); Ok (r * 100)
             else Ok 0) = Ok n
            /\ ((total_max_score t =? 0) = true -> n = 0)) as (n & -> & Hn).
  { destruct (0 <? total_max_score t) eqn:E.
    - rewrite (truediv_pos _ _ E), bind_Ok. eexists. split; [reflexivity |].
      intros H. apply eqb_ltb_false in H. congruence.
    - eauto. }
  rewrite bind_Ok.
  match goal with
  | |- context [let '(_, _) := ?e in _] => destruct e as [rl rc]
  end.
  destruct (generate_comparison_state64 metrics
              (IndustryBenchmarks.metrics (get_industry_info i)) Hm [])
    as (c & Hc & _).
  rewrite Hc, bind_Ok. eexists. split; [reflexivity |]. split; [reflexivity |].
  cbn [result_dimension_scores max_score normalized_score industry_comparison].
  split; [| split; [| split; [| reflexivity]]].
  - intros metric Hr. now rewrite (Hk metric Hr).
  - intros H. rewrite (Hn H). apply py_round2_0.
  - intros Hall. rewrite (Hnone Hall). cbn [total_max_score]. split; [reflexivity |].
    rewrite Hn; [apply py_round2_0 |]. rewrite (Hnone Hall). reflexivity.
Qed.

End Scorer64.

Section Totality64.
Import IndustryBenchmarks IndustryScorer64.
Local Open Scope float_scope.

Variable lower : pystr -> pystr.


End Totality64.



Section Comparison64.
Import IndustryBenchmarks IndustryScorer64.
Local Open Scope float_scope.

(** X24: Against every benchmark of the table the score of a float is
    computed, whatever the float, NaN and the infinities included: no
    division of the function has a zero divisor there. *)
Theorem table_metric_score_returns (i : IndustryBenchmarks.industry)
    (metric_name : pystr) (b : benchmark) (value : float) :
  In (metric_name, b) (IndustryBenchmarks.metrics (get_industry_info i)) ->
  exists r,
    calculate_metric_score (Some value) (Binary64.number (min b))
      (Binary64.number (max b)) (Binary64.number (ideal b))
      (Binary64.number (weight b)) = Ok r.
Proof.
  intros Hin. apply calculate_metric_score_Ok64.
  exact (table_safe_range i metric_name b Hin).
Qed.

Variable lower : pystr -> pystr.

(** X10: On a dictionary whose values are [None], floats, or ints that
    [float] converts, the comparison holds an entry for a benchmarked
    metric exactly when the metric's own key maps to a number: the entry is
    then the comparison of that number, as a float, with the ideal of the
    benchmark, computed in binary64: the difference and its percentage
    rounded to two decimals, the status decided before rounding. *)
Theorem industry_comparison_entries (metrics : gmap pystr Binary64.pyvalue)
    (stock_code : pystr) (company_name sw_industry : option pystr) :
  Binary64.all_convertible metrics ->
  exists i r,
    IndustryClassifier.classify lower stock_code company_name sw_industry = Ok i
    /\ calculate_industry_adjusted_score lower metrics stock_code company_name
         sw_industry = Ok r
    /\ (forall n b x,
          In (n, b) (IndustryBenchmarks.metrics (get_industry_info i)) ->
          Binary64.dict_get metrics n <> Binary64.VNone ->
          safe_float (Binary64.dict_get metrics n) 0 = Ok x ->
          assoc_get (industry_comparison r) n
          = Some (comparison_of x (Binary64.number (ideal b))))
    /\ (forall n, Binary64.dict_get metrics n = Binary64.VNone ->
                  assoc_get (industry_comparison r) n = None)
    /\ (forall n, ~ In n (map fst (IndustryBenchmarks.metrics (get_industry_info i))) ->
                  assoc_get (industry_comparison r) n = None).
Proof.
  intros Hm.
  destruct (calculate_industry_adjusted_score_spec64 lower metrics stock_code
              company_name sw_industry Hm)
    as (i & r & Hi & Hr & _ & _ & _ & Hcmp).
  destruct (generate_comparison_state64 metrics
              (IndustryBenchmarks.metrics (get_industry_info i)) Hm [])
    as (c & Hc & Hkeep & Hnone & Hent).
  assert (c = industry_comparison r) by congruence. subst c.
  exists i, r. split; [exact Hi |]. split; [exact Hr |].
  split; [| split].
  - intros n b x Hin Hv Hx.
    exact (Hent (table_names_distinct i) n b x Hin Hv Hx (table_ideal_nonzero64 i n b Hin)).
  - intros n Hn. now rewrite Hnone.
  - intros n Hn. now rewrite Hkeep.
Qed.

End Comparison64.

Lemma industry_comparison_entries_witness :
  exists r,
    IndustryScorer64.calculate_industry_adjusted_score ascii_lower
      IndustryScorer64.indebted_metrics (u "600519") (Some (u "贵州茅台")) None = Ok r
    /\ IndustryBenchmarks.assoc_get (IndustryScorer64.industry_comparison r) (u "roe")
       = Some {| IndustryScorer64.company_value := 22.5;
                 IndustryScorer64.comparison_ideal := 22;
                 IndustryScorer64.difference := 0.5;
                 IndustryScorer64.difference_pct := Binary64.number 2.27;
                 IndustryScorer64.status := u "at";
                 IndustryScorer64.status_cn := u "持平" |}
    /\ IndustryBenchmarks.assoc_get (IndustryScorer64.industry_comparison r)
         (u "debt_ratio")
       = Some {| IndustryScorer64.company_value := Binary64.number 30.8;
                 IndustryScorer64.comparison_ideal := 28;
                 IndustryScorer64.difference := Binary64.number 2.8;
                 IndustryScorer64.difference_pct := 10;
                 IndustryScorer64.status := u "above";
                 IndustryScorer64.status_cn := u "优于" |}
    /\ IndustryBenchmarks.assoc_get (IndustryScorer64.industry_comparison r)
         (u "gross_margin") = None.
Proof.
  assert (Binary64.all_convertible IndustryScorer64.indebted_metrics) as Hc
    by rows_convertible.
  destruct (industry_comparison_entries ascii_lower IndustryScorer64.indebted_metrics
              (u "600519") (Some (u "贵州茅台")) None Hc)
    as (i & r & Hi & Hr & Hent & Hnone & _).
  vm_compute in Hi. injection Hi as <-.
  exists r. split; [exact Hr |]. split; [| split].
  - rewrite (Hent (u "roe")
               {| IndustryBenchmarks.min := 12; IndustryBenchmarks.max := 35;
                  IndustryBenchmarks.ideal := 22; IndustryBenchmarks.weight := 0.30 |}
               22.5%float).
    + vm_compute. reflexivity.
    + vm_compute. tauto.
    + vm_compute. discriminate.
    + vm_compute. reflexivity.
  - rewrite (Hent (u "debt_ratio")
               {| IndustryBenchmarks.min := 15; IndustryBenchmarks.max := 50;
                  IndustryBenchmarks.ideal := 28; IndustryBenchmarks.weight := 0.10 |}
               (Binary64.number 30.8)).
    + vm_compute. reflexivity.
    + vm_compute. tauto.
    + vm_compute. discriminate.
    + vm_compute. reflexivity.
  - apply Hnone. vm_compute. reflexivity.
Defined.

Lemma table_metric_score_returns_witness :
  exists r,
    IndustryScorer64.calculate_metric_score (Some nan) 12 35 22 (Binary64.number 0.3)
    = Ok r
    /\ IndustryScorer64.score r = 0%float.
Proof.
  destruct (table_metric_score_returns IndustryBenchmarks.consumer (u "roe")
              {| IndustryBenchmarks.min := 12; IndustryBenchmarks.max := 35;
                 IndustryBenchmarks.ideal := 22; IndustryBenchmarks.weight := 0.30 |}
              nan) as [r Hr]; [vm_compute; tauto |].
  exists r. split; [exact Hr |].
  vm_compute in Hr. injection Hr as <-. reflexivity.
Defined.

(** ** The derived metrics in binary64 *)

Section AdvancedMetrics64.
Import Binary64 FetchData64.
Local Open Scope float_scope.

Lemma float_of_int_0 : float_of_int 0 = Ok 0.
Proof. vm_compute. reflexivity. Qed.

Lemma first_truthy_convertible (row : gmap pystr pyvalue) (keys : list pystr) :
  all_convertible row -> convertible (first_truthy row keys).
Proof.
  intros H. induction keys as [| k keys IH]; cbn [first_truthy].
  - exists 0. exact float_of_int_0.
  - destruct (value_truthy (dict_get row k)); [| exact IH].
    unfold dict_get. destruct (row !! k) as [v |] eqn:E; [exact (H k v E) | exact I].
Qed.

Lemma safe_float_first_truthy (row : gmap pystr pyvalue) (keys : list pystr) :
  all_convertible row -> exists x, safe_float (first_truthy row keys) = Ok x.
Proof.
  intros H. pose proof (first_truthy_convertible row keys H) as Hc.
  destruct (first_truthy row keys); cbn in *; eauto.
Qed.

Lemma if_truthy_pct64 (c a b : float) :
  (b =? 0) = false ->
  if_truthy c (rounded (r ← truediv a b; Ok (r * 100)))
  = Ok (if truthy c then VFloat (py_round2 (a / b * 100)) else VNone).
Proof.
  intros H. unfold if_truthy. destruct (truthy c); [| reflexivity].
  now rewrite (truediv_Ok _ _ H).
Qed.

Lemma if_truthy_div64 (c a b : float) :
  (b =? 0) = false ->
  if_truthy c (rounded (truediv a b))
  = Ok (if truthy c then VFloat (py_round2 (a / b)) else VNone).
Proof.
  intros H. unfold if_truthy. destruct (truthy c); [| reflexivity].
  now rewrite (truediv_Ok _ _ H).
Qed.

Lemma rounded_div64 (a b : float) :
  (b =? 0) = false -> rounded (truediv a b) = Ok (VFloat (py_round2 (a / b))).
Proof. intros H. now rewrite (truediv_Ok _ _ H). Qed.

Lemma if_truthy_abs_pct64 (c a b : float) :
  (b =? 0) = false ->
  if_truthy c
    (x ← (r ← truediv a b; Ok (abs (r * 100))); Ok (VFloat (py_round2 x)))
  = Ok (if truthy c then VFloat (py_round2 (abs (a / b * 100))) else VNone).
Proof.
  intros H. unfold if_truthy. destruct (truthy c); [| reflexivity].
  now rewrite (truediv_Ok _ _ H).
Qed.

Lemma guard_stage64 (c : bool) (e : res pyvalue) (v : pyvalue) (k : pystr)
    (m : gmap pystr pyvalue) :
  (c = true -> e = Ok v) ->
  (if c then x ← e; Ok (<[k := x]> m) else Ok m)
  = Ok (if c then <[k := v]> m else m).
Proof. intros H. destruct c; [| reflexivity]. now rewrite H. Qed.

Lemma guard_stage2_64 (c : bool) (e1 e2 : res pyvalue) (v1 v2 : pyvalue) (k1 k2 : pystr)
    (m : gmap pystr pyvalue) :
  (c = true -> e1 = Ok v1) -> (c = true -> e2 = Ok v2) ->
  (if c then x1 ← e1; x2 ← e2; Ok (<[k2 := x2]> (<[k1 := x1]> m)) else Ok m)
  = Ok (if c then <[k2 := v2]> (<[k1 := v1]> m) else m).
Proof. intros H1 H2. destruct c; [| reflexivity]. now rewrite H1, H2. Qed.

Lemma cash_quality_stage64 (a b c : bool) (o n : float) (k : pystr)
    (m : gmap pystr pyvalue) :
  (b = true -> (n =? 0) = false) ->
  (if a && b then v ← rounded (truediv o n); Ok (<[k := v]> m)
   else if c then Ok (<[k := VInt (-1)]> m) else Ok m)
  = Ok (if a && b then <[k := VFloat (py_round2 (o / n))]> m
        else if c then <[k := VInt (-1)]> m else m).
Proof.
  intros H. destruct a, b, c; cbn [andb]; try reflexivity;
    now rewrite rounded_div64 by auto.
Qed.

Lemma e8_nonzero : (1e8 =? 0) = false.
Proof. vm_compute. reflexivity. Qed.

(** The cash-flow block returns on a convertible row and sets none but its
    eleven keys. *)
Lemma cashflow_metrics_Ok64 (net_profit : float) (cashflow m : gmap pystr pyvalue) :
  all_convertible cashflow ->
  exists m',
    cashflow_metrics net_profit cashflow m = Ok m'
    /\ (forall k, ~ In k FetchData.cashflow_metric_keys -> m' !! k = m !! k).
Proof.
  intros Hc. unfold cashflow_metrics, FetchData.cashflow_metric_keys.
  repeat match goal with
    | |- context [safe_float (first_truthy cashflow ?keys)] =>
        let x := fresh "x" in
        destruct (safe_float_first_truthy cashflow keys Hc) as [x ->];
        rewrite bind_Ok
    end.
  rename x into operating_cf, x0 into investing_cf, x1 into financing_cf,
    x2 into capex, x3 into net_cash_increase, x4 into ending_cash,
    x5 into dividends_paid.
  atom (u "ocf_to_np") k0. atom (u "operating_cash_flow_billion") k1.
  atom (u "investing_cash_flow_billion") k2. atom (u "financing_cash_flow_billion") k3.
  atom (u "free_cash_flow_billion") k4. atom (u "capex_billion") k5.
  atom (u "net_cash_increase_billion") k6. atom (u "ending_cash_billion") k7.
  atom (u "dividends_paid_billion") k8. atom (u "cash_quality") k9.
  atom (u "capex_ratio") k10.
  clearbody k0 k1 k2 k3 k4 k5 k6 k7 k8 k9 k10.
  erewrite (guard_stage64 (negb (net_profit =? 0)))
    by (intros Hnz; apply negb_true_iff in Hnz; apply if_truthy_pct64; exact Hnz).
  rewrite bind_Ok.
  rewrite !(if_truthy_div64 _ _ 1e8) by apply e8_nonzero.
  rewrite !(rounded_div64 _ 1e8) by apply e8_nonzero.
  rewrite !bind_Ok.
  rewrite (cash_quality_stage64 _ _ _ _ _ k9)
    by (intros Hp; now apply ltb_eqb_false).
  rewrite bind_Ok.
  erewrite (guard_stage64 (negb (operating_cf =? 0)))
    by (intros Hnz; apply negb_true_iff in Hnz; apply if_truthy_abs_pct64; exact Hnz).
  eexists. split; [reflexivity |].
  intros k Hk. other_key Hk.
  destruct (negb (operating_cf =? 0)),
           ((0 <? operating_cf) && (0 <? net_profit)), (operating_cf <? 0),
           (negb (net_profit =? 0));
    lookups; reflexivity.
Qed.

Ltac stage64 :=
  first
    [ erewrite guard_stage2_64
        by (intros Hp%ltb_eqb_false;
            first [apply if_truthy_pct64 | apply if_truthy_div64]; exact Hp)
    | erewrite guard_stage64
        by (intros Hp%ltb_eqb_false;
            first [apply if_truthy_pct64 | apply if_truthy_div64 | apply rounded_div64];
            exact Hp) ];
  rewrite bind_Ok.

(** The derived metrics on convertible rows: the computation returns, sets
    none but its keys, and guards [roe] and [gross_margin] as follows. *)
Lemma calculate_advanced_metrics_spec64
    (income balance : gmap pystr pyvalue) (cashflow : option (gmap pystr pyvalue)) :
  all_convertible income -> all_convertible balance ->
  (forall cf, cashflow = Some cf -> all_convertible cf) ->
  exists m revenue cost net_profit total_assets total_liabilities,
    revenue_of income = Ok revenue /\ cost_of income = Ok cost
    /\ net_profit_of income = Ok net_profit
    /\ total_assets_of balance = Ok total_assets
    /\ total_liabilities_of balance = Ok total_liabilities
    /\ calculate_advanced_metrics income balance cashflow = Ok m
    /\ (forall k, ~ In k FetchData.advanced_metric_keys -> m !! k = None)
    /\ m !! u "roe"
       = (if 0 <? total_assets - total_liabilities
          then Some (if truthy net_profit
                     then VFloat (py_round2
                                    (net_profit / (total_assets - total_liabilities) * 100))
                     else VNone)
          else None)
    /\ m !! u "gross_margin"
       = (if 0 <? revenue
          then Some (if truthy cost
                     then VFloat (py_round2 ((revenue - cost) / revenue * 100))
                     else VNone)
          else None).
Proof.
  intros Hi Hb Hcf. unfold calculate_advanced_metrics.
  unfold revenue_of, cost_of, net_profit_of, operating_profit_of, total_assets_of,
    total_liabilities_of, current_assets_of, current_liabilities_of, inventory_of.
  repeat match goal with
    | |- context [safe_float (first_truthy income ?keys)] =>
        let x := fresh "x" in
        destruct (safe_float_first_truthy income keys Hi) as [x ->]
    | |- context [safe_float (first_truthy balance ?keys)] =>
        let x := fresh "x" in
        destruct (safe_float_first_truthy balance keys Hb) as [x ->]
    end.
  rewrite !bind_Ok.
  rename x into revenue, x0 into cost, x1 into net_profit, x2 into operating_profit,
    x3 into total_assets, x4 into total_liabilities, x5 into current_assets,
    x6 into current_liabilities, x7 into inventory.
  cbv zeta. set (equity := total_assets - total_liabilities).
  assert (forall m,
            exists m',
              match cashflow with
              | Some cf =>
                  if bool_decide (cf = ∅) then Ok m
                  else cashflow_metrics net_profit cf m
              | None => Ok m
              end = Ok m'
              /\ (forall k, ~ In k FetchData.cashflow_metric_keys -> m' !! k = m !! k))
    as Hcash.
  { intros m. destruct cashflow as [cf |]; [| eauto].
    destruct (bool_decide (cf = ∅)); [eauto |].
    exact (cashflow_metrics_Ok64 net_profit cf m (Hcf cf eq_refl)). }
  assert (forall k, ~ In k FetchData.advanced_metric_keys ->
                    ~ In k FetchData.cashflow_metric_keys
                    /\ ~ In k [u "gross_margin"; u "operating_margin"; u "roe"; u "roa";
                               u "current_ratio"; u "quick_ratio"; u "equity_multiplier";
                               u "asset_turnover"]) as Hkeys.
  { intros k Hk. unfold FetchData.advanced_metric_keys in Hk.
    split; intros Hin; apply Hk, in_or_app; [right | left]; exact Hin. }
  assert (~ In (u "roe") FetchData.cashflow_metric_keys) as Hroe by key_not_in.
  assert (~ In (u "gross_margin") FetchData.cashflow_metric_keys) as Hgm by key_not_in.
  atom (u "gross_margin") k1. atom (u "operating_margin") k2. atom (u "roe") k3.
  atom (u "roa") k4. atom (u "current_ratio") k5. atom (u "quick_ratio") k6.
  atom (u "equity_multiplier") k7. atom (u "asset_turnover") k8.
  distinct_from k1. distinct_from k3.
  clearbody k1 k2 k3 k4 k5 k6 k7 k8.
  do 6 stage64.
  match goal with
  | |- context [match cashflow with Some _ => _ | None => Ok ?M end] =>
      destruct (Hcash M) as (m' & -> & F)
  end.
  exists m', revenue, cost, net_profit, total_assets, total_liabilities.
  do 5 (split; [reflexivity |]). split; [reflexivity |]. fold equity.
  split; [| split].
  - intros k Hk. destruct (Hkeys k Hk) as [Hc Ha]. rewrite (F k Hc). other_key Ha.
    destruct (0 <? revenue), (0 <? equity), (0 <? total_assets),
             (0 <? current_liabilities);
      lookups; reflexivity.
  - rewrite (F k3 Hroe).
    destruct (0 <? revenue), (0 <? equity), (0 <? total_assets),
             (0 <? current_liabilities);
      lookups; reflexivity.
  - rewrite (F k1 Hgm).
    destruct (0 <? revenue), (0 <? equity), (0 <? total_assets),
             (0 <? current_liabilities);
      lookups; reflexivity.
Qed.


End AdvancedMetrics64.


(** ** The basic metrics and the DuPont analysis in binary64 *)

Section KeyMetrics64.
Import Binary64 FetchData64.
Local Open Scope float_scope.

Lemma first_column_Ok (row : gmap pystr pyvalue) (cols : list pystr) :
  all_convertible row -> exists c, first_column row cols = Ok c.
Proof.
  intros H. unfold first_column. destruct (find (has_value row) cols) as [col |]; [| eauto].
  assert (convertible (dict_get row col)) as Hc.
  { unfold dict_get. destruct (row !! col) as [v |] eqn:E; [exact (H col v E) | exact I]. }
  destruct (dict_get row col); cbn in *; eauto.
  destruct Hc as [x ->]. rewrite bind_Ok. eauto.
Qed.

Lemma extract_key_metrics_spec64 (income balance : gmap pystr pyvalue) :
  all_convertible income -> all_convertible balance ->
  exists b revenue net_profit assets liabilities,
    first_column income FetchData.revenue_columns = Ok revenue
    /\ first_column income FetchData.net_profit_columns = Ok net_profit
    /\ first_column balance FetchData.total_assets_columns = Ok assets
    /\ first_column balance FetchData.total_liabilities_columns = Ok liabilities
    /\ extract_key_metrics income balance = Ok b
    /\ (forall k, ~ In k FetchData.basic_metric_keys -> b !! k = None)
    /\ b !! u "net_profit_margin"
       = match revenue, net_profit with
         | Some revenue, Some net_profit =>
             if 0 <? revenue / 1e8
             then Some (VFloat (py_round2 (net_profit / 1e8 / (revenue / 1e8) * 100)))
             else None
         | _, _ => None
         end
    /\ b !! u "debt_ratio"
       = match assets, liabilities with
         | Some assets, Some liabilities =>
             if 0 <? assets / 1e8
             then Some (VFloat (py_round2 (liabilities / 1e8 / (assets / 1e8) * 100)))
             else None
         | _, _ => None
         end.
Proof.
  intros Hi Hb. unfold extract_key_metrics, FetchData.basic_metric_keys.
  destruct (first_column_Ok income FetchData.revenue_columns Hi) as [cr ->].
  destruct (first_column_Ok income FetchData.net_profit_columns Hi) as [cn ->].
  destruct (first_column_Ok balance FetchData.total_assets_columns Hb) as [ca ->].
  destruct (first_column_Ok balance FetchData.total_liabilities_columns Hb) as [cl ->].
  cbv zeta.
  atom (u "revenue_billion") kr. atom (u "net_profit_billion") kn.
  atom (u "net_profit_margin") km. atom (u "total_assets_billion") ka.
  atom (u "total_liabilities_billion") kl. atom (u "debt_ratio") kd.
  distinct_from kr. distinct_from kn. distinct_from km. distinct_from ka.
  distinct_from kl.
  clearbody kr kn km ka kl kd.
  destruct cr as [revenue |], cn as [net_profit |], ca as [assets |],
           cl as [liabilities |];
    repeat first
      [ rewrite bind_Ok
      | rewrite truediv_Ok by exact e8_nonzero
      | progress lookups
      | progress cbn [safe_float]
      | match goal with
        | |- context [if 0 <? ?x then _ ≫= _ else _] =>
            let E := fresh "E" in
            destruct (0 <? x) eqn:E; [rewrite (truediv_pos _ _ E) |]
        end ];
    eexists _, _, _, _, _;
    do 5 (split; [reflexivity |]);
    (split; [intros k Hk; other_key Hk; lookups; reflexivity |]);
    repeat match goal with H : (0 <? _) = _ |- _ => rewrite H; clear H end;
    lookups; split; reflexivity.
Qed.


(** X18: On rows none of whose values is an int beyond the float range,
    [extract_key_metrics] returns and sets none but its six keys.  Its two
    ratios are computed from the columns scaled to units of 1e8, in
    binary64: [round(net_profit / 1e8 / (revenue / 1e8) * 100, 2)] and
    [round(liabilities / 1e8 / (assets / 1e8) * 100, 2)]; each is set exactly
    when both of its columns hold a value and the scaled denominator is
    positive. *)
Theorem extract_key_metrics_ratios (income balance : gmap pystr pyvalue) :
  all_convertible income -> all_convertible balance ->
  exists basic_metrics revenue net_profit assets liabilities,
    first_column income FetchData.revenue_columns = Ok revenue
    /\ first_column income FetchData.net_profit_columns = Ok net_profit
    /\ first_column balance FetchData.total_assets_columns = Ok assets
    /\ first_column balance FetchData.total_liabilities_columns = Ok liabilities
    /\ extract_key_metrics income balance = Ok basic_metrics
    /\ (forall k, ~ In k FetchData.basic_metric_keys -> basic_metrics !! k = None)
    /\ basic_metrics !! u "net_profit_margin"
       = match revenue, net_profit with
         | Some revenue, Some net_profit =>
             if 0 <? revenue / 1e8
             then Some (VFloat (py_round2 (net_profit / 1e8 / (revenue / 1e8) * 100)))
             else None
         | _, _ => None
         end
    /\ basic_metrics !! u "debt_ratio"
       = match assets, liabilities with
         | Some assets, Some liabilities =>
             if 0 <? assets / 1e8
             then Some (VFloat (py_round2 (liabilities / 1e8 / (assets / 1e8) * 100)))
             else None
         | _, _ => None
         end.
Proof. exact (extract_key_metrics_spec64 income balance). Qed.

(** X19: On rows none of whose values is an int beyond the float range,
    the basic and the derived metrics are both computed and never share a
    key: the merge of the two dictionaries loses nothing, whichever of
    them is given precedence. *)
Theorem basic_and_advanced_metrics_disjoint (income balance : gmap pystr pyvalue)
    (cashflow : option (gmap pystr pyvalue)) :
  all_convertible income -> all_convertible balance ->
  (forall cf, cashflow = Some cf -> all_convertible cf) ->
  exists basic_metrics advanced_metrics,
    extract_key_metrics income balance = Ok basic_metrics
    /\ calculate_advanced_metrics income balance cashflow = Ok advanced_metrics
    /\ basic_metrics ##ₘ advanced_metrics
    /\ advanced_metrics ∪ basic_metrics = basic_metrics ∪ advanced_metrics.
Proof.
  intros Hi Hb Hcf.
  destruct (extract_key_metrics_spec64 income balance Hi Hb)
    as (b & _ & _ & _ & _ & _ & _ & _ & _ & Eb & Fb & _).
  destruct (calculate_advanced_metrics_spec64 income balance cashflow Hi Hb Hcf)
    as (a & _ & _ & _ & _ & _ & _ & _ & _ & _ & _ & Ea & Fa & _).
  exists b, a. split; [exact Eb |]. split; [exact Ea |].
  assert (b ##ₘ a) as Hdisj.
  { apply map_disjoint_alt. intros i.
    destruct (a !! i) as [x |] eqn:Ei; [left | now right].
    apply Fb. intros Hin. cbn [In FetchData.basic_metric_keys] in Hin.
    repeat destruct Hin as [Hin | Hin]; try contradiction; subst i;
      rewrite Fa in Ei by key_not_in; discriminate Ei. }
  split; [exact Hdisj |]. symmetry. now apply map_union_comm.
Qed.

(** X23: On rows none of whose values is an int beyond the float range,
    [dupont_analysis] returns, and it reports [roe_dupont] exactly when the
    revenue, the total assets and the equity are all positive: the product
    of the three rounded factors divided by 100 and rounded, in binary64. *)
Theorem dupont_roe_when_all_positive (income balance : gmap pystr pyvalue) :
  all_convertible income -> all_convertible balance ->
  exists dupont revenue net_profit total_assets total_liabilities,
    safe_float (first_truthy income [u "TOTAL_OPERATE_INCOME"; u "营业收入"]) = Ok revenue
    /\ safe_float (first_truthy income [u "NETPROFIT"; u "净利润"]) = Ok net_profit
    /\ safe_float (first_truthy balance [u "TOTAL_ASSETS"; u "资产总计"]) = Ok total_assets
    /\ safe_float (first_truthy balance [u "TOTAL_LIABILITIES"; u "负债合计"])
       = Ok total_liabilities
    /\ dupont_analysis income balance = Ok dupont
    /\ let equity := total_assets - total_liabilities in
       dupont !! u "roe_dupont"
       = if (0 <? revenue) && (0 <? total_assets) && (0 <? equity)
         then Some (VFloat (py_round2 (py_round2 (net_profit / revenue * 100)
                                       * py_round2 (revenue / total_assets)
                                       * py_round2 (total_assets / equity) / 100)))
         else None.
Proof.
  intros Hi Hb. unfold dupont_analysis.
  repeat match goal with
    | |- context [safe_float (first_truthy income ?keys)] =>
        let x := fresh "x" in
        destruct (safe_float_first_truthy income keys Hi) as [x ->]
    | |- context [safe_float (first_truthy balance ?keys)] =>
        let x := fresh "x" in
        destruct (safe_float_first_truthy balance keys Hb) as [x ->]
    end.
  rewrite !bind_Ok.
  rename x into revenue, x0 into net_profit, x1 into total_assets,
    x2 into total_liabilities.
  cbv zeta. set (equity := total_assets - total_liabilities).
  atom (u "net_margin") k1. atom (u "asset_turnover") k2.
  atom (u "equity_multiplier") k3. atom (u "roe_dupont") k4.
  distinct_from k1. distinct_from k2. distinct_from k3.
  clearbody k1 k2 k3 k4.
  destruct (0 <? revenue) eqn:Er, (0 <? total_assets) eqn:Ea, (0 <? equity) eqn:Ee;
    rewrite ?(truediv_pos _ _ Er), ?(truediv_pos _ _ Ea), ?(truediv_pos _ _ Ee),
      ?bind_Ok;
    lookups; cbn [safe_float]; rewrite ?bind_Ok;
    rewrite ?truediv_Ok by reflexivity; rewrite ?bind_Ok;
    eexists _, _, _, _, _;
    do 5 (split; [reflexivity |]);
    cbv zeta; fold equity; rewrite Er, Ea, Ee; cbn [andb]; lookups; reflexivity.
Qed.


End KeyMetrics64.

Lemma extract_key_metrics_ratios_witness :
  exists basic_metrics,
    FetchData64.extract_key_metrics FetchData64.example_income FetchData64.small_balance
    = Ok basic_metrics
    /\ basic_metrics !! u "net_profit_margin"
       = Some (Binary64.VFloat (Binary64.number 14.38))
    /\ basic_metrics !! u "debt_ratio" = Some (Binary64.VFloat (Binary64.number 9.37))
    /\ basic_metrics !! u "roe" = None.
Proof.
  assert (Binary64.all_convertible FetchData64.example_income) as Hi by rows_convertible.
  assert (Binary64.all_convertible FetchData64.small_balance) as Hb by rows_convertible.
  destruct (extract_key_metrics_ratios FetchData64.example_income
              FetchData64.small_balance Hi Hb)
    as (b & cr & cn & ca & cl & Er & En & Ea & El & Hm & Hf & Hnpm & Hdr).
  vm_compute in Er, En, Ea, El.
  injection Er as <-. injection En as <-. injection Ea as <-. injection El as <-.
  exists b. split; [exact Hm |]. split; [| split].
  - rewrite Hnpm. vm_compute. reflexivity.
  - rewrite Hdr. vm_compute. reflexivity.
  - apply Hf. key_not_in.
Defined.

Lemma basic_and_advanced_metrics_disjoint_witness :
  exists basic_metrics advanced_metrics,
    FetchData64.extract_key_metrics FetchData64.example_income
      FetchData64.example_balance = Ok basic_metrics
    /\ FetchData64.calculate_advanced_metrics FetchData64.example_income
         FetchData64.example_balance None = Ok advanced_metrics
    /\ basic_metrics ##ₘ advanced_metrics
    /\ advanced_metrics ∪ basic_metrics = basic_metrics ∪ advanced_metrics.
Proof.
  apply (basic_and_advanced_metrics_disjoint FetchData64.example_income
           FetchData64.example_balance None);
    [rows_convertible | rows_convertible | discriminate].
Defined.

Lemma dupont_roe_when_all_positive_witness :
  exists dupont,
    FetchData64.dupont_analysis FetchData64.thin_income FetchData64.unlevered_balance
    = Ok dupont
    /\ dupont !! u "roe_dupont" = Some (Binary64.VFloat (Binary64.number 0.01)).
Proof.
  assert (Binary64.all_convertible FetchData64.thin_income) as Hi by rows_convertible.
  assert (Binary64.all_convertible FetchData64.unlevered_balance) as Hb
    by rows_convertible.
  destruct (dupont_roe_when_all_positive FetchData64.thin_income
              FetchData64.unlevered_balance Hi Hb)
    as (d & r & n & a & l & Er & En & Ea & El & Hd & Hroe).
  vm_compute in Er, En, Ea, El.
  injection Er as <-. injection En as <-. injection Ea as <-. injection El as <-.
  exists d. split; [exact Hd |]. rewrite Hroe. vm_compute. reflexivity.
Defined.
